(** * kosh: the incremental build pipeline

    A shallow embedding of the post pipeline and build coordinator
    ([postServiceImpl.Process], package [services]) and of the watch-mode
    change classifier ([Builder.BuildChanged] and [Builder.buildSinglePost],
    package [run]), together with the properties of the specification that
    concern them; and of the template invalidation of package [run] and
    the flag loops of the command [kosh], with further properties of all
    of these.

    Conventions.
    - A Go [string] and a Go [[]byte] are byte sequences: [string] here.
    - Go [int], [int64] are [Z]; the [int32] search counter is a [Z] whose
      wrap-around is written out ([wrap32]).
    - [time.Time] is an instant in nanoseconds since the epoch, in [Z].
    - A nil-able pointer or interface is an [option].
    - [map[string]T] is [gmap string T]; [sync.Map] keyed by links likewise.
    - A slice written by index is a [list] with an explicit bounds check.
    - Functions of packages that are not part of the files modelled here
      (utils, parser, search, goldmark, filepath, ...) are the methods of
      the classes [GoLib], [Utils] and [Markdown]; the interfaces
      [CacheService] and [afero.Fs] are classes over an abstract state.
      Theorems hold for every instance; the module [fixture] gives small
      executable instances on which the pipeline is run.
    - Parse workers are run one after the other, in the order of
      submission; the one place where their interleaving matters, the
      search counter, has a model of its own ([services.step]). *)

From Stdlib Require Import ZArith List Bool Lia Permutation Ascii String.
From stdpp Require Import base option list strings gmap.

Local Open Scope string_scope.
Local Open Scope Z_scope.

Set Default Proof Using "Type".
Local Set Warnings "-register-all".

(** ** Go standard library: the byte-wise string functions the code calls *)

Module strings.

(** [strings.HasPrefix(s, prefix)] *)
Definition HasPrefix (s pre : string) : bool := String.prefix pre s.

(** [s[n:]] for [n <= len(s)] *)
Fixpoint from (n : nat) (s : string) : string :=
  match n, s with
  | O, _ => s
  | S n', String _ s' => from n' s'
  | S _, EmptyString => EmptyString
  end.

(** [s[:n]] for [n <= len(s)] *)
Fixpoint upto (n : nat) (s : string) : string :=
  match n, s with
  | O, _ => EmptyString
  | S n', String c s' => String c (upto n' s')
  | S _, EmptyString => EmptyString
  end.

(** [strings.HasSuffix(s, suffix)] *)
Definition HasSuffix (s suf : string) : bool :=
  (String.length suf <=? String.length s)%nat &&
  String.eqb (from (String.length s - String.length suf) s) suf.

(** [strings.Contains(s, substr)] *)
Fixpoint Contains (s substr : string) : bool :=
  String.prefix substr s ||
  match s with
  | EmptyString => false
  | String _ s' => Contains s' substr
  end.

(** [strings.Replace(s, old, new, 1)]: the first occurrence only *)
Fixpoint Replace1 (s old new : string) : string :=
  if String.prefix old s then new +:+ from (String.length old) s
  else match s with
       | EmptyString => EmptyString
       | String c s' => String c (Replace1 s' old new)
       end.

(** [strings.TrimPrefix(s, prefix)] *)
Definition TrimPrefix (s pre : string) : string :=
  if HasPrefix s pre then from (String.length pre) s else s.

(** [strings.TrimSuffix(s, suffix)] *)
Definition TrimSuffix (s suf : string) : string :=
  if HasSuffix s suf then upto (String.length s - String.length suf) s else s.

End strings.

(** ** Time *)

Module time.
(** An instant, in nanoseconds since the Unix epoch. *)
Definition Time := Z.
(** [t.Unix()]: whole seconds since the epoch. *)
Definition Unix (t : Time) : Z := t / 1000000000.
(** [t.After(u)] *)
Definition After (t u : Time) : bool := u <? t.
(** The zero [time.Time] (year 1), as an instant. *)
Definition zero : Time := -62135596800 * 1000000000.
End time.

(** [os.FileInfo], as far as the code reads it. *)
Record FileInfo := mkFileInfo {
  fi_ModTime : time.Time;
  fi_Size : Z;
  fi_IsDir : bool }.

(** The result of [os.Stat]: the code tells "does not exist" from other
    errors ([os.IsNotExist]). *)
Inductive StatResult :=
| StatOk (info : FileInfo)
| StatNotExist
| StatErr.

(** ** Dynamic values of the front-matter bag [map[string]interface{}] *)

Inductive Value :=
| VNil
| VBool (b : bool)
| VInt (n : Z)
| VFloat64 (mant exp : Z)   (* the finite double mant * 2^exp *)
| VString (s : string)
| VSlice (l : list Value).

(** [int(w)] for a float64 [w]: truncation toward zero. For a value
    outside the range of [int64] the result is implementation-specific;
    on amd64 it is the smallest [int64]. *)
Definition int_of_float64 (mant exp : Z) : Z :=
  let t := if 0 <=? exp then mant * 2 ^ exp else Z.quot mant (2 ^ (- exp)) in
  if (- 2 ^ 63 <=? t) && (t <? 2 ^ 63) then t else - 2 ^ 63.

Abbreviation MetaMap := (gmap string Value).

(** [v, ok := m[k].(bool)] and its siblings: a failed assertion yields the
    zero value. *)
Definition assert_bool (m : MetaMap) (k : string) : bool * bool :=
  match m !! k with Some (VBool b) => (b, true) | _ => (false, false) end.
Definition assert_int (m : MetaMap) (k : string) : Z * bool :=
  match m !! k with Some (VInt n) => (n, true) | _ => (0, false) end.
Definition assert_float64 (m : MetaMap) (k : string) : option (Z * Z) :=
  match m !! k with Some (VFloat64 a e) => Some (a, e) | _ => None end.
Definition assert_string (m : MetaMap) (k : string) : option string :=
  match m !! k with Some (VString s) => Some s | _ => None end.

(** ** Go runtime: the [int32] counter and indexed stores *)

(** A mathematical integer reduced to the range of [int32]. *)
Definition wrap32 (z : Z) : Z := (z + 2 ^ 31) mod 2 ^ 32 - 2 ^ 31.

(** [atomic.AddInt32(&v, delta)]: the new value, which is also stored. *)
Definition AddInt32 (v delta : Z) : Z := wrap32 (v + delta).

(** [l[i] = x]: [None] is the index-out-of-range panic. *)
Definition slice_store {A} (l : list A) (i : Z) (x : A) : option (list A) :=
  if (0 <=? i) && (i <? Z.of_nat (length l))
  then Some (<[Z.to_nat i := x]> l)
  else None.

(** ** Data model *)

(** Package [config], as far as the pipeline reads it. *)
Module config.
Record Version := mkVersion {
  Name : string;
  IsLatest : bool }.

Record Features := mkFeatures {
  RawMarkdown : bool }.

Record Config := mkConfig {
  ContentDir : string;
  OutputDir : string;
  TemplateDir : string;
  StaticDir : string;
  BaseURL : string;
  Title : string;
  BuildVersion : string;
  CompressImages : bool;
  IncludeDrafts : bool;
  features : Features;
  Versions : list Version }.
End config.


(** Package [models]. *)
Module models.
Record PostMetadata := mkPostMetadata {
  Title : string;
  Link : string;
  Weight : Z;
  Version : string;
  DateObj : time.Time;
  ReadingTime : Z;
  Description : string;
  Tags : list string;
  Pinned : bool;
  Draft : bool }.

(** The zero value of [var post models.PostMetadata]. *)
Definition PostMetadata_zero : PostMetadata :=
  mkPostMetadata "" "" 0 "" time.zero 0 "" [] false false.

Record TOCEntry := mkTOCEntry {
  toc_ID : string;
  toc_Text : string;
  toc_Level : Z }.

Record PostRecord := mkPostRecord {
  rec_ID : Z;
  rec_Title : string;
  rec_NormalizedTitle : string;
  rec_Link : string;
  rec_Description : string;
  rec_Tags : list string;
  rec_NormalizedTags : list string;
  rec_Content : string;
  rec_Version : string }.

Definition PostRecord_zero : PostRecord :=
  mkPostRecord 0 "" "" "" "" [] [] "" "".

Record IndexedPost := mkIndexedPost {
  Record_ : PostRecord;
  WordFreqs : gmap string Z;
  DocLen : Z }.

Definition IndexedPost_zero : IndexedPost :=
  mkIndexedPost PostRecord_zero ∅ 0.
(** Modelled from the spec: a node of the per-version site tree, "a
    hierarchy derived from URL segments" (section 4.4, P4); the type is
    declared in package [models], outside the modelled files, and the
    pipeline only passes it on to the templates. *)
Inductive TreeNode :=
| mkTreeNode (node_Name : string) (node_Link : string) (node_Children : list TreeNode).

(** Modelled from the spec: an entry of the version selector handed to the
    templates ([cfg.GetVersionsMetadata]); opaque to the pipeline. *)
Record VersionInfo := mkVersionInfo {
  vi_Name : string;
  vi_URL : string;
  vi_IsLatest : bool;
  vi_IsCurrent : bool }.

Record PageData := mkPageData {
  pd_Title : string;
  pd_Description : string;
  pd_Content : string;
  pd_Meta : MetaMap;
  pd_BaseURL : string;
  pd_BuildVersion : string;
  pd_TabTitle : string;
  pd_Permalink : string;
  pd_Image : string;
  pd_TOC : list TOCEntry;
  pd_Config : config.Config;
  pd_CurrentVersion : string;
  pd_IsOutdated : bool;
  pd_Versions : list VersionInfo;
  pd_Weight : Z;
  pd_SiteTree : list TreeNode;
  pd_PrevPage : option PostMetadata;
  pd_NextPage : option PostMetadata }.
End models.

(** Package [cache]: the records the pipeline exchanges with the store. *)
Module cache.
(** [cache.PostMeta]. The fields [InlineHTML] and [HTMLRef] are not read
    by the pipeline; they are where [StoreHTMLForPost] records the HTML
    (specification, section 4.2). *)
Record PostMeta := mkPostMeta {
  PostID : string;
  Path : string;
  ModTime : Z;
  ContentHash : string;
  BodyHash : string;
  Title : string;
  Date : time.Time;
  Tags : list string;
  ReadingTime : Z;
  Description : string;
  Link : string;
  Pinned : bool;
  Weight : Z;
  Draft : bool;
  Meta : MetaMap;
  TOC : list models.TOCEntry;
  Version : string;
  SSRInputHashes : list string;
  InlineHTML : option string;
  HTMLRef : string }.

Record SearchRecord := mkSearchRecord {
  sr_Title : string;
  sr_NormalizedTitle : string;
  sr_BM25Data : gmap string Z;
  sr_DocLen : Z;
  sr_Content : string;
  sr_NormalizedTags : list string }.

Record Dependencies := mkDependencies {
  dep_Tags : list string }.
End cache.

(** ** Interfaces *)

(** A Go result [(v, err)]: the code never uses [v] when [err != nil]. *)
Inductive GoResult (A : Type) :=
| Ok (a : A)
| Err.
Arguments Ok {A} a.
Arguments Err {A}.

(** [afero.Fs], with [afero.ReadFile], [afero.WriteFile] and [afero.Walk].
    The boolean of a mutating call is [err != nil]. [Walk] lists the
    visited paths in order, each with the [err != nil] its callback gets,
    and its own final [err != nil]. *)
Class Fs (F : Type) := {
  Stat : F -> string -> option FileInfo;
  ReadFile : F -> string -> option string;
  MkdirAll : F -> string -> F * bool;
  WriteFile : F -> string -> string -> F * bool;
  Walk : F -> string -> list (string * bool) * bool }.

(** The [CacheService] interface, over the state [C] of the store. Reads
    are functions of the state; writes return the new state and
    [err != nil]. [ListAllPosts] is optional: the code reaches it through a
    type assertion. [StoreHTMLForPost] takes the record by pointer and may
    set its HTML fields. *)
Class CacheService (C : Type) := {
  GetPostByPath : C -> string -> GoResult (option cache.PostMeta);
  GetPost : C -> string -> GoResult (option cache.PostMeta);
  ListAllPosts : option (C -> list string);
  GetPostsByIDs : C -> list string -> list cache.PostMeta;
  GetSocialCardHash : C -> string -> string;
  GetHTMLContent : C -> cache.PostMeta -> GoResult (option string);
  GetSearchRecord : C -> string -> GoResult (option cache.SearchRecord);
  DeletePost : C -> string -> C * bool;
  SetSocialCardHash : C -> string -> string -> C * bool;
  StoreHTMLForPost : C -> cache.PostMeta -> string -> C * cache.PostMeta * bool;
  BatchCommit : C -> list cache.PostMeta -> gmap string cache.SearchRecord ->
                gmap string cache.Dependencies -> C * bool }.

(** Functions of the Go standard library whose result depends on Unicode
    tables or on the operating system. *)
Class GoLib := {
  ToLower : string -> string;
  TrimSpace : string -> string;
  Fields : string -> list string;
  filepath_Join : list string -> string;
  filepath_Ext : string -> string;
  filepath_Dir : string -> string;
  filepath_ToSlash : string -> string;
  (** [time.Parse("2006-01-02", s)], the zero time on error *)
  time_Parse : string -> time.Time;
  (** [os.Stat] on the operating system's file system *)
  os_Stat : string -> StatResult }.

(** Packages [utils] and [cache] (functions), and the constant
    [wordsPerMinute] of package [services]: declared outside the modelled
    files. *)
Class Utils := {
  SafeRel : string -> string -> string * bool;
  GetVersionFromPath : string -> string;
  GetBodyHash : string -> string;
  GetFrontmatterHash : MetaMap -> string;
  GetString : MetaMap -> string -> string;
  GetSlice : MetaMap -> string -> list string;
  GetBool : MetaMap -> string -> bool;
  BuildURL : string -> string -> string -> string;
  ReplaceToWebP : string -> string;
  GeneratePostID : string -> string -> string;
  SortPosts : list models.PostMetadata -> list models.PostMetadata;
  BuildSiteTree : list models.PostMetadata -> string -> list models.TreeNode;
  FindPrevNext : models.PostMetadata -> list models.PostMetadata ->
                 option models.PostMetadata * option models.PostMetadata;
  wordsPerMinute : Z;
  isOutdatedVersion : config.Config -> string -> bool;
  GetVersionsMetadata : config.Config -> string -> string -> list models.VersionInfo }.

(** Modelled from the spec: [utils.MaxFileSize], "10 MiB" (section 4.3,
    step 2); the constant is declared in package [utils]. *)
Definition MaxFileSize : Z := 10 * 1024 * 1024.

(** The Markdown engine and its extensions (goldmark, goldmark-meta,
    package [parser], the search analyzer), over the type [Doc] of a parsed
    document with its parse context. *)
Class Markdown (Doc : Type) := {
  Parse : string -> string -> Doc;
  Render : Doc -> string -> GoResult string;
  GetD2SVGPairSlice : Doc -> option (list (string * string));
  ReplaceD2BlocksWithThemeSupport : string -> list (string * string) -> string;
  GetSSRHashes : Doc -> list string;
  RenderMathForHTML : string -> option (gmap string string) -> string * list string;
  meta_Get : Doc -> MetaMap;
  GetTOC : Doc -> list models.TOCEntry;
  ExtractPlainText : Doc -> string -> string;
  Analyze : string -> list string }.

(** ** Package [services]: the post pipeline and the build coordinator *)

Module services.

Inductive Level := Info | Warn | Error.

(** A log record: level, message (without its leading pictogram) and the
    value of its first attribute. *)
Definition LogEntry : Type := Level * string * string.

(** The local type [RenderContext] of [Process]. *)
Record RenderContext := mkRenderContext {
  DestPath : string;
  Data : models.PageData;
  Version : string }.

Record socialCardTask := mkSocialCardTask {
  sct_path : string;
  sct_relPath : string;
  sct_cardDestPath : string;
  sct_metaData : MetaMap;
  sct_frontmatterHash : string }.

(** The three arguments of one [BatchCommit] call. *)
Definition BatchArgs : Type :=
  list cache.PostMeta * gmap string cache.SearchRecord * gmap string cache.Dependencies.

(** [PostResult] *)
Record PostResult := mkPostResult {
  AllPosts : list models.PostMetadata;
  PinnedPosts : list models.PostMetadata;
  TagMap : gmap string (list models.PostMetadata);
  IndexedPosts : list models.IndexedPost;
  AnyPostChanged : bool;
  Has404 : bool }.

(** The zero [models.PageData] and [RenderContext] of a preallocated
    [renderQueue]. *)
Definition Config_zero : config.Config :=
  config.mkConfig "" "" "" "" "" "" "" false false (config.mkFeatures false) [].
Definition PageData_zero : models.PageData :=
  models.mkPageData "" "" "" ∅ "" "" "" "" "" [] Config_zero "" false [] 0 [] None None.
Definition RenderContext_zero : RenderContext :=
  mkRenderContext "" PageData_zero "".

(** [context.Context]: what the n-th poll of [ctx.Done()] answers. *)
Definition Context := nat -> bool.

Declare Scope W_scope.
Delimit Scope W_scope with W.

(** How a piece of a worker body ends: it yields a value, or leaves the
    enclosing function early ([return]), or panics (a nil dereference or an
    index out of range). *)
Inductive Outcome (A : Type) :=
| Val (a : A)
| Returned
| Panicked.
Arguments Val {A} a.
Arguments Returned {A}.
Arguments Panicked {A}.

(** [searchRecord.ID = id] *)
Definition setID (id : Z) (r : models.PostRecord) : models.PostRecord :=
  models.mkPostRecord id (models.rec_Title r) (models.rec_NormalizedTitle r)
    (models.rec_Link r) (models.rec_Description r) (models.rec_Tags r)
    (models.rec_NormalizedTags r) (models.rec_Content r) (models.rec_Version r).

Section Pipeline.

Context {C DF SF Doc : Type}.
Context {cacheI : CacheService C} {destI : Fs DF} {srcI : Fs SF} {mdI : Markdown Doc}
        {libI : GoLib} {utilsI : Utils}.

(** The state a build threads through its phases: the shared variables of
    [Process], the stores behind the service's interfaces, and a record of
    the calls made to its collaborators. *)
Record BuildState := mkBuildState {
  (* [s.cache] and the state of the store behind it *)
  cacheSt : option C;
  (* the state of [s.destFs] *)
  destFsSt : DF;
  (* what [s.logger] was given, latest first *)
  logs : list LogEntry;
  (* [s.metrics] *)
  cacheHits : Z;
  cacheMisses : Z;
  postsProcessed : Z;
  (* shared variables of [Process] *)
  allMetadataMap : gmap string models.PostMetadata;
  newPostsMeta : list cache.PostMeta;
  newSearchRecords : gmap string cache.SearchRecord;
  newDeps : gmap string cache.Dependencies;
  indexedPosts : list models.IndexedPost;
  indexedPostIdx : Z;
  renderQueue : list RenderContext;
  cardJobs : list socialCardTask;
  anyPostChanged : bool;
  processedCount : Z;
  (* how many times [ctx.Done()] has been polled *)
  ctxPolls : nat;
  (* the calls of [BatchCommit], latest first *)
  batchCommits : list BatchArgs;
  (* the calls of [RenderPage], latest first *)
  renderedPages : list (string * models.PageData) }.

Definition upd_cacheSt (g : option C -> option C) (st : BuildState) : BuildState :=
  mkBuildState (g (cacheSt st)) (destFsSt st) (logs st) (cacheHits st) (cacheMisses st) (postsProcessed st) (allMetadataMap st) (newPostsMeta st) (newSearchRecords st) (newDeps st) (indexedPosts st) (indexedPostIdx st) (renderQueue st) (cardJobs st) (anyPostChanged st) (processedCount st) (ctxPolls st) (batchCommits st) (renderedPages st).
Definition upd_destFsSt (g : DF -> DF) (st : BuildState) : BuildState :=
  mkBuildState (cacheSt st) (g (destFsSt st)) (logs st) (cacheHits st) (cacheMisses st) (postsProcessed st) (allMetadataMap st) (newPostsMeta st) (newSearchRecords st) (newDeps st) (indexedPosts st) (indexedPostIdx st) (renderQueue st) (cardJobs st) (anyPostChanged st) (processedCount st) (ctxPolls st) (batchCommits st) (renderedPages st).
Definition upd_logs (g : list LogEntry -> list LogEntry) (st : BuildState) : BuildState :=
  mkBuildState (cacheSt st) (destFsSt st) (g (logs st)) (cacheHits st) (cacheMisses st) (postsProcessed st) (allMetadataMap st) (newPostsMeta st) (newSearchRecords st) (newDeps st) (indexedPosts st) (indexedPostIdx st) (renderQueue st) (cardJobs st) (anyPostChanged st) (processedCount st) (ctxPolls st) (batchCommits st) (renderedPages st).
Definition upd_cacheHits (g : Z -> Z) (st : BuildState) : BuildState :=
  mkBuildState (cacheSt st) (destFsSt st) (logs st) (g (cacheHits st)) (cacheMisses st) (postsProcessed st) (allMetadataMap st) (newPostsMeta st) (newSearchRecords st) (newDeps st) (indexedPosts st) (indexedPostIdx st) (renderQueue st) (cardJobs st) (anyPostChanged st) (processedCount st) (ctxPolls st) (batchCommits st) (renderedPages st).
Definition upd_cacheMisses (g : Z -> Z) (st : BuildState) : BuildState :=
  mkBuildState (cacheSt st) (destFsSt st) (logs st) (cacheHits st) (g (cacheMisses st)) (postsProcessed st) (allMetadataMap st) (newPostsMeta st) (newSearchRecords st) (newDeps st) (indexedPosts st) (indexedPostIdx st) (renderQueue st) (cardJobs st) (anyPostChanged st) (processedCount st) (ctxPolls st) (batchCommits st) (renderedPages st).
Definition upd_postsProcessed (g : Z -> Z) (st : BuildState) : BuildState :=
  mkBuildState (cacheSt st) (destFsSt st) (logs st) (cacheHits st) (cacheMisses st) (g (postsProcessed st)) (allMetadataMap st) (newPostsMeta st) (newSearchRecords st) (newDeps st) (indexedPosts st) (indexedPostIdx st) (renderQueue st) (cardJobs st) (anyPostChanged st) (processedCount st) (ctxPolls st) (batchCommits st) (renderedPages st).
Definition upd_allMetadataMap (g : gmap string models.PostMetadata -> gmap string models.PostMetadata) (st : BuildState) : BuildState :=
  mkBuildState (cacheSt st) (destFsSt st) (logs st) (cacheHits st) (cacheMisses st) (postsProcessed st) (g (allMetadataMap st)) (newPostsMeta st) (newSearchRecords st) (newDeps st) (indexedPosts st) (indexedPostIdx st) (renderQueue st) (cardJobs st) (anyPostChanged st) (processedCount st) (ctxPolls st) (batchCommits st) (renderedPages st).
Definition upd_newPostsMeta (g : list cache.PostMeta -> list cache.PostMeta) (st : BuildState) : BuildState :=
  mkBuildState (cacheSt st) (destFsSt st) (logs st) (cacheHits st) (cacheMisses st) (postsProcessed st) (allMetadataMap st) (g (newPostsMeta st)) (newSearchRecords st) (newDeps st) (indexedPosts st) (indexedPostIdx st) (renderQueue st) (cardJobs st) (anyPostChanged st) (processedCount st) (ctxPolls st) (batchCommits st) (renderedPages st).
Definition upd_newSearchRecords (g : gmap string cache.SearchRecord -> gmap string cache.SearchRecord) (st : BuildState) : BuildState :=
  mkBuildState (cacheSt st) (destFsSt st) (logs st) (cacheHits st) (cacheMisses st) (postsProcessed st) (allMetadataMap st) (newPostsMeta st) (g (newSearchRecords st)) (newDeps st) (indexedPosts st) (indexedPostIdx st) (renderQueue st) (cardJobs st) (anyPostChanged st) (processedCount st) (ctxPolls st) (batchCommits st) (renderedPages st).
Definition upd_newDeps (g : gmap string cache.Dependencies -> gmap string cache.Dependencies) (st : BuildState) : BuildState :=
  mkBuildState (cacheSt st) (destFsSt st) (logs st) (cacheHits st) (cacheMisses st) (postsProcessed st) (allMetadataMap st) (newPostsMeta st) (newSearchRecords st) (g (newDeps st)) (indexedPosts st) (indexedPostIdx st) (renderQueue st) (cardJobs st) (anyPostChanged st) (processedCount st) (ctxPolls st) (batchCommits st) (renderedPages st).
Definition upd_indexedPosts (g : list models.IndexedPost -> list models.IndexedPost) (st : BuildState) : BuildState :=
  mkBuildState (cacheSt st) (destFsSt st) (logs st) (cacheHits st) (cacheMisses st) (postsProcessed st) (allMetadataMap st) (newPostsMeta st) (newSearchRecords st) (newDeps st) (g (indexedPosts st)) (indexedPostIdx st) (renderQueue st) (cardJobs st) (anyPostChanged st) (processedCount st) (ctxPolls st) (batchCommits st) (renderedPages st).
Definition upd_indexedPostIdx (g : Z -> Z) (st : BuildState) : BuildState :=
  mkBuildState (cacheSt st) (destFsSt st) (logs st) (cacheHits st) (cacheMisses st) (postsProcessed st) (allMetadataMap st) (newPostsMeta st) (newSearchRecords st) (newDeps st) (indexedPosts st) (g (indexedPostIdx st)) (renderQueue st) (cardJobs st) (anyPostChanged st) (processedCount st) (ctxPolls st) (batchCommits st) (renderedPages st).
Definition upd_renderQueue (g : list RenderContext -> list RenderContext) (st : BuildState) : BuildState :=
  mkBuildState (cacheSt st) (destFsSt st) (logs st) (cacheHits st) (cacheMisses st) (postsProcessed st) (allMetadataMap st) (newPostsMeta st) (newSearchRecords st) (newDeps st) (indexedPosts st) (indexedPostIdx st) (g (renderQueue st)) (cardJobs st) (anyPostChanged st) (processedCount st) (ctxPolls st) (batchCommits st) (renderedPages st).
Definition upd_cardJobs (g : list socialCardTask -> list socialCardTask) (st : BuildState) : BuildState :=
  mkBuildState (cacheSt st) (destFsSt st) (logs st) (cacheHits st) (cacheMisses st) (postsProcessed st) (allMetadataMap st) (newPostsMeta st) (newSearchRecords st) (newDeps st) (indexedPosts st) (indexedPostIdx st) (renderQueue st) (g (cardJobs st)) (anyPostChanged st) (processedCount st) (ctxPolls st) (batchCommits st) (renderedPages st).
Definition upd_anyPostChanged (g : bool -> bool) (st : BuildState) : BuildState :=
  mkBuildState (cacheSt st) (destFsSt st) (logs st) (cacheHits st) (cacheMisses st) (postsProcessed st) (allMetadataMap st) (newPostsMeta st) (newSearchRecords st) (newDeps st) (indexedPosts st) (indexedPostIdx st) (renderQueue st) (cardJobs st) (g (anyPostChanged st)) (processedCount st) (ctxPolls st) (batchCommits st) (renderedPages st).
Definition upd_processedCount (g : Z -> Z) (st : BuildState) : BuildState :=
  mkBuildState (cacheSt st) (destFsSt st) (logs st) (cacheHits st) (cacheMisses st) (postsProcessed st) (allMetadataMap st) (newPostsMeta st) (newSearchRecords st) (newDeps st) (indexedPosts st) (indexedPostIdx st) (renderQueue st) (cardJobs st) (anyPostChanged st) (g (processedCount st)) (ctxPolls st) (batchCommits st) (renderedPages st).
Definition upd_ctxPolls (g : nat -> nat) (st : BuildState) : BuildState :=
  mkBuildState (cacheSt st) (destFsSt st) (logs st) (cacheHits st) (cacheMisses st) (postsProcessed st) (allMetadataMap st) (newPostsMeta st) (newSearchRecords st) (newDeps st) (indexedPosts st) (indexedPostIdx st) (renderQueue st) (cardJobs st) (anyPostChanged st) (processedCount st) (g (ctxPolls st)) (batchCommits st) (renderedPages st).
Definition upd_batchCommits (g : list BatchArgs -> list BatchArgs) (st : BuildState) : BuildState :=
  mkBuildState (cacheSt st) (destFsSt st) (logs st) (cacheHits st) (cacheMisses st) (postsProcessed st) (allMetadataMap st) (newPostsMeta st) (newSearchRecords st) (newDeps st) (indexedPosts st) (indexedPostIdx st) (renderQueue st) (cardJobs st) (anyPostChanged st) (processedCount st) (ctxPolls st) (g (batchCommits st)) (renderedPages st).
Definition upd_renderedPages (g : list (string * models.PageData) -> list (string * models.PageData)) (st : BuildState) : BuildState :=
  mkBuildState (cacheSt st) (destFsSt st) (logs st) (cacheHits st) (cacheMisses st) (postsProcessed st) (allMetadataMap st) (newPostsMeta st) (newSearchRecords st) (newDeps st) (indexedPosts st) (indexedPostIdx st) (renderQueue st) (cardJobs st) (anyPostChanged st) (processedCount st) (ctxPolls st) (batchCommits st) (g (renderedPages st)).

(** *** The monad of a worker body: a computation on the build state
    with one of the outcomes above. *)
Definition W (A : Type) : Type := BuildState -> Outcome A * BuildState.

Definition ret {A} (a : A) : W A := fun st => (Val a, st).
Definition bind {A B} (m : W A) (k : A -> W B) : W B :=
  fun st => match m st with
            | (Val a, st') => k a st'
            | (Returned, st') => (Returned, st')
            | (Panicked, st') => (Panicked, st')
            end.
Definition return_ {A} : W A := fun st => (Returned, st).
Definition panic {A} : W A := fun st => (Panicked, st).
Definition gets {A} (f : BuildState -> A) : W A := fun st => (Val (f st), st).
Definition modify (f : BuildState -> BuildState) : W unit := fun st => (Val tt, f st).
Definition when (b : bool) (m : W unit) : W unit := if b then m else ret tt.

Notation "'let!' x ':=' m 'in' k" := (bind m (fun x => k))
  (at level 10, x name, m at level 100, k at level 200) : W_scope.
Notation "m '>>' k" := (bind m (fun _ => k))
  (at level 100, k at level 200, right associativity) : W_scope.
Local Open Scope W_scope.

(** The body of a function called from another: its [return] ends the
    callee only. *)
Definition call (m : W unit) : W unit :=
  fun st => match m st with
            | (Returned, st') => (Val tt, st')
            | r => r
            end.

Definition logW (lvl : Level) (msg arg : string) : W unit :=
  modify (upd_logs (cons (lvl, msg, arg))).

(** [s.destFs.MkdirAll(dir, 0755)], its error logged with [msg]. *)
Definition destMkdirAll (dir msg : string) : W unit :=
  let! fs := gets destFsSt in
  let r := MkdirAll fs dir in
  modify (upd_destFsSt (fun _ => r.1)) >>
  when r.2 (logW Error msg dir).

(** [afero.WriteFile(s.destFs, name, data, 0644)], its error logged. *)
Definition destWriteFile (name data msg : string) : W unit :=
  let! fs := gets destFsSt in
  let r := WriteFile fs name data in
  modify (upd_destFsSt (fun _ => r.1)) >>
  when r.2 (logW Error msg name).

(** [ctx.Done()] polled in a [select] with a [default] branch. *)
Definition ctxDone (ctx : Context) : W bool :=
  fun st => (Val (ctx (ctxPolls st)), upd_ctxPolls S st).

(** The fields of [postServiceImpl] that a build does not change; the
    cache and the destination file system are in the build state. The
    source file system is only read, and is distinct from the destination
    one (the output is synchronised to disk after the build, see
    [run.BuildChanged]). *)
Record postServiceImpl := mkService {
  cfg : config.Config;
  sourceFs : SF;
  diagramAdapter : option (gmap string string) }.

(** The task a parse worker receives. *)
Record parseTask := mkTask {
  idx : nat;
  path : string;
  version : string }.

(** The build flags of [Process]. *)
Record Flags := mkFlags {
  shouldForce : bool;
  forceSocialRebuild : bool;
  outputMissing : bool }.

Section Worker.

Variable s : postServiceImpl.
Variable flags : Flags.
Variable ctx : Context.

(** *** Paths of one post (lines 180-193) *)

Definition relPathOf (path : string) : string :=
  (SafeRel (config.ContentDir (cfg s)) path).1.

Definition htmlRelPathOf (relPath : string) : string :=
  ToLower (strings.Replace1 relPath ".md" ".html").

Definition cleanHtmlRelPathOf (version htmlRelPath : string) : string :=
  if bool_decide (version ≠ "")
  then strings.TrimPrefix htmlRelPath (ToLower version +:+ "/")
  else htmlRelPath.

Definition destPathOf (version htmlRelPath : string) : string :=
  if bool_decide (version ≠ "")
  then filepath_Join [config.OutputDir (cfg s); version; cleanHtmlRelPathOf version htmlRelPath]
  else filepath_Join [config.OutputDir (cfg s); htmlRelPath].

(** [destPath[:len(destPath)-len(filepath.Ext(destPath))] + ".md"] *)
Definition mdDestPathOf (destPath : string) : string :=
  strings.upto (String.length destPath - String.length (filepath_Ext destPath)) destPath
  +:+ ".md".

(** *** 1. Resolve from cache (lines 196-233) *)

(** What the probe leaves in the worker's local variables. *)
Record Probe := mkProbe {
  cachedMeta : option cache.PostMeta;
  info : option FileInfo;
  source : string;
  bodyHash : string;
  useCache : bool }.

(** Lines 205-214: the candidate, the source's [FileInfo] when it was
    needed, and [exists]. *)
Definition resolveFromCache (c : option C) (relPath path : string)
  : option cache.PostMeta * option FileInfo * bool :=
  match c with
  | Some c =>
      match GetPostByPath c relPath with
      | Ok (Some m) =>
          let info := Stat (sourceFs s) path in
          let newer := match info with
                       | Some i => cache.ModTime m <? time.Unix (fi_ModTime i)
                       | None => false
                       end in
          (Some m, info, if newer then false else true)
      | Ok None => (None, None, false)
      | Err => (None, None, false)
      end
  | None => (None, None, false)
  end.

(** Line 229: the body hash invalidates the candidate. *)
Definition bodyChanged (exists_ : bool) (m : option cache.PostMeta) (bodyHash : string) : bool :=
  exists_ &&
  match m with
  | Some m => bool_decide (cache.BodyHash m ≠ "") && bool_decide (cache.BodyHash m ≠ bodyHash)
  | None => false
  end.

Definition probe (relPath path : string) : W Probe :=
  let! c := gets cacheSt in
  let '(cachedMeta, info, exists_) := resolveFromCache c relPath path in
  let info := match info with
              | None => Stat (sourceFs s) path
              | Some i => Some i
              end in
  let tooBig := match info with
                | Some i => MaxFileSize <? fi_Size i
                | None => false
                end in
  if tooBig then
    logW Warn "File exceeds size limit, skipping" path >> return_
  else
    let source := default "" (ReadFile (sourceFs s) path) in
    let bodyHash := GetBodyHash source in
    let exists_ := if bodyChanged exists_ cachedMeta bodyHash then false else exists_ in
    let useCache := exists_ && negb (shouldForce flags) in
    ret (mkProbe cachedMeta info source bodyHash useCache).

(** Lines 235-240 *)
Definition cachedHashOf (c : option C) (pr : Probe) (relPath : string) : string :=
  match c, useCache pr, cachedMeta pr with
  | Some c, false, _ => GetSocialCardHash c relPath
  | _, true, Some m => cache.ContentHash m
  | _, _, _ => ""
  end.

(** Lines 254-264: on a hit, load the HTML and the search record; a failed
    load demotes the hit. A hit without a cache or a candidate would be a
    nil dereference. *)
Definition loadCached (pr : Probe)
  : W (bool * string * option cache.SearchRecord) :=
  if useCache pr then
    let! c := gets cacheSt in
    match c, cachedMeta pr with
    | Some c, Some m =>
        match GetHTMLContent c m with
        | Ok (Some cachedHTML) =>
            match GetSearchRecord c (cache.PostID m) with
            | Ok (Some cachedSearch) => ret (true, cachedHTML, Some cachedSearch)
            | _ => ret (false, cachedHTML, None)
            end
        | _ => ret (false, "", None)
        end
    | _, _ => panic
    end
  else ret (false, "", None).

(** *** 2. The post's data, from the cache or from the source *)

(** The worker's local variables after either branch of line 266. *)
Record PostData := mkPostData {
  htmlContent : string;
  metaData : MetaMap;
  post : models.PostMetadata;
  searchRecord : models.PostRecord;
  wordFreqs : gmap string Z;
  docLen : Z;
  toc : list models.TOCEntry;
  frontmatterHash : string;
  plainText : string;
  ssrHashes : list string }.

(** Lines 267-294: a cache hit. *)
Definition fromCache (m : cache.PostMeta) (cachedHTML : string)
    (cachedSearch : cache.SearchRecord) (htmlRelPath : string) : W PostData :=
  modify (upd_cacheHits (Z.add 1)) >>
  let! mm := gets allMetadataMap in
  let post := default models.PostMetadata_zero (mm !! cache.Link m) in
  let toc := map (fun t => models.mkTOCEntry (models.toc_ID t) (models.toc_Text t)
                                             (models.toc_Level t)) (cache.TOC m) in
  let searchRecord :=
    models.mkPostRecord 0
      (cache.sr_Title cachedSearch) (cache.sr_NormalizedTitle cachedSearch)
      htmlRelPath (cache.Description m) (cache.Tags m)
      (cache.sr_NormalizedTags cachedSearch) (cache.sr_Content cachedSearch)
      (cache.Version m) in
  ret (mkPostData cachedHTML (cache.Meta m) post searchRecord
         (cache.sr_BM25Data cachedSearch) (cache.sr_DocLen cachedSearch)
         toc (cache.ContentHash m) "" (cache.SSRInputHashes m)).

(** Lines 298-308: the raw Markdown mirror of a post that missed the
    cache. *)
Definition copyRawMarkdown (destPath source : string) : W unit :=
  when (config.RawMarkdown (config.features (cfg s)))
    (let mdDestPath := mdDestPathOf destPath in
     destMkdirAll (filepath_Dir mdDestPath) "Failed to create markdown directory" >>
     destWriteFile mdDestPath source "Failed to write markdown file").

(** [int(math.Ceil(float64(wordCount) / wordsPerMinute))], for a word
    count and a rate that doubles represent exactly. *)
Definition readingTimeOf (wordCount : Z) : Z := - ((- wordCount) / wordsPerMinute).

(** Lines 348-351 *)
Definition weightOf (metaData : MetaMap) : Z :=
  let weight := (assert_int metaData "weight").1 in
  match assert_float64 metaData "weight" with
  | Some (a, e) => if weight =? 0 then int_of_float64 a e else weight
  | None => weight
  end.

(** Lines 399-404 *)
Definition countWords (words : list string) : gmap string Z :=
  foldl (fun m w => if (2 <=? String.length w)%nat
                    then <[w := default 0 (m !! w) + 1]> m else m) ∅ words.

(** Lines 384-394: the text given to the analyzer. *)
Definition searchText (r : models.PostRecord) : string :=
  models.rec_Title r +:+ " " +:+ models.rec_Description r +:+ " " +:+
  String.concat "" (map (fun t => t +:+ " ") (models.rec_Tags r)) +:+
  models.rec_Content r.

(** Lines 296-405: a cache miss. *)
Definition fromSource (path version relPath htmlRelPath destPath source : string)
  : W PostData :=
  modify (upd_cacheMisses (Z.add 1)) >>
  copyRawMarkdown destPath source >>
  let doc := Parse path source in
  match Render doc source with
  | Err => logW Error "Failed to render markdown" path >> return_
  | Ok html =>
      let html := match GetD2SVGPairSlice doc with
                  | Some pairs => ReplaceD2BlocksWithThemeSupport html pairs
                  | None => html
                  end in
      let ssr := GetSSRHashes doc in
      let math :=
        if strings.Contains source "$" || strings.Contains source "\("
        then let r := RenderMathForHTML html (diagramAdapter s) in (r.1, (ssr ++ r.2)%list)
        else (html, ssr) in
      let html := math.1 in
      let ssr := math.2 in
      let html := if config.CompressImages (cfg s) then ReplaceToWebP html else html in
      let metaData := meta_Get doc in
      let dateObj := time_Parse (GetString metaData "date") in
      let isPinned := (assert_bool metaData "pinned").1 in
      let weight := weightOf metaData in
      let wordCount := Z.of_nat (length (Fields source)) in
      let toc := GetTOC doc in
      let postLink := BuildURL (config.BaseURL (cfg s)) version
                        (cleanHtmlRelPathOf version htmlRelPath) in
      let post :=
        models.mkPostMetadata (GetString metaData "title") postLink weight version
          dateObj (readingTimeOf wordCount) (GetString metaData "description")
          (GetSlice metaData "tags") isPinned (GetBool metaData "draft") in
      let plainText := ExtractPlainText doc source in
      let normalizedTags := map ToLower (models.Tags post) in
      let searchRecord :=
        models.mkPostRecord 0 (models.Title post) (ToLower (models.Title post))
          htmlRelPath (models.Description post) (models.Tags post) normalizedTags
          plainText version in
      let words := Analyze (searchText searchRecord) in
      ret (mkPostData html metaData post searchRecord (countWords words)
             (Z.of_nat (length words)) toc (GetFrontmatterHash metaData)
             plainText ssr)
  end.

(** *** 3. Social card (lines 412-441) *)

Definition cardRelOf (htmlRelPath : string) : string :=
  strings.TrimSuffix htmlRelPath ".html" +:+ ".webp".

Definition cardDestPathOf (htmlRelPath : string) : string :=
  filepath_ToSlash
    (filepath_Join [config.OutputDir (cfg s); "static"; "images"; "cards";
                    cardRelOf htmlRelPath]).

(** Lines 418-425 *)
Definition cardExistsIn (fs : DF) (cardDestPath path : string) : bool :=
  match Stat fs cardDestPath with
  | Some i =>
      if negb (fi_IsDir i) then
        match Stat (sourceFs s) path with
        | Some sourceInfo => time.After (fi_ModTime i) (fi_ModTime sourceInfo)
        | None => false
        end
      else false
  | None => false
  end.

Definition socialCard (path relPath htmlRelPath cachedHash : string) (d : PostData)
  : W unit :=
  let cardDestPath := cardDestPathOf htmlRelPath in
  destMkdirAll (filepath_Dir cardDestPath) "Failed to create social card directory" >>
  let! fs := gets destFsSt in
  let cardExists := cardExistsIn fs cardDestPath path in
  if forceSocialRebuild flags ||
     (bool_decide (cachedHash ≠ frontmatterHash d) || negb cardExists)
  then
    modify (upd_cardJobs (fun q =>
      (q ++ [mkSocialCardTask relPath (cardRelOf htmlRelPath) cardDestPath
               (metaData d) (frontmatterHash d)])%list))
  else if cardExists then
    let! c := gets cacheSt in
    match c with
    | Some c =>
        if bool_decide (cachedHash = "") then
          let r := SetSocialCardHash c relPath (frontmatterHash d) in
          modify (upd_cacheSt (fun _ => Some r.1)) >>
          when r.2 (logW Error "Failed to set social card hash" relPath)
        else ret tt
    | None => ret tt
    end
  else ret tt.

(** Lines 443-452 *)
Definition imagePathOf (metaData : MetaMap) (htmlRelPath : string) : string :=
  match assert_string metaData "image" with
  | Some img =>
      let img :=
        if config.CompressImages (cfg s) && negb (strings.HasPrefix img "http") then
          let ext := filepath_Ext img in
          if bool_decide (ext = ".png") || bool_decide (ext = ".jpg")
             || bool_decide (ext = ".jpeg")
          then strings.upto (String.length img - String.length ext) img +:+ ".webp"
          else img
        else img in
      config.BaseURL (cfg s) +:+ img
  | None =>
      config.BaseURL (cfg s) +:+ "/static/images/cards/" +:+ cardRelOf htmlRelPath
  end.

(** *** 4. The rendering decision (lines 454-468)

    The decision and the source's [FileInfo] as line 463 leaves it. On a
    miss, a destination that exists while the source cannot be stat'ed is
    a nil dereference. *)
Definition willRenderOf (useCache : bool) (info : option FileInfo)
    (destPath path : string) : W (bool * option FileInfo) :=
  if outputMissing flags then ret (true, info)
  else if useCache then
    match os_Stat destPath with
    | StatNotExist => ret (true, info)
    | _ => ret (false, info)
    end
  else
    let info := match info with
                | None => Stat (sourceFs s) path
                | Some i => Some i
                end in
    match os_Stat destPath with
    | StatOk destInfo =>
        match info with
        | Some i => ret (negb (time.After (fi_ModTime destInfo) (fi_ModTime i)), info)
        | None => panic
        end
    | _ => ret (true, info)
    end.

(** Lines 470-486: the raw Markdown mirror, for posts served from the
    cache too. *)
Definition copyRawMarkdownIfMissing (destPath path : string) : W unit :=
  when (config.RawMarkdown (config.features (cfg s)))
    (let mdDestPath := mdDestPathOf destPath in
     match os_Stat mdDestPath with
     | StatNotExist =>
         match ReadFile (sourceFs s) path with
         | None => logW Error "Failed to read source file for raw markdown" path
         | Some sourceBytes =>
             when (0 <? String.length sourceBytes)%nat
               (destMkdirAll (filepath_Dir mdDestPath) "Failed to create markdown directory" >>
                destWriteFile mdDestPath sourceBytes "Failed to write raw markdown file")
         end
     | _ => ret tt
     end).

(** Lines 488-505 *)
Definition enqueueRender (idx : nat) (version htmlRelPath destPath imagePath : string)
    (d : PostData) : W unit :=
  let p := post d in
  let data :=
    models.mkPageData (models.Title p) (models.Description p) (htmlContent d)
      (metaData d) (config.BaseURL (cfg s)) (config.BuildVersion (cfg s))
      (models.Title p +:+ " | " +:+ config.Title (cfg s)) (models.Link p) imagePath
      (toc d) (cfg s) version (isOutdatedVersion (cfg s) version)
      (GetVersionsMetadata (cfg s) version (cleanHtmlRelPathOf version htmlRelPath))
      0 [] None None in
  let! q := gets renderQueue in
  match slice_store q (Z.of_nat idx) (mkRenderContext destPath data version) with
  | Some q' => modify (upd_renderQueue (fun _ => q')) >>
               modify (upd_anyPostChanged (fun _ => true))
  | None => panic
  end.

(** Lines 454-505: the decision, the raw Markdown mirror, and the render
    task when the decision is to render. *)
Definition renderStep (idx : nat) (path version htmlRelPath destPath imagePath : string)
    (useCache : bool) (info : option FileInfo) (d : PostData)
  : W (bool * option FileInfo) :=
  let! wr := willRenderOf useCache info destPath path in
  copyRawMarkdownIfMissing destPath path >>
  when wr.1 (enqueueRender idx version htmlRelPath destPath imagePath d) >>
  ret wr.

(** *** 5. Publish (lines 507-513) *)

(** [atomic.AddInt32(&indexedPostIdx, 1)] *)
Definition nextSearchID : W Z :=
  let! v := gets indexedPostIdx in
  let id := AddInt32 v 1 in
  modify (upd_indexedPostIdx (fun _ => id)) >> ret id.

Definition publish (d : PostData) : W models.PostRecord :=
  modify (upd_allMetadataMap (<[models.Link (post d) := post d]>)) >>
  let! id := nextSearchID in
  let searchRecord := setID id (searchRecord d) in
  let! l := gets indexedPosts in
  match slice_store l id (models.mkIndexedPost searchRecord (wordFreqs d) (docLen d)) with
  | Some l' => modify (upd_indexedPosts (fun _ => l')) >> ret searchRecord
  | None => panic
  end.

(** *** 6. Stage the cache records of a miss (lines 522-547) *)

Definition stage (useCache : bool) (info : option FileInfo) (relPath version : string)
    (bodyHash : string) (searchRecord : models.PostRecord) (d : PostData) : W unit :=
  let! c := gets cacheSt in
  match c with
  | Some c =>
      if negb useCache then
        let postID := GeneratePostID "" relPath in
        match info with
        | None => panic
        | Some i =>
            let p := post d in
            let newMeta :=
              cache.mkPostMeta postID relPath (time.Unix (fi_ModTime i))
                (frontmatterHash d) bodyHash (models.Title p) (models.DateObj p)
                (models.Tags p) (models.ReadingTime p) (models.Description p)
                (models.Link p) (models.Pinned p) (models.Weight p) (models.Draft p)
                (metaData d) (toc d) version (ssrHashes d) None "" in
            let r := StoreHTMLForPost c newMeta (htmlContent d) in
            modify (upd_cacheSt (fun _ => Some r.1.1)) >>
            when r.2 (logW Error "Failed to store HTML in cache" relPath) >>
            let newSearch :=
              cache.mkSearchRecord (models.Title p) (models.rec_NormalizedTitle searchRecord)
                (wordFreqs d) (docLen d) (plainText d)
                (models.rec_NormalizedTags searchRecord) in
            let newDep := cache.mkDependencies (models.Tags p) in
            modify (upd_newPostsMeta (fun l => (l ++ [r.1.2])%list)) >>
            modify (upd_newSearchRecords (<[postID := newSearch]>)) >>
            modify (upd_newDeps (<[postID := newDep]>))
        end
      else ret tt
  | None => ret tt
  end.

(** *** The body of a parse worker (lines 173-551) *)

Definition worker (pt : parseTask) : W unit :=
  let relPath := relPathOf (path pt) in
  let htmlRelPath := htmlRelPathOf relPath in
  let destPath := destPathOf (version pt) htmlRelPath in
  let! pr := probe relPath (path pt) in
  let! c := gets cacheSt in
  let cachedHash := cachedHashOf c pr relPath in
  let! ld := loadCached pr in
  let '(useCache, cachedHTML, cachedSearch) := ld in
  let! d :=
    (if useCache then
       match cachedMeta pr, cachedSearch with
       | Some m, Some cs => fromCache m cachedHTML cs htmlRelPath
       | _, _ => panic
       end
     else fromSource (path pt) (version pt) relPath htmlRelPath destPath (source pr)) in
  if models.Draft (post d) && negb (config.IncludeDrafts (cfg s)) then return_
  else
    socialCard (path pt) relPath htmlRelPath cachedHash d >>
    let imagePath := imagePathOf (metaData d) htmlRelPath in
    let! wr := renderStep (idx pt) (path pt) (version pt) htmlRelPath destPath
                 imagePath useCache (info pr) d in
    let! searchRecord := publish d in
    let! cancelled := ctxDone ctx in
    if cancelled then return_
    else
      stage useCache wr.2 relPath (version pt) (bodyHash pr) searchRecord d >>
      modify (upd_postsProcessed (Z.add 1)) >>
      modify (upd_processedCount (Z.add 1)).

(** *** The build coordinator: [Process] (lines 74-664) *)

(** Lines 89-106: the callback of [afero.Walk], over the visited paths. *)
Fixpoint walkContent (entries : list (string * bool))
    (files fileVersions : list string) (has404 : bool)
  : W (list string * list string * bool) :=
  match entries with
  | [] => ret (files, fileVersions, has404)
  | (path, err) :: rest =>
      if err then
        logW Error "Error walking content directory" path >>
        walkContent rest files fileVersions has404
      else if strings.HasSuffix path ".md" && negb (strings.Contains path "_index.md") then
        if strings.Contains path "404.md" then
          walkContent rest files fileVersions true
        else
          walkContent rest (files ++ [path])%list
            (fileVersions ++ [GetVersionFromPath path])%list has404
      else walkContent rest files fileVersions has404
  end.

(** Lines 108-112 *)
Definition existingFilesOf (files : list string) : gset string :=
  list_to_set (map relPathOf files).

(** Lines 117-126: the stale-cache sweep over the listed ids. *)
Fixpoint sweep (existingFiles : gset string) (ids : list string) : W unit :=
  match ids with
  | [] => ret tt
  | id :: rest =>
      (let! c := gets cacheSt in
       match c with
       | Some c =>
           match GetPost c id with
           | Ok (Some meta) =>
               if bool_decide (cache.Path meta ∈ existingFiles) then ret tt
               else
                 logW Info "Purging stale cache entry" (cache.Path meta) >>
                 modify (upd_cacheSt (fun _ => Some (DeletePost c id).1))
           | _ => ret tt
           end
       | None => ret tt
       end) >>
      sweep existingFiles rest
  end.

(** Lines 114-128 *)
Definition staleSweep (existingFiles : gset string) : W unit :=
  let! c := gets cacheSt in
  match c, ListAllPosts with
  | Some c, Some lister => sweep existingFiles (lister c)
  | _, _ => ret tt
  end.

(** Lines 164-168 *)
Definition metadataOfCached (cp : cache.PostMeta) : models.PostMetadata :=
  models.mkPostMetadata (cache.Title cp) (cache.Link cp) (cache.Weight cp)
    (cache.Version cp) (cache.Date cp) (cache.ReadingTime cp) (cache.Description cp)
    (cache.Tags cp) (cache.Pinned cp) (cache.Draft cp).

(** Lines 158-171: phase 0, the global metadata of every cached post. *)
Definition warmup : W unit :=
  let! c := gets cacheSt in
  match c, ListAllPosts with
  | Some c, Some lister =>
      let cachedPosts := GetPostsByIDs c (lister c) in
      modify (upd_allMetadataMap (fun m =>
        foldl (fun m cp => <[cache.Link cp := metadataOfCached cp]> m) m cachedPosts))
  | _, _ => ret tt
  end.

(** Modelled from the spec: [utils.WorkerPool], declared in package
    [utils]: "Start, Submit*, Stop-and-wait"; "workers check [the context]
    on each dequeued item", and "cancellation causes workers to
    drain-without-processing" (section 5). Here a task runs to completion
    when it is submitted, which is one of the schedules the pool admits;
    the order among the tasks of a pool is not a property of the program,
    and no statement below is about it. *)
Definition pool_Submit (body : W unit) : W unit :=
  let! cancelled := ctxDone ctx in
  if cancelled then ret tt else call body.

(** Lines 554-566: the submission loop. *)
Fixpoint submitLoop (tasks : list parseTask) : W unit :=
  match tasks with
  | [] => ret tt
  | pt :: rest =>
      let! cancelled := ctxDone ctx in
      if cancelled then ret tt
      else pool_Submit (worker pt) >> submitLoop rest
  end.

Definition tasksOf (files fileVersions : list string) : list parseTask :=
  imap (fun i pv => mkTask i pv.1 pv.2) (zip files fileVersions).

(** *** Final metadata grouping (lines 570-604) *)

Record Grouped := mkGrouped {
  postsByVersion : gmap string (list models.PostMetadata);
  tagMap : gmap string (list models.PostMetadata);
  pinnedPosts : list models.PostMetadata;
  allPosts : list models.PostMetadata }.

(** [m[k] = append(m[k], p)] *)
Definition appendAt (k : string) (p : models.PostMetadata)
    (m : gmap string (list models.PostMetadata)) : gmap string (list models.PostMetadata) :=
  <[k := (default [] (m !! k) ++ [p])%list]> m.

(** Lines 588-593: the loop over the configured versions, with its
    [break]. *)
Fixpoint scanVersions (vs : list config.Version) (pVersion : string) (acc : bool) : bool :=
  match vs with
  | [] => acc
  | v :: vs' =>
      if config.IsLatest v && bool_decide (pVersion = config.Name v) then true
      else scanVersions vs' pVersion acc
  end.

(** Lines 586-594 *)
Definition isLatestOrUnversioned (p : models.PostMetadata) : bool :=
  let b := bool_decide (models.Version p = "") in
  if (0 <? length (config.Versions (cfg s)))%nat
  then scanVersions (config.Versions (cfg s)) (models.Version p) b
  else b.

(** The callback of [allMetadataMap.Range]. *)
Definition groupPost (g : Grouped) (p : models.PostMetadata) : Grouped :=
  let byVersion := appendAt (models.Version p) p (postsByVersion g) in
  let tags := foldl (fun m t => appendAt (ToLower (TrimSpace t)) p m)
                    (tagMap g) (models.Tags p) in
  if isLatestOrUnversioned p then
    if models.Pinned p
    then mkGrouped byVersion tags (pinnedPosts g ++ [p])%list (allPosts g)
    else mkGrouped byVersion tags (pinnedPosts g) (allPosts g ++ [p])%list
  else mkGrouped byVersion tags (pinnedPosts g) (allPosts g).

Definition groupAll (m : gmap string models.PostMetadata) : Grouped :=
  foldl groupPost (mkGrouped ∅ ∅ [] []) (map snd (map_to_list m)).

(** *** Neighbours and rendering (lines 606-644) *)

Definition withNeighbours (task : RenderContext)
    (prev next : option models.PostMetadata) : RenderContext :=
  let d := Data task in
  mkRenderContext (DestPath task)
    (models.mkPageData (models.pd_Title d) (models.pd_Description d) (models.pd_Content d)
       (models.pd_Meta d) (models.pd_BaseURL d) (models.pd_BuildVersion d)
       (models.pd_TabTitle d) (models.pd_Permalink d) (models.pd_Image d)
       (models.pd_TOC d) (models.pd_Config d) (models.pd_CurrentVersion d)
       (models.pd_IsOutdated d) (models.pd_Versions d) (models.pd_Weight d)
       (models.pd_SiteTree d) prev next)
    (Version task).

Definition withSiteTree (d : models.PageData) (tree : list models.TreeNode)
  : models.PageData :=
  models.mkPageData (models.pd_Title d) (models.pd_Description d) (models.pd_Content d)
    (models.pd_Meta d) (models.pd_BaseURL d) (models.pd_BuildVersion d)
    (models.pd_TabTitle d) (models.pd_Permalink d) (models.pd_Image d)
    (models.pd_TOC d) (models.pd_Config d) (models.pd_CurrentVersion d)
    (models.pd_IsOutdated d) (models.pd_Versions d) (models.pd_Weight d)
    tree (models.pd_PrevPage d) (models.pd_NextPage d).

(** Lines 612-615: the body of a render worker. *)
Definition renderWorker (siteTrees : gmap string (list models.TreeNode))
    (t : RenderContext) : W unit :=
  let data := withSiteTree (Data t) (default [] (siteTrees !! Version t)) in
  modify (upd_renderedPages (cons (DestPath t, data))).

(** Lines 618-643 *)
Fixpoint renderLoop (byVersion : gmap string (list models.PostMetadata))
    (siteTrees : gmap string (list models.TreeNode))
    (i : nat) (tasks : list RenderContext) : W unit :=
  match tasks with
  | [] => ret tt
  | task :: rest =>
      (if bool_decide (DestPath task = "") then ret tt
       else
         let versionPosts := default [] (byVersion !! Version task) in
         let d := Data task in
         let currentPost :=
           default (models.mkPostMetadata (models.pd_Title d) (models.pd_Permalink d)
                      (models.pd_Weight d) (Version task) time.zero 0 "" [] false false)
                   (List.find (fun p => bool_decide (models.Link p = models.pd_Permalink d))
                              versionPosts) in
         let pn := FindPrevNext currentPost versionPosts in
         let task := withNeighbours task pn.1 pn.2 in
         modify (upd_renderQueue (<[i := task]>)) >>
         pool_Submit (renderWorker siteTrees task)) >>
      renderLoop byVersion siteTrees (S i) rest
  end.

(** Lines 646-650 *)
Definition commit : W unit :=
  let! c := gets cacheSt in
  let! metas := gets newPostsMeta in
  let! searches := gets newSearchRecords in
  let! deps := gets newDeps in
  match c with
  | Some c =>
      if (0 <? length metas)%nat then
        let r := BatchCommit c metas searches deps in
        modify (upd_cacheSt (fun _ => Some r.1)) >>
        modify (upd_batchCommits (cons (metas, searches, deps))) >>
        when r.2 (logW Warn "Failed to commit cache batch" "")
      else ret tt
  | None => ret tt
  end.

(** Lines 87-567: walk, stale-cache sweep, allocation of the shared
    slices, warm-up and the parse fan-out. It yields [has404]. *)
Definition parsePhase : W bool :=
  let w := Walk (sourceFs s) (config.ContentDir (cfg s)) in
  let! walked := walkContent w.1 [] [] false in
  let files := walked.1.1 in
  let fileVersions := walked.1.2 in
  when w.2 (logW Error "Failed to walk content directory" "") >>
  staleSweep (existingFilesOf files) >>
  modify (upd_indexedPosts (fun _ => replicate (length files) models.IndexedPost_zero)) >>
  modify (upd_indexedPostIdx (fun _ => -1)) >>
  modify (upd_renderQueue (fun _ => replicate (length files) RenderContext_zero)) >>
  warmup >>
  submitLoop (tasksOf files fileVersions) >>
  ret walked.2.

(** Lines 570-664: grouping, site trees, the render fan-out, the cache
    commit and the result. *)
Definition finishPhase (has404 : bool) : W PostResult :=
  let! mm := gets allMetadataMap in
  let g := groupAll mm in
  let byVersion := SortPosts <$> postsByVersion g in
  let siteTrees := (fun posts => BuildSiteTree posts "") <$> byVersion in
  let! q := gets renderQueue in
  renderLoop byVersion siteTrees 0 q >>
  commit >>
  let! indexed := gets indexedPosts in
  let! changed := gets anyPostChanged in
  ret (mkPostResult (SortPosts (allPosts g)) (SortPosts (pinnedPosts g)) (tagMap g)
         indexed changed has404).

Definition Process : W PostResult :=
  let! has404 := parsePhase in
  finishPhase has404.

End Worker.

(** The collections a post is published into: the render queue, the
    search index with its counter, the global metadata map, the social-card
    jobs and the cache-commit staging area. *)
Definition collections (st : BuildState) :=
  (renderQueue st, indexedPosts st, indexedPostIdx st, allMetadataMap st,
   cardJobs st, newPostsMeta st, newSearchRecords st, newDeps st).

(** What the parse workers have staged for the cache commit. *)
Definition staged (st : BuildState) :=
  (newPostsMeta st, newSearchRecords st, newDeps st).

(** A computation leaves the component [f] of the build state as it
    found it, however it ends. *)
Definition keeps {A B} (f : BuildState -> B) (m : W A) : Prop :=
  forall st, f (m st).2 = f st.

(** A computation that always yields a value. *)
Definition total {A} (m : W A) : Prop :=
  forall st, exists a st', m st = (Val a, st').

(** The state in which [Process] starts, for a cache and a destination
    file system. *)
Definition initState (c : option C) (fs : DF) : BuildState :=
  mkBuildState c fs [] 0 0 0 ∅ [] ∅ ∅ [] 0 [] [] false 0 0%nat [] [].

End Pipeline.

(** *** The publish step under interleaving

    Parse workers run in parallel. The only variables of lines 510-513
    that two workers share are the counter [indexedPostIdx], which they
    change by one atomic addition each, and the slice [indexedPosts], which
    each writes at the index it obtained. A worker invocation is, for these
    variables, a thread of two atomic steps; a schedule picks the thread
    that moves next. *)

(** Where a worker invocation stands: it has not executed line 511 yet, it
    holds its [id] and has not executed line 513 yet, it has written its
    slot, or it never reaches line 511 (it returned before, or was not
    run). *)
Inductive Pc :=
| AtAdd (d : models.IndexedPost)
| AtStore (id : Z) (d : models.IndexedPost)
| Finished (id : Z) (d : models.IndexedPost)
| NotReached.

Record Shared := mkShared {
  counter : Z;
  slots : list models.IndexedPost;
  pcs : list Pc;
  crashed : bool }.

(** Lines 512-513: the record a thread stores, with its [id]. *)
Definition withID (id : Z) (d : models.IndexedPost) : models.IndexedPost :=
  models.mkIndexedPost (setID id (models.Record_ d)) (models.WordFreqs d) (models.DocLen d).

(** One atomic step of thread [i]. A store out of range is the panic that
    ends the program. *)
Definition step (i : nat) (g : Shared) : Shared :=
  if crashed g then g
  else
    match pcs g !! i with
    | Some (AtAdd d) =>
        let id := AddInt32 (counter g) 1 in
        mkShared id (slots g) (<[i := AtStore id d]> (pcs g)) false
    | Some (AtStore id d) =>
        match slice_store (slots g) id (withID id d) with
        | Some l => mkShared (counter g) l (<[i := Finished id d]> (pcs g)) false
        | None => mkShared (counter g) (slots g) (pcs g) true
        end
    | _ => g
    end.

Definition run (sched : list nat) (g : Shared) : Shared :=
  foldl (fun g i => step i g) g sched.

(** Lines 146-147, and one thread per worker invocation: [Some d] for an
    invocation that reaches the publish step with the record [d]. *)
Definition start (nfiles : nat) (invocations : list (option models.IndexedPost)) : Shared :=
  mkShared (-1) (replicate nfiles models.IndexedPost_zero)
    (map (fun o => match o with Some d => AtAdd d | None => NotReached end) invocations)
    false.

(** The id a thread holds, once it has one. *)
Definition idOf (p : Pc) : option Z :=
  match p with
  | AtStore id _ | Finished id _ => Some id
  | _ => None
  end.

Definition assignedIDs (g : Shared) : list Z := omap idOf (pcs g).

(** No thread has a step left. *)
Definition quiescent (g : Shared) : bool :=
  forallb (fun p => match p with AtAdd _ | AtStore _ _ => false | _ => true end) (pcs g).

(** A thread stays the invocation it started as. *)
Definition tracks (o : option models.IndexedPost) (p : Pc) : Prop :=
  match o, p with
  | None, NotReached => True
  | Some d, AtAdd d' | Some d, AtStore _ d' | Some d, Finished _ d' => d = d'
  | _, _ => False
  end.

(** What every schedule maintains, for [nfiles] slots and the given
    invocations: no crash; the slice keeps its length; the counter is one
    less than the number of ids handed out; these ids are [0, 1, ...]
    without gap or repetition; a finished thread's record is in the slot
    of its id. *)
Definition publish_inv (nfiles : nat) (invocations : list (option models.IndexedPost))
    (g : Shared) : Prop :=
  crashed g = false /\
  length (slots g) = nfiles /\
  Forall2 tracks invocations (pcs g) /\
  counter g = Z.of_nat (length (assignedIDs g)) - 1 /\
  assignedIDs g ≡ₚ seqZ 0 (Z.of_nat (length (assignedIDs g))) /\
  (forall i id d, pcs g !! i = Some (Finished id d) ->
                  slots g !! Z.to_nat id = Some (withID id d)).

End services.

(** ** Package [run]: the watch-mode change classifier *)

Module fsnotify.
(** [fsnotify.Op], a bit mask. *)
Definition Create : Z := 1.
Definition Write : Z := 2.
Definition Remove : Z := 4.
Definition Rename : Z := 8.
Definition Chmod : Z := 16.
(** [op&flag == flag] *)
Definition Has (op flag : Z) : bool := Z.land op flag =? flag.
End fsnotify.

Module run.

(** What a call of [BuildChanged] does to the builder's collaborators, in
    order. *)
Inductive Event :=
| ELog (lvl : services.Level) (msg : string)
| EDeletePost (postID : string)
| EBuild
| ESaveCaches
| EProcessSingle (path : string)
| ESyncVFS
| EClearRenderedFiles.

Section Classifier.

Context {C SF Doc : Type}.
Context {cacheI : CacheService C} {srcI : Fs SF} {mdI : Markdown Doc}
        {libI : GoLib} {utilsI : Utils}.

(** The builder: its configuration, its cache and source file system, and
    how the calls it delegates turn out ([err != nil]): [b.Build],
    [b.postService.ProcessSingle], [utils.SyncVFS] and
    [b.cacheService.DeletePost]. Every path through [BuildChanged] calls
    each of them at most once. *)
Record Builder := mkBuilder {
  cfg : config.Config;
  cacheService : option C;
  SourceFs : SF;
  Build_fails : bool;
  ProcessSingle_fails : string -> bool;
  SyncVFS_fails : bool }.

Variable b : Builder.

(** [if err := b.Build(ctx); err != nil { log; return }; b.SaveCaches()] *)
Definition buildAndSave (msg : string) : list Event :=
  EBuild :: (if Build_fails b then [ELog services.Error msg] else [ESaveCaches]).

(** Lines 147-157 *)
Definition lookupHashes (relPath : string) : bool * string * string :=
  match cacheService b with
  | Some c =>
      match GetPostByPath c relPath with
      | Ok (Some meta) => (true, cache.ContentHash meta, cache.BodyHash meta)
      | _ => (false, "", "")
      end
  | None => (false, "", "")
  end.

(** [buildSinglePost] (lines 127-191) *)
Definition buildSinglePost (path : string) : list Event :=
  match ReadFile (SourceFs b) path with
  | None =>
      ELog services.Error "Error reading file" :: EBuild ::
      (if Build_fails b then [ELog services.Error "Full build failed"] else [])
  | Some source =>
      let metaData := meta_Get (Parse path source) in
      let newFrontmatterHash := GetFrontmatterHash metaData in
      let newBodyHash := GetBodyHash source in
      let relPath := (SafeRel (config.ContentDir (cfg b)) path).1 in
      let '(exists_, cachedFrontmatterHash, cachedBodyHash) := lookupHashes relPath in
      let frontmatterChanged :=
        exists_ && bool_decide (cachedFrontmatterHash ≠ newFrontmatterHash) in
      let bodyOnlyChanged :=
        exists_ && bool_decide (cachedFrontmatterHash = newFrontmatterHash)
                && bool_decide (cachedBodyHash ≠ newBodyHash) in
      if negb exists_ then
        ELog services.Info "New post detected, running full build..." ::
        buildAndSave "Build failed"
      else if frontmatterChanged then
        ELog services.Info "Frontmatter changed, running full build..." ::
        buildAndSave "Build failed"
      else if bodyOnlyChanged || bool_decide (cachedBodyHash = "") then
        ELog services.Info "Content-only change detected, rebuilding single post..." ::
        EProcessSingle path ::
        (if ProcessSingle_fails b path then
           ELog services.Error "Failed to process single post" :: EBuild ::
           (if Build_fails b then [ELog services.Error "Build failed"] else [ESaveCaches])
         else [ESaveCaches])
      else [ELog services.Info "No changes detected, skipping..."]
  end.

(** [deletePostFromCache] (lines 193-211) *)
Definition deletePostFromCache (path : string) : list Event :=
  let r := SafeRel (config.ContentDir (cfg b)) path in
  if r.2 then [ELog services.Error "Failed to get relative path for deletion"]
  else
    match cacheService b with
    | None => []
    | Some c =>
        let postID := GeneratePostID "" r.1 in
        EDeletePost postID ::
        (if (DeletePost c postID).2
         then [ELog services.Error "Failed to delete post from cache"]
         else [ELog services.Info "Removed deleted post from cache"])
    end.

(** [isAssetPath] (lines 118-124) *)
Definition isAssetPath (path : string) : bool :=
  let path := filepath_ToSlash path in
  let staticDir := filepath_ToSlash (config.StaticDir (cfg b)) in
  strings.HasPrefix path staticDir || strings.HasPrefix path "static".

Definition isContentMarkdown (changedPath : string) : bool :=
  strings.HasSuffix changedPath ".md" &&
  strings.HasPrefix changedPath (config.ContentDir (cfg b)).

(** [BuildChanged] (lines 61-115); [cancelled] is what [ctx.Done()]
    answers at line 66. *)
Definition BuildChanged (cancelled : bool) (changedPath : string) (op : Z) : list Event :=
  if cancelled then []
  else
    ELog services.Info "Change detected" ::
    (if (fsnotify.Has op fsnotify.Remove || fsnotify.Has op fsnotify.Rename)
        && isContentMarkdown changedPath then
       deletePostFromCache changedPath ++ buildAndSave "Build failed after deletion"
     else if isContentMarkdown changedPath then
       buildSinglePost changedPath ++
       ESyncVFS ::
       (if SyncVFS_fails b then [ELog services.Error "Sync failed"]
        else [EClearRenderedFiles])
     else
       let ext := ToLower (filepath_Ext changedPath) in
       if (bool_decide (ext = ".css") || bool_decide (ext = ".js"))
          && isAssetPath changedPath then
         ELog services.Info "CSS/JS changed, running full rebuild..." ::
         buildAndSave "Build failed"
       else buildAndSave "Build failed")%list.

(** The rebuilds a trace contains: the full builds and the single-post
    rebuilds, in order. *)
Definition isRebuild (e : Event) : bool :=
  match e with
  | EBuild | EProcessSingle _ => true
  | _ => false
  end.

Definition rebuilds (tr : list Event) : list Event := List.filter isRebuild tr.

End Classifier.
End run.


(** ** Test doubles

    Small executable stand-ins for the collaborators, on which the
    pipeline can be run: an in-memory file system, an in-memory cache store
    after section 4.2 of the specification, a Markdown engine that reads
    two front-matter keys, and byte-wise versions of the library
    functions. *)

Module fixture.

Definition lowerAscii (c : ascii) : ascii :=
  let n := nat_of_ascii c in
  if (65 <=? n)%nat && (n <=? 90)%nat then ascii_of_nat (n + 32) else c.

Fixpoint lower (s : string) : string :=
  match s with
  | EmptyString => EmptyString
  | String c s' => String (lowerAscii c) (lower s')
  end.

(** The extension of a slash-separated path. *)
Fixpoint ext (s : string) : string :=
  match s with
  | EmptyString => EmptyString
  | String c s' =>
      let e := ext s' in
      if negb (String.eqb e "") then e
      else if Ascii.eqb c "."%char && negb (strings.Contains s' "/") then s
      else EmptyString
  end.

(** Everything before the last slash. *)
Fixpoint dir (s : string) : string :=
  match s with
  | EmptyString => EmptyString
  | String c s' => if strings.Contains s' "/" then String c (dir s') else EmptyString
  end.

(** The words of a text, split at single spaces. *)
Fixpoint words (cur : string) (s : string) : list string :=
  match s with
  | EmptyString => if String.eqb cur "" then [] else [cur]
  | String c s' =>
      if Ascii.eqb c " "%char
      then (if String.eqb cur "" then words "" s' else cur :: words "" s')
      else words (cur +:+ String c EmptyString) s'
  end.

Definition lib (os : list (string * StatResult)) : GoLib := {|
  ToLower := lower;
  TrimSpace := fun s => s;
  Fields := words "";
  filepath_Join := String.concat "/";
  filepath_Ext := ext;
  filepath_Dir := dir;
  filepath_ToSlash := fun s => s;
  time_Parse := fun _ => time.zero;
  os_Stat := fun p =>
    default StatNotExist (snd <$> List.find (fun e => String.eqb e.1 p) os) |}.

(** Modelled from the spec: the order of [utils.SortPosts], "weight ASC
    (zero means no-weight and sorts last), then date DESC, then title ASC"
    (section 4.4, P4), as an insertion sort. *)
Definition postBefore (a b : models.PostMetadata) : bool :=
  let wa := models.Weight a in
  let wb := models.Weight b in
  if negb (wa =? wb) then
    if wa =? 0 then false else if wb =? 0 then true else wa <? wb
  else if negb (models.DateObj a =? models.DateObj b) then
    models.DateObj b <? models.DateObj a
  else String.leb (models.Title a) (models.Title b).

Fixpoint insertPost (p : models.PostMetadata) (l : list models.PostMetadata)
  : list models.PostMetadata :=
  match l with
  | [] => [p]
  | q :: l' => if postBefore p q then p :: q :: l' else q :: insertPost p l'
  end.

Definition sortPosts (l : list models.PostMetadata) : list models.PostMetadata :=
  foldr insertPost [] l.

Definition utils : Utils := {|
  SafeRel := fun base p => (strings.TrimPrefix p (base +:+ "/"), false);
  GetVersionFromPath := fun _ => "";
  GetBodyHash := fun source => "b:" +:+ source;
  GetFrontmatterHash := fun m =>
    "f:" +:+ default "" (assert_string m "title") +:+
    (if (assert_bool m "draft").1 then ":draft" else "");
  GetString := fun m k => default "" (assert_string m k);
  GetSlice := fun _ _ => [];
  GetBool := fun m k => (assert_bool m k).1;
  BuildURL := fun base version p =>
    base +:+ "/" +:+ (if String.eqb version "" then "" else version +:+ "/") +:+ p;
  ReplaceToWebP := fun html => html;
  GeneratePostID := fun _ relPath => lower relPath;
  SortPosts := sortPosts;
  BuildSiteTree := fun _ _ => [];
  FindPrevNext := fun _ _ => (None, None);
  wordsPerMinute := 200;
  isOutdatedVersion := fun _ _ => false;
  GetVersionsMetadata := fun _ _ _ => [] |}.

(** A Markdown engine whose document is its source, and whose front
    matter knows the keys [draft] and [pinned]. *)
Definition frontMatter (source : string) : MetaMap :=
  (if strings.Contains source "draft: true" then <["draft" := VBool true]> else id)
    ((if strings.Contains source "pinned: true" then <["pinned" := VBool true]> else id) ∅).

Definition markdown : Markdown string := {|
  Parse := fun _ source => source;
  Render := fun doc _ => Ok ("<p>" +:+ doc +:+ "</p>");
  GetD2SVGPairSlice := fun _ => None;
  ReplaceD2BlocksWithThemeSupport := fun html _ => html;
  GetSSRHashes := fun _ => [];
  RenderMathForHTML := fun html _ => (html, []);
  meta_Get := frontMatter;
  GetTOC := fun _ => [];
  ExtractPlainText := fun _ source => source;
  Analyze := words "" |}.

(** An in-memory file system: paths with their [FileInfo] and content, in
    walk order. A written file gets the mtime [writeTime]. A walk visits
    the files at or below its root, and meets no error. *)
Definition MemFs : Type := list (string * (FileInfo * string)).

Definition writeTime : time.Time := 1000 * 1000000000.

Definition memLookup (fs : MemFs) (p : string) : option (FileInfo * string) :=
  snd <$> List.find (fun e => String.eqb e.1 p) fs.

Definition memFs : Fs MemFs := {|
  Stat := fun fs p => fst <$> memLookup fs p;
  ReadFile := fun fs p => snd <$> memLookup fs p;
  MkdirAll := fun fs _ => (fs, false);
  WriteFile := fun fs p data =>
    ((p, (mkFileInfo writeTime (Z.of_nat (String.length data)) false, data))
       :: List.filter (fun e => negb (String.eqb e.1 p)) fs, false);
  Walk := fun fs root =>
    (map (fun e => (e.1, false))
       (List.filter (fun e => String.eqb e.1 root || strings.HasPrefix e.1 (root +:+ "/")) fs),
     false) |}.

(** Modelled from the spec: an in-memory cache store with the buckets
    [posts], [search], [deps] and [socialHash] of section 4.2; HTML is kept
    inline. [BatchCommit] replaces the records of the committed posts. *)
Record MemCache := mkMemCache {
  mc_posts : list cache.PostMeta;
  mc_search : gmap string cache.SearchRecord;
  mc_deps : gmap string cache.Dependencies;
  mc_social : gmap string string }.

Definition withInlineHTML (m : cache.PostMeta) (html : string) : cache.PostMeta :=
  cache.mkPostMeta (cache.PostID m) (cache.Path m) (cache.ModTime m) (cache.ContentHash m)
    (cache.BodyHash m) (cache.Title m) (cache.Date m) (cache.Tags m) (cache.ReadingTime m)
    (cache.Description m) (cache.Link m) (cache.Pinned m) (cache.Weight m) (cache.Draft m)
    (cache.Meta m) (cache.TOC m) (cache.Version m) (cache.SSRInputHashes m)
    (Some html) (cache.HTMLRef m).

Definition postByID (c : MemCache) (id : string) : option cache.PostMeta :=
  List.find (fun m => String.eqb (cache.PostID m) id) (mc_posts c).

Definition memCache : CacheService MemCache := {|
  GetPostByPath := fun c p =>
    Ok (List.find (fun m => String.eqb (cache.Path m) p) (mc_posts c));
  GetPost := fun c id => Ok (postByID c id);
  ListAllPosts := Some (fun c => map cache.PostID (mc_posts c));
  GetPostsByIDs := fun c ids => omap (postByID c) ids;
  GetSocialCardHash := fun c p => default "" (mc_social c !! p);
  GetHTMLContent := fun _ m => Ok (cache.InlineHTML m);
  GetSearchRecord := fun c id => Ok (mc_search c !! id);
  DeletePost := fun c id =>
    (mkMemCache (List.filter (fun m => negb (String.eqb (cache.PostID m) id)) (mc_posts c))
       (delete id (mc_search c)) (delete id (mc_deps c)) (mc_social c), false);
  SetSocialCardHash := fun c p h =>
    (mkMemCache (mc_posts c) (mc_search c) (mc_deps c) (<[p := h]> (mc_social c)), false);
  StoreHTMLForPost := fun c m html => (c, withInlineHTML m html, false);
  BatchCommit := fun c metas searches deps =>
    (mkMemCache
       (metas ++ List.filter
                   (fun m => negb (existsb (fun n => String.eqb (cache.PostID n) (cache.PostID m))
                                           metas))
                   (mc_posts c))%list
       (searches ∪ mc_search c) (deps ∪ mc_deps c) (mc_social c), false) |}.

End fixture.

(** ** The specification's wording of three decisions

    Executable transcriptions of sentences of the specification, to be
    compared with what the code computes. *)

Module spec.

(** Section 4.3, step 4: "Hit iff: candidate exists AND [source.mtime >
    candidate.ModTime] implies also BodyHash matches"; "a mismatched body
    hash is always a miss regardless of mtime"; "a build-level force flag
    demotes all hits to misses". [mtime] is in seconds. *)
Definition hit (candidate : option cache.PostMeta) (mtime : Z) (bodyHash : string)
    (force : bool) : bool :=
  match candidate with
  | Some m =>
      (if cache.ModTime m <? mtime then bool_decide (cache.BodyHash m = bodyHash) else true)
      && bool_decide (cache.BodyHash m = bodyHash)
      && negb force
  | None => false
  end.

(** Section 4.3, step 9: "Render the final HTML page iff: outputMissing is
    set, OR cache-miss on this post, OR the destination file is absent or
    older than the source." *)
Definition willRender (outputMissing cacheMiss : bool) (dest : StatResult)
    (sourceModTime : time.Time) : bool :=
  outputMissing || cacheMiss ||
  match dest with
  | StatOk destInfo => fi_ModTime destInfo <? sourceModTime
  | _ => true
  end.

(** Section 4.4, P4: the main feed is the "unversioned [posts] when no
    versions configured, else posts of the version marked isLatest". *)
Definition mainFeed (versions : list config.Version) (p : models.PostMetadata) : bool :=
  match versions with
  | [] => bool_decide (models.Version p = "")
  | _ => existsb (fun v => config.IsLatest v && bool_decide (models.Version p = config.Name v))
                 versions
  end.

End spec.

(** ** Scenarios: concrete sites on the test doubles *)

Module scenario.

Definition sec (n : Z) : time.Time := n * 1000000000.

(** A source file with its mtime in seconds. *)
Definition file (mtime : Z) (content : string) : FileInfo * string :=
  (mkFileInfo (sec mtime) (Z.of_nat (String.length content)) false, content).

Definition cfg0 : config.Config :=
  config.mkConfig "content" "public" "templates" "static" "" "Site" "1" false false
    (config.mkFeatures false) [].

(** [cfg0] with the raw-Markdown mirror enabled. *)
Definition cfgRaw : config.Config :=
  config.mkConfig "content" "public" "templates" "static" "" "Site" "1" false false
    (config.mkFeatures true) [].

(** [cfg0] with one configured version, marked latest. *)
Definition cfgVersioned : config.Config :=
  config.mkConfig "content" "public" "templates" "static" "" "Site" "1" false false
    (config.mkFeatures false) [config.mkVersion "v2" true].

Definition svc (c : config.Config) (fs : fixture.MemFs) : @services.postServiceImpl fixture.MemFs :=
  services.mkService c fs None.

Definition noFlags : services.Flags := services.mkFlags false false false.

(** A context that is never cancelled, and one cancelled from its
    [n]-th poll on. *)
Definition never : services.Context := fun _ => false.
Definition cancelledFrom (n : nat) : services.Context := fun k => (n <=? k)%nat.

(** One post, last modified at second 200. *)
Definition oneFile : fixture.MemFs := [("content/a.md", file 200 "hello")].

(** Two posts. *)
Definition twoFiles : fixture.MemFs :=
  [("content/a.md", file 200 "hello"); ("content/b.md", file 200 "world")].

(** The same post, now marked as a draft. *)
Definition draftFile : fixture.MemFs := [("content/a.md", file 200 "draft: true hello")].

(** A source of 11 MiB (only its [FileInfo] says so). *)
Definition hugeFile : fixture.MemFs :=
  [("content/huge.md", (mkFileInfo (sec 200) (11 * 1024 * 1024) false, "x"))].

(** The cache record of [a.md] from a build at second 100, when its body
    was "hello" and it was not a draft. *)
Definition cachedA : cache.PostMeta :=
  cache.mkPostMeta "a.md" "a.md" 100 "f:" "b:hello" "" time.zero [] 1 "" "/a.html"
    false 0 false ∅ [] "" [] (Some "<p>hello</p>") "".

Definition cacheA : fixture.MemCache :=
  fixture.mkMemCache [cachedA]
    {["a.md" := cache.mkSearchRecord "" "" ∅ 1 "hello" []]} ∅ ∅.

Definition emptyCache : fixture.MemCache := fixture.mkMemCache [] ∅ ∅ ∅.

(** No destination file exists on disk. *)
Definition freshDisk : GoLib := fixture.lib [].

(** [public/a.html] exists on disk, written at second 300. *)
Definition builtDisk : GoLib :=
  fixture.lib [("public/a.html", StatOk (mkFileInfo (sec 300) 12 false))].

(** A build of the site [fs] with configuration [c], from the cache
    [cached] and an empty destination file system. *)
Abbreviation build disk c fs ctx cached :=
  (services.Process (cacheI := fixture.memCache) (destI := fixture.memFs)
     (srcI := fixture.memFs) (mdI := fixture.markdown) (libI := disk)
     (utilsI := fixture.utils)
     (svc c fs) noFlags ctx
     (services.initState (cached : option fixture.MemCache) ([] : fixture.MemFs))).

(** The result of a build that returned. *)
Definition resultOf (r : services.Outcome services.PostResult) : services.PostResult :=
  match r with
  | services.Val res => res
  | _ => services.mkPostResult [] [] ∅ [] false false
  end.

(** A builder in watch mode with the cache [cacheA], after the body of
    [a.md] was edited; its delegated calls succeed. *)
Definition builderEdited : @run.Builder fixture.MemCache fixture.MemFs :=
  run.mkBuilder cfg0 (Some cacheA) [("content/a.md", file 300 "hello again")]
    false (fun _ => false) false.

(** Three tasks of which the second does not reach the publish step. *)
Definition threeFiles : list string := ["content/a.md"; "content/b.md"; "content/c.md"].
Definition reachesUnlessSecond (t : services.parseTask) : option models.IndexedPost :=
  if (services.idx t =? 1)%nat then None else Some models.IndexedPost_zero.

End scenario.

(** ** The files of a build

    What the callback of [afero.Walk] in [services.Process] (lines 89-106)
    does with an entry, in closed form: an entry that arrives without
    error and names a Markdown file other than an [_index.md] either
    flags the 404 page or becomes a post. *)
Module walk.

Definition isMarkdown (e : string * bool) : bool :=
  negb e.2 && strings.HasSuffix e.1 ".md" && negb (strings.Contains e.1 "_index.md").

Definition isPost (e : string * bool) : bool :=
  isMarkdown e && negb (strings.Contains e.1 "404.md").

Definition is404 (e : string * bool) : bool :=
  isMarkdown e && strings.Contains e.1 "404.md".

Definition posts (entries : list (string * bool)) : list string :=
  map fst (List.filter isPost entries).

(** The post files of the content directory of a service. *)
Definition walkedFiles {SF : Type} {srcI : Fs SF} (s : @services.postServiceImpl SF)
  : list string :=
  posts (Walk (services.sourceFs s) (config.ContentDir (services.cfg s))).1.

End walk.


(** ** Progress of a publishing thread

    How many of its two atomic steps (lines 511 and 513 of
    [services.Process]) a worker invocation has behind it; an invocation
    that never reaches line 511 has none to take. *)
Module threads.

Definition stepsDone (p : services.Pc) : nat :=
  match p with
  | services.AtAdd _ => 0
  | services.AtStore _ _ => 1
  | services.Finished _ _ | services.NotReached => 2
  end.

End threads.

(** ** Invariants of the build state *)

Module invariant.

Section Preserves.

Context {C DF SF : Type}.
Context {libI : GoLib} {utilsI : Utils}.

(** A computation keeps the property [Q] of the component [f] of the
    build state, however it ends. *)
Definition preserves {A B} (f : @services.BuildState C DF -> B) (Q : B -> Prop)
    (m : @services.BuildState C DF -> services.Outcome A * @services.BuildState C DF)
  : Prop :=
  forall st, Q (f st) -> Q (f (m st).2).

(** An entry of the render queue at position [i] belongs to the [i]-th
    file: it is still empty (its destination is the empty path of the
    zero value), or it carries the version of that file and the
    destination path lines 180-193 of [services.Process] derive from
    it. *)
Definition slotOf (s : @services.postServiceImpl SF) (files : list string)
    (i : nat) (rc : services.RenderContext) : Prop :=
  services.DestPath rc = "" \/
  exists f, files !! i = Some f /\
            services.Version rc = GetVersionFromPath f /\
            services.DestPath rc =
              services.destPathOf s (GetVersionFromPath f)
                (services.htmlRelPathOf (services.relPathOf s f)).

Definition slotsOf (s : @services.postServiceImpl SF) (files : list string)
    (q : list services.RenderContext) : Prop :=
  forall i rc, q !! i = Some rc -> slotOf s files i rc.

End Preserves.

End invariant.

(** ** Package [run]: template invalidation *)

(** [GetPostsByTemplate], and [GetPostsByIDs] with the error that
    [invalidateForTemplate] checks (the pipeline ignores it). *)
Class TemplateQueries (C : Type) := {
  GetPostsByTemplate : C -> string -> GoResult (list string);
  GetPostsByIDs_checked : C -> list string -> GoResult (list cache.PostMeta) }.

Module templates.

Section Invalidate.

Context {C SF : Type}.
Context {tmplI : TemplateQueries C} {libI : GoLib} {utilsI : Utils}.

Variable b : @run.Builder C SF.

(** [invalidateForTemplate] (lines 21-58). [None] is the nil slice, which
    stands for "everything"; [Some l] is a non-nil slice of post paths. *)
Definition invalidateForTemplate (templatePath : string) : option (list string) :=
  let tp := filepath_ToSlash templatePath in
  if strings.HasPrefix tp (filepath_ToSlash (config.TemplateDir (run.cfg b))) then
    let relTmpl := filepath_ToSlash (SafeRel (config.TemplateDir (run.cfg b)) tp).1 in
    if bool_decide (relTmpl = "layout.html") then None
    else
      match run.cacheService b with
      | Some c =>
          match GetPostsByTemplate c relTmpl with
          | Ok (id :: ids) =>
              match GetPostsByIDs_checked c (id :: ids) with
              | Ok (post :: posts) => Some (map cache.Path (post :: posts))
              | _ => Some []
              end
          | _ => Some []
          end
      | None => Some []
      end
  else if strings.HasPrefix tp (filepath_ToSlash (config.StaticDir (run.cfg b))) then None
  else if bool_decide (tp = "kosh.yaml") then None
  else if bool_decide (tp = "builder/generators/pwa.go") then Some []
  else None.

End Invalidate.
End templates.

(** ** Command [kosh]: the flag loops of [main] *)

Module cli.

(** The [clean] case (lines 45-54): [cleanCache] and [cleanAll]. *)
Definition cleanFlags (args : list string) : bool * bool :=
  foldl (fun acc arg =>
           let cleanCache := if String.eqb arg "--cache" || String.eqb arg "-cache"
                             then true else acc.1 in
           let cleanAll := if String.eqb arg "--all" || String.eqb arg "-all"
                           then true else acc.2 in
           (cleanCache, cleanAll))
        (false, false) args.

(** The [serve] case (lines 68-77): [isDev] and [filteredArgs]. *)
Definition serveFlags (args : list string) : bool * list string :=
  foldl (fun acc arg =>
           if String.eqb arg "--dev" || String.eqb arg "-dev"
           then (true, acc.2)
           else (acc.1, (acc.2 ++ [arg])%list))
        (false, []) args.

(** The local variables of the [build] case. *)
Record BuildFlags := mkBuildFlags {
  isWatch : bool;
  cpuProfile : string;
  memProfile : string;
  filteredArgs : list string }.

(** The [build] case (lines 115-132): the loop over [args], from the
    position where [args] starts; a profile flag takes the next argument
    when there is one ([i+1 < len(args)]). *)
Fixpoint buildLoop (args : list string) (acc : BuildFlags) : BuildFlags :=
  match args with
  | [] => acc
  | arg :: rest =>
      if String.eqb arg "--watch" || String.eqb arg "-watch" then
        buildLoop rest (mkBuildFlags true (cpuProfile acc) (memProfile acc) (filteredArgs acc))
      else
        match rest with
        | value :: rest' =>
            if String.eqb arg "--cpuprofile" then
              buildLoop rest' (mkBuildFlags (isWatch acc) value (memProfile acc)
                                 (filteredArgs acc))
            else if String.eqb arg "--memprofile" then
              buildLoop rest' (mkBuildFlags (isWatch acc) (cpuProfile acc) value
                                 (filteredArgs acc))
            else
              buildLoop rest (mkBuildFlags (isWatch acc) (cpuProfile acc) (memProfile acc)
                                (filteredArgs acc ++ [arg])%list)
        | [] =>
            buildLoop rest (mkBuildFlags (isWatch acc) (cpuProfile acc) (memProfile acc)
                              (filteredArgs acc ++ [arg])%list)
        end
  end.

Definition buildFlags (args : list string) : BuildFlags :=
  buildLoop args (mkBuildFlags false "" "" []).

End cli.

(** ** Further sites and builders *)

Module cases.

(** A context that is cancelled before the build starts. *)
Definition cancelled : services.Context := scenario.cancelledFrom 0.

(** A render queue of two files of which only the second is to be
    rendered. *)
Definition queue : list services.RenderContext :=
  [services.RenderContext_zero;
   services.mkRenderContext "public/b.html" services.PageData_zero ""].

(** The cache record of [a.md] as an older version of the cache wrote it,
    without a body hash. *)
Definition cachedNoBodyHash : cache.PostMeta :=
  cache.mkPostMeta "a.md" "a.md" 100 "f:" "" "" time.zero [] 1 "" "/a.html"
    false 0 false ∅ [] "" [] (Some "<p>hello</p>") "".

(** A builder in watch mode whose cache holds that record; the source of
    [a.md] is as it was. *)
Definition builderNoBodyHash : @run.Builder fixture.MemCache fixture.MemFs :=
  run.mkBuilder scenario.cfg0
    (Some (fixture.mkMemCache [cachedNoBodyHash] ∅ ∅ ∅))
    [("content/a.md", scenario.file 300 "hello")]
    false (fun _ => false) false.

(** A builder in watch mode whose cache holds the record of [a.md], a
    file that was touched but not changed since. *)
Definition builderUnchanged : @run.Builder fixture.MemCache fixture.MemFs :=
  run.mkBuilder scenario.cfg0 (Some scenario.cacheA)
    [("content/a.md", scenario.file 300 "hello")]
    false (fun _ => false) false.

(** The cache record of a post whose file is gone, and a cache that
    holds it beside the record of [a.md]. *)
Definition cachedGone : cache.PostMeta :=
  cache.mkPostMeta "gone.md" "gone.md" 100 "f:" "b:bye" "" time.zero [] 1 "" "/gone.html"
    false 0 false ∅ [] "" [] (Some "<p>bye</p>") "".

Definition cacheStale : fixture.MemCache :=
  fixture.mkMemCache [scenario.cachedA; cachedGone] ∅ ∅ ∅.

(** A builder in watch mode whose full build fails. *)
Definition builderFailing : @run.Builder fixture.MemCache fixture.MemFs :=
  run.mkBuilder scenario.cfg0 (Some scenario.cacheA)
    [("content/a.md", scenario.file 300 "hello again")]
    true (fun _ => false) false.

End cases.

(** * Properties *)

(** ** The library functions on small inputs *)

Example Replace1_md : strings.Replace1 "docs/a.md" ".md" ".html" = "docs/a.html".
Proof. reflexivity. Qed.

Example Replace1_first_only : strings.Replace1 "a.md.md" ".md" ".html" = "a.html.md".
Proof. reflexivity. Qed.

Example HasSuffix_md : strings.HasSuffix "content/a.md" ".md" = true.
Proof. reflexivity. Qed.

Example Contains_index : strings.Contains "content/docs/_index.md" "_index.md" = true.
Proof. reflexivity. Qed.

Example TrimSuffix_html : strings.TrimSuffix "a.html" ".html" = "a".
Proof. reflexivity. Qed.

Example TrimPrefix_version : strings.TrimPrefix "v1/a.html" "v1/" = "a.html".
Proof. reflexivity. Qed.

Example wrap32_overflow : wrap32 (2 ^ 31) = - 2 ^ 31.
Proof. reflexivity. Qed.

Example AddInt32_first : AddInt32 (-1) 1 = 0.
Proof. reflexivity. Qed.

Example Unix_floor : time.Unix 1999999999 = 1 /\ time.Unix (-1) = -1.
Proof. split; reflexivity. Qed.

Example slice_store_out_of_range : slice_store [1; 2; 3] 3 9 = None.
Proof. reflexivity. Qed.

Example mirror_path :
  services.mdDestPathOf (libI := scenario.freshDisk) "public/a.html" = "public/a.md".
Proof. reflexivity. Qed.

Section ServicesFacts.

Import services.
Local Open Scope W_scope.

Context {C DF SF Doc : Type}.
Context {cacheI : CacheService C} {destI : Fs DF} {srcI : Fs SF} {mdI : Markdown Doc}
        {libI : GoLib} {utilsI : Utils}.

Implicit Types (st : @BuildState C DF) (s : @postServiceImpl SF).

Local Abbreviation keeps := (@services.keeps C DF _ _).
Local Abbreviation total := (@services.total C DF _).

(** ** Reasoning about worker bodies *)

Lemma bind_Val {A B} (m : W A) (k : A -> W B) st a st' :
  m st = (Val a, st') -> bind m k st = k a st'.
Proof. unfold bind. by intros ->. Qed.

Lemma bind_Returned {A B} (m : W A) (k : A -> W B) st st' :
  m st = (Returned, st') -> bind m k st = (Returned, st').
Proof. unfold bind. by intros ->. Qed.

Lemma bind_Panicked {A B} (m : W A) (k : A -> W B) st st' :
  m st = (Panicked, st') -> bind m k st = (Panicked, st').
Proof. unfold bind. by intros ->. Qed.

Lemma bind_gets {A B} (g : @BuildState C DF -> A) (k : A -> W B) st :
  bind (gets g) k st = k (g st) st.
Proof. done. Qed.

Lemma bind_modify {B} g (k : unit -> W B) st :
  bind (modify g) k st = k tt (g st).
Proof. done. Qed.

Lemma bind_ret {A B} (a : A) (k : A -> W B) st :
  bind (ret a) k st = k a st.
Proof. done. Qed.

Lemma bind_bind {A A' B} (m : W A) (k : A -> W A') (k' : A' -> W B) st :
  bind (bind m k) k' st = bind m (fun a => bind (k a) k') st.
Proof. unfold bind. by destruct (m st) as [[a| |] st1]. Qed.

Lemma bind_Val_inv {A B} (m : W A) (k : A -> W B) st b st' :
  bind m k st = (Val b, st') ->
  exists a st1, m st = (Val a, st1) /\ k a st1 = (Val b, st').
Proof.
  unfold bind. destruct (m st) as [[a| |] st1]; try discriminate. eauto.
Qed.

Lemma keeps_ret {A B} (f : @BuildState C DF -> B) (a : A) : keeps f (ret a).
Proof. done. Qed.

Lemma keeps_return {A B} (f : @BuildState C DF -> B) : keeps f (@return_ C DF A).
Proof. done. Qed.

Lemma keeps_panic {A B} (f : @BuildState C DF -> B) : keeps f (@panic C DF A).
Proof. done. Qed.

Lemma keeps_gets {A B} (f : @BuildState C DF -> B) (g : @BuildState C DF -> A) :
  keeps f (gets g).
Proof. done. Qed.

Lemma keeps_modify {B} (f : @BuildState C DF -> B) g :
  (forall st, f (g st) = f st) -> keeps f (modify g).
Proof. intros Hg st. apply Hg. Qed.

Lemma keeps_bind {A A' B} (f : @BuildState C DF -> B) (m : W A) (k : A -> W A') :
  keeps f m -> (forall a, keeps f (k a)) -> keeps f (bind m k).
Proof.
  intros Hm Hk st. unfold bind. specialize (Hm st).
  destruct (m st) as [[a| |] st1]; cbn in *; try done.
  by rewrite Hk.
Qed.

Lemma keeps_when {B} (f : @BuildState C DF -> B) b m :
  keeps f m -> keeps f (when b m).
Proof. destruct b; [done|]. intros _. apply keeps_ret. Qed.

Lemma keeps_call {B} (f : @BuildState C DF -> B) m :
  keeps f m -> keeps f (call m).
Proof.
  intros Hm st. unfold call. specialize (Hm st).
  by destruct (m st) as [[a| |] st1].
Qed.

Lemma keeps_Val {A B} (f : @BuildState C DF -> B) (m : W A) st o st' :
  keeps f m -> m st = (o, st') -> f st' = f st.
Proof. intros Hm E. specialize (Hm st). by rewrite E in Hm. Qed.

Lemma keeps_ctxDone {B} (f : @BuildState C DF -> B) ctx :
  (forall st, f (upd_ctxPolls S st) = f st) -> keeps f (ctxDone ctx).
Proof. intros Hf st. apply Hf. Qed.

Lemma total_ret {A} (a : A) : total (ret a).
Proof. intros st. by eexists _, _. Qed.

Lemma total_gets {A} (g : @BuildState C DF -> A) : total (gets g).
Proof. intros st. by eexists _, _. Qed.

Lemma total_modify g : total (modify g).
Proof. intros st. by eexists _, _. Qed.

Lemma total_ctxDone ctx : total (ctxDone ctx).
Proof. intros st. by eexists _, _. Qed.

Lemma total_bind {A B} (m : W A) (k : A -> W B) :
  total m -> (forall a, total (k a)) -> total (bind m k).
Proof.
  intros Hm Hk st. destruct (Hm st) as (a & st1 & E).
  rewrite (bind_Val _ _ _ _ _ E). apply Hk.
Qed.

Lemma total_when b m : total m -> total (when b m).
Proof. destruct b; [done|]. intros _. apply total_ret. Qed.

Ltac total_tac :=
  repeat match goal with
         | |- total (ret _) => apply total_ret
         | |- total (gets _) => apply total_gets
         | |- total (modify _) => apply total_modify
         | |- total (ctxDone _) => apply total_ctxDone
         | |- total (when _ _) => apply total_when
         | |- total (bind _ _) => apply total_bind; [|intros ?]
         | |- total (if ?b then _ else _) => destruct b
         | |- total (match ?x with _ => _ end) => destruct x
         | |- total (logW _ _ _) => unfold logW
         | |- total (destMkdirAll _ _) => unfold destMkdirAll
         | |- total (destWriteFile _ _ _) => unfold destWriteFile
         | |- total _ => progress cbv zeta
         end.

(** Decompose a [keeps] goal along the structure of the computation; the
    goals that remain are the writes to the component itself. *)
Ltac keeps_tac :=
  repeat match goal with
         | |- keeps _ (ret _) => apply keeps_ret
         | |- keeps _ return_ => apply keeps_return
         | |- keeps _ panic => apply keeps_panic
         | |- keeps _ (gets _) => apply keeps_gets
         | |- keeps _ (modify _) => apply keeps_modify; intros ?; reflexivity
         | |- keeps _ (ctxDone _) => apply keeps_ctxDone; intros ?; reflexivity
         | |- keeps _ (when _ _) => apply keeps_when
         | |- keeps _ (call _) => apply keeps_call
         | |- keeps _ (bind _ _) => apply keeps_bind; [|intros ?]
         | |- keeps _ (if ?b then _ else _) => destruct b
         | |- keeps _ (match ?x with _ => _ end) => destruct x
         | |- keeps _ (logW _ _ _) => unfold logW
         | |- keeps _ (destMkdirAll _ _) => unfold destMkdirAll
         | |- keeps _ (destWriteFile _ _ _) => unfold destWriteFile
         | |- keeps _ _ => progress cbv zeta
         end.

(** ** The cache probe *)

Lemma resolveFromCache_info s (c : option C) relPath path m i e :
  resolveFromCache s c relPath path = (m, Some i, e) ->
  Stat (sourceFs s) path = Some i.
Proof.
  unfold resolveFromCache.
  destruct c as [c|]; [|congruence].
  destruct (GetPostByPath c relPath) as [[m'|]|]; congruence.
Qed.

(** C1 (as the code has it). The probe of lines 205-233 leaves the build
    state alone. It ends the worker exactly when the source is larger than
    [MaxFileSize]; otherwise it reports a hit iff a cache is configured,
    it holds a candidate for the post, the source's mtime (in seconds) is
    not greater than the candidate's [ModTime] (or the source cannot be
    stat'ed), the candidate's [BodyHash] is empty or equal to the fresh
    body hash, and the build is not forced. *)
Theorem probe_hit_iff s flags relPath path st :
  match probe s flags relPath path st with
  | (Val pr, st') =>
      st' = st /\
      (useCache pr = true <->
       exists c m,
         cacheSt st = Some c /\
         GetPostByPath c relPath = Ok (Some m) /\
         (forall i, Stat (sourceFs s) path = Some i ->
                    time.Unix (fi_ModTime i) <= cache.ModTime m) /\
         (cache.BodyHash m = "" \/
          cache.BodyHash m = GetBodyHash (default "" (ReadFile (sourceFs s) path))) /\
         shouldForce flags = false)
  | (Returned, st') =>
      exists i, Stat (sourceFs s) path = Some i /\ MaxFileSize < fi_Size i
  | (Panicked, _) => False
  end.
Proof.
  unfold probe, bind, gets, logW, modify, return_, ret.
  destruct (resolveFromCache s (cacheSt st) relPath path) as [[m info0] e] eqn:R.
  set (info1 := match info0 with None => Stat (sourceFs s) path | Some i => Some i end).
  assert (Hinfo : info1 = Stat (sourceFs s) path).
  { subst info1. destruct info0 as [i|]; [|done].
    symmetry. eapply resolveFromCache_info; eauto. }
  destruct info1 as [i|] eqn:Ei.
  - destruct (MaxFileSize <? fi_Size i) eqn:Big.
    + exists i. split; [done|]. by apply Z.ltb_lt.
    + split; [done|]. cbn [useCache].
      revert R. unfold resolveFromCache.
      destruct (cacheSt st) as [c|].
      2:{ intros [= <- <- <-]. cbn. split; [done|]. intros (c & ? & ? & _); done. }
      destruct (GetPostByPath c relPath) as [[m'|]|] eqn:G.
      2,3: intros [= <- <- <-]; cbn; (split; [done|]);
           intros (c' & m' & [= <-] & G' & _); congruence.
      rewrite <- Hinfo.
      intros [= <- <- <-]. unfold bodyChanged.
      destruct (cache.ModTime m' <? time.Unix (fi_ModTime i)) eqn:Newer.
      * cbn. split; [done|]. intros (c' & m2 & [= <-] & G' & Hm & _).
        rewrite G in G'. injection G' as <-.
        apply Z.ltb_lt in Newer. specialize (Hm i eq_refl). lia.
      * apply Z.ltb_ge in Newer. cbn.
        repeat case_bool_decide; cbn; destruct (shouldForce flags); cbn;
          split; try done;
          try (intros (c' & m2 & [= <-] & G' & Hm & Hb & Hf);
               rewrite G in G'; injection G' as <-; destruct Hb; done);
          intros _; exists c, m'; repeat split; auto;
          intros i' [= <-]; done.
  - split; [done|]. cbn [useCache].
    revert R. unfold resolveFromCache.
    destruct (cacheSt st) as [c|].
    2:{ intros [= <- <- <-]. cbn. split; [done|]. intros (c & ? & ? & _); done. }
    destruct (GetPostByPath c relPath) as [[m'|]|] eqn:G.
    2,3: intros [= <- <- <-]; cbn; (split; [done|]);
         intros (c' & m' & [= <-] & G' & _); congruence.
    rewrite <- Hinfo.
    intros [= <- <- <-]. unfold bodyChanged. cbn.
    repeat case_bool_decide; cbn; destruct (shouldForce flags); cbn;
      split; try done;
      try (intros (c' & m2 & [= <-] & G' & Hm & Hb & Hf);
           rewrite G in G'; injection G' as <-; destruct Hb; done);
      intros _; exists c, m'; repeat split; auto; intros i' [= ].
Qed.


(** ** The rendering decision *)

Lemma copyRawMarkdownIfMissing_Val s destPath path :
  total (copyRawMarkdownIfMissing s destPath path).
Proof. unfold copyRawMarkdownIfMissing. total_tac. Qed.

Lemma copyRawMarkdownIfMissing_renderQueue s destPath path :
  keeps renderQueue (copyRawMarkdownIfMissing s destPath path).
Proof. unfold copyRawMarkdownIfMissing. keeps_tac. Qed.

Lemma slice_store_nat {A} (l : list A) (i : nat) (x : A) :
  slice_store l (Z.of_nat i) x =
  if decide (i < length l)%nat then Some (<[i := x]> l) else None.
Proof.
  unfold slice_store. case_decide.
  - replace ((0 <=? Z.of_nat i) && (Z.of_nat i <? Z.of_nat (length l))) with true
      by (symmetry; apply andb_true_iff; split; [apply Z.leb_le|apply Z.ltb_lt]; lia).
    by rewrite Nat2Z.id.
  - replace ((0 <=? Z.of_nat i) && (Z.of_nat i <? Z.of_nat (length l))) with false
      by (symmetry; apply andb_false_iff; right; apply Z.ltb_ge; lia).
    done.
Qed.

Lemma enqueueRender_spec s idx version htmlRelPath destPath imagePath d st :
  ((idx < length (renderQueue st))%nat /\
   exists data,
     enqueueRender s idx version htmlRelPath destPath imagePath d st =
     (Val tt, upd_anyPostChanged (fun _ => true)
                (upd_renderQueue
                   (fun _ => <[idx := mkRenderContext destPath data version]> (renderQueue st))
                   st))) \/
  ((length (renderQueue st) <= idx)%nat /\
   enqueueRender s idx version htmlRelPath destPath imagePath d st = (Panicked, st)).
Proof.
  unfold enqueueRender. cbv zeta. rewrite bind_gets.
  rewrite slice_store_nat. case_decide.
  - left. split; [done|]. eexists. reflexivity.
  - right. split; [lia|done].
Qed.

(** C2 (as the code has it). With [src] the source's [FileInfo] the
    worker holds (stat'ed again when it holds none), lines 454-505 decide
    to render iff [outputMissing] is set, or the post is a cache hit and
    the destination does not exist, or the post is a cache miss and the
    destination either cannot be stat'ed or has an mtime that is not after
    the source's. A render task is stored at the post's index exactly
    when the decision is to render; otherwise the queue is left as it
    was. The step panics only on a nil [FileInfo] or an index outside the
    queue. *)
Theorem renderStep_decision s flags idx path version htmlRelPath destPath imagePath
    (useCache : bool) (info : option FileInfo) d st :
  let src := match info with None => Stat (sourceFs s) path | Some i => Some i end in
  match renderStep s flags idx path version htmlRelPath destPath imagePath useCache info d st with
  | (Val wr, st') =>
      (wr.1 = true <->
         outputMissing flags = true \/
         (useCache = true /\ os_Stat destPath = StatNotExist) \/
         (useCache = false /\
          forall destInfo, os_Stat destPath = StatOk destInfo ->
            exists i, src = Some i /\ fi_ModTime destInfo <= fi_ModTime i)) /\
      (if wr.1
       then exists data, renderQueue st' =
                         <[idx := mkRenderContext destPath data version]> (renderQueue st)
       else renderQueue st' = renderQueue st)
  | (Returned, _) => False
  | (Panicked, _) =>
      (outputMissing flags = false /\ useCache = false /\ src = None /\
       exists destInfo, os_Stat destPath = StatOk destInfo) \/
      (length (renderQueue st) <= idx)%nat
  end.
Proof.
  intros src. unfold renderStep.
  set (cond := outputMissing flags = true \/
               (useCache = true /\ os_Stat destPath = StatNotExist) \/
               (useCache = false /\
                forall destInfo, os_Stat destPath = StatOk destInfo ->
                  exists i, src = Some i /\ fi_ModTime destInfo <= fi_ModTime i)).
  assert (Hwr : (exists wr info', willRenderOf s flags useCache info destPath path st
                                  = (Val (wr, info'), st) /\ (wr = true <-> cond))
                \/ (willRenderOf s flags useCache info destPath path st = (Panicked, st) /\
                    outputMissing flags = false /\ useCache = false /\ src = None /\
                    exists destInfo, os_Stat destPath = StatOk destInfo)).
  { unfold willRenderOf, ret, panic, cond. fold src.
    destruct (outputMissing flags) eqn:OM.
    { left. eexists _, _. split; [done|]. split; auto. }
    destruct useCache.
    { left. destruct (os_Stat destPath) eqn:OS; eexists _, _; (split; [done|]);
        (split; [try done; intros _; auto | try done]);
        intros [|[[_ ?]|[? _]]]; done. }
    destruct (os_Stat destPath) as [destInfo| |] eqn:OS.
    - destruct src as [i|] eqn:Src.
      + left. eexists _, _. split; [done|]. unfold time.After.
        rewrite negb_true_iff, Z.ltb_ge. split.
        * intros Hle. right; right. split; [done|].
          intros ? [= <-]. eauto.
        * intros [|[[? _]|[_ Hd]]]; try done.
          destruct (Hd _ eq_refl) as (i' & [= <-] & ?). done.
      + right. repeat split; eauto.
    - left. eexists _, _. split; [done|]. split; [|done].
      intros _. right; right. split; [done|]. intros ? [=].
    - left. eexists _, _. split; [done|]. split; [|done].
      intros _. right; right. split; [done|]. intros ? [=]. }
  destruct Hwr as [(wr & info' & Ewr & Hiff)|(Ewr & Hpanic)].
  2:{ rewrite (bind_Panicked _ _ _ _ Ewr). by left. }
  rewrite (bind_Val _ _ _ _ _ Ewr).
  destruct (copyRawMarkdownIfMissing_Val s destPath path st) as ([] & st1 & Eraw).
  rewrite (bind_Val _ _ _ _ _ Eraw).
  pose proof (keeps_Val _ _ _ _ _ (copyRawMarkdownIfMissing_renderQueue s destPath path) Eraw)
    as Hq.
  cbn [fst]. destruct wr; cbn [when].
  - destruct (enqueueRender_spec s idx version htmlRelPath destPath imagePath d st1)
      as [(Hlt & data & Eq)|(Hge & Eq)].
    + rewrite (bind_Val _ _ _ _ _ Eq). cbn. split; [done|].
      exists data. by rewrite Hq.
    + rewrite (bind_Panicked _ _ _ _ Eq). right. by rewrite <- Hq.
  - cbn. split; [done|]. done.
Qed.

(** ** Oversized sources *)

Lemma probe_oversize s flags relPath path st i :
  Stat (sourceFs s) path = Some i ->
  MaxFileSize < fi_Size i ->
  probe s flags relPath path st =
  (Returned, upd_logs (cons (Warn, "File exceeds size limit, skipping", path)) st).
Proof.
  intros HS Hbig. unfold probe. rewrite bind_gets.
  destruct (resolveFromCache s (cacheSt st) relPath path) as [[m info0] e] eqn:R.
  assert (Hinfo : match info0 with None => Stat (sourceFs s) path | Some i => Some i end
                  = Some i).
  { destruct info0 as [i'|]; [|done].
    rewrite <- HS. symmetry. eapply resolveFromCache_info; eauto. }
  rewrite Hinfo. apply Z.ltb_lt in Hbig. rewrite Hbig. done.
Qed.

(** C8. A source larger than [MaxFileSize] (10 MiB) makes the worker log
    a warning and return at once: the render queue, the search index and
    its counter, the metadata map, the card jobs, the staging area, the
    destination file system and the cache are as they were, and the
    submission loop goes on with the remaining posts from that state. *)
Theorem oversize_skipped s flags ctx pt rest st i :
  Stat (sourceFs s) (path pt) = Some i ->
  MaxFileSize < fi_Size i ->
  let st' := upd_logs (cons (Warn, "File exceeds size limit, skipping", path pt)) st in
  worker s flags ctx pt st = (Returned, st') /\
  collections st' = collections st /\
  destFsSt st' = destFsSt st /\
  cacheSt st' = cacheSt st /\
  (ctx (ctxPolls st) = false -> ctx (S (ctxPolls st)) = false ->
   submitLoop s flags ctx (pt :: rest) st =
   submitLoop s flags ctx rest (upd_ctxPolls (fun n => S (S n)) st')).
Proof.
  intros HS Hbig st'.
  assert (Hw : worker s flags ctx pt st = (Returned, st')).
  { unfold worker. cbv zeta.
    by rewrite (bind_Returned _ _ _ _ (probe_oversize s flags _ _ st i HS Hbig)). }
  repeat split; try done.
  intros Hc1 Hc2. cbn [submitLoop].
  unfold bind at 1. unfold ctxDone at 1. rewrite Hc1.
  unfold pool_Submit. unfold bind at 1.
  unfold bind at 1. unfold ctxDone at 1. cbn [ctxPolls upd_ctxPolls]. rewrite Hc2.
  unfold call.
  replace (worker s flags ctx pt (upd_ctxPolls S (upd_ctxPolls S st)))
    with (@Returned unit, upd_ctxPolls (fun n => S (S n)) st'); [done|].
  symmetry. unfold worker. cbv zeta.
  by rewrite (bind_Returned _ _ _ _
                (probe_oversize s flags _ _ (upd_ctxPolls S (upd_ctxPolls S st)) i HS Hbig)).
Qed.

(** ** The raw Markdown mirror and the draft gate *)

Lemma copyRawMarkdown_on s destPath source st :
  config.RawMarkdown (config.features (cfg s)) = true ->
  exists st',
    copyRawMarkdown s destPath source st = (Val tt, st') /\
    destFsSt st' =
      (WriteFile (MkdirAll (destFsSt st) (filepath_Dir (mdDestPathOf destPath))).1
                 (mdDestPathOf destPath) source).1 /\
    collections st' = collections st /\
    cacheSt st' = cacheSt st.
Proof.
  intros HR. unfold copyRawMarkdown. rewrite HR. cbn [when]. cbv zeta.
  unfold destMkdirAll, destWriteFile, logW, bind, gets, modify, ret, when. cbn.
  destruct (MkdirAll (destFsSt st) (filepath_Dir (mdDestPathOf destPath))) as [fs1 e1] eqn:E1.
  destruct e1; cbn;
    destruct (WriteFile fs1 (mdDestPathOf destPath) source) as [fs2 e2] eqn:E2;
    destruct e2; cbn; eexists; (split; [reflexivity|]); cbn; rewrite ?E2; done.
Qed.

Lemma fromSource_Val s path version relPath htmlRelPath destPath source html st :
  config.RawMarkdown (config.features (cfg s)) = true ->
  Render (Parse path source) source = Ok html ->
  exists d st',
    fromSource s path version relPath htmlRelPath destPath source st = (Val d, st') /\
    models.Draft (post d) = GetBool (meta_Get (Parse path source)) "draft" /\
    destFsSt st' =
      (WriteFile (MkdirAll (destFsSt st) (filepath_Dir (mdDestPathOf destPath))).1
                 (mdDestPathOf destPath) source).1 /\
    collections st' = collections st /\
    cacheSt st' = cacheSt st.
Proof.
  intros HR HRender. unfold fromSource. rewrite bind_modify.
  destruct (copyRawMarkdown_on s destPath source (upd_cacheMisses (Z.add 1) st) HR)
    as (st1 & E1 & Hfs & Hcol & Hc).
  rewrite (bind_Val _ _ _ _ _ E1). cbv zeta. rewrite HRender.
  eexists _, st1. split; [reflexivity|]. cbn [post models.Draft]. done.
Qed.

(** C10. With the raw-Markdown feature on and drafts excluded, a draft
    post that misses the cache (and renders) is dropped at the draft gate,
    every collection untouched, yet its source has been written to the
    [.md] mirror path of the destination file system: the mirror is
    written before the draft gate is evaluated. *)
Theorem raw_mirror_written_for_draft s flags ctx pt st pr html :
  let relPath := relPathOf s (path pt) in
  let destPath := destPathOf s (version pt) (htmlRelPathOf relPath) in
  let mdDestPath := mdDestPathOf destPath in
  config.RawMarkdown (config.features (cfg s)) = true ->
  config.IncludeDrafts (cfg s) = false ->
  probe s flags relPath (path pt) st = (Val pr, st) ->
  useCache pr = false ->
  Render (Parse (path pt) (source pr)) (source pr) = Ok html ->
  GetBool (meta_Get (Parse (path pt) (source pr))) "draft" = true ->
  exists st',
    worker s flags ctx pt st = (Returned, st') /\
    destFsSt st' =
      (WriteFile (MkdirAll (destFsSt st) (filepath_Dir mdDestPath)).1
                 mdDestPath (source pr)).1 /\
    collections st' = collections st.
Proof.
  intros relPath destPath mdDestPath HR HD Hprobe Hmiss HRender Hdraft.
  destruct (fromSource_Val s (path pt) (version pt) relPath (htmlRelPathOf relPath)
              destPath (source pr) html st HR HRender)
    as (d & st' & Esrc & Hd & Hfs & Hcol & _).
  exists st'. split; [|done].
  unfold worker. cbv zeta. fold relPath. fold destPath.
  rewrite (bind_Val _ _ _ _ _ Hprobe). rewrite bind_gets.
  unfold loadCached. rewrite Hmiss. rewrite bind_ret. cbv iota beta.
  rewrite (bind_Val _ _ _ _ _ Esrc).
  rewrite Hd, Hdraft, HD. done.
Qed.

(** ** The cache commit *)

Ltac unfold_worker :=
  unfold worker, probe, loadCached, fromCache, fromSource, copyRawMarkdown, socialCard,
    renderStep, willRenderOf, copyRawMarkdownIfMissing, enqueueRender, publish,
    nextSearchID, stage.

Lemma worker_keeps_batchCommits s flags ctx pt :
  keeps batchCommits (worker s flags ctx pt).
Proof. unfold_worker. keeps_tac. Qed.

Lemma submitLoop_keeps_batchCommits s flags ctx tasks :
  keeps batchCommits (submitLoop s flags ctx tasks).
Proof.
  induction tasks as [|pt rest IH]; cbn [submitLoop]; [apply keeps_ret|].
  unfold pool_Submit. keeps_tac; auto using worker_keeps_batchCommits.
Qed.

Lemma walkContent_keeps_batchCommits entries files fileVersions has404 :
  keeps batchCommits (walkContent entries files fileVersions has404).
Proof.
  revert files fileVersions has404.
  induction entries as [|[p e] rest IH]; intros; cbn [walkContent]; keeps_tac; auto.
Qed.

Lemma sweep_keeps_batchCommits existing ids :
  keeps batchCommits (sweep existing ids).
Proof.
  induction ids as [|id rest IH]; cbn [sweep]; keeps_tac; auto.
Qed.

Lemma parsePhase_keeps_batchCommits s flags ctx :
  keeps batchCommits (parsePhase s flags ctx).
Proof.
  unfold parsePhase, staleSweep, warmup.
  keeps_tac; auto using walkContent_keeps_batchCommits, sweep_keeps_batchCommits,
    submitLoop_keeps_batchCommits.
Qed.

Lemma renderLoop_keeps_batchCommits ctx byVersion siteTrees i tasks :
  keeps batchCommits (renderLoop ctx byVersion siteTrees i tasks).
Proof.
  revert i. induction tasks as [|t rest IH]; intros i; cbn [renderLoop];
    unfold pool_Submit, renderWorker; keeps_tac; auto.
Qed.

Lemma renderLoop_keeps_allMetadataMap ctx byVersion siteTrees i tasks :
  keeps allMetadataMap (renderLoop ctx byVersion siteTrees i tasks).
Proof.
  revert i. induction tasks as [|t rest IH]; intros i; cbn [renderLoop];
    unfold pool_Submit, renderWorker; keeps_tac; auto.
Qed.

Lemma commit_keeps_allMetadataMap : keeps allMetadataMap commit.
Proof. unfold commit. keeps_tac. Qed.

(** What [commit] does: one [BatchCommit] of the staged records when a
    cache is configured and something is staged, nothing otherwise. *)
Lemma commit_spec st :
  exists st',
    commit st = (Val tt, st') /\
    batchCommits st' =
      ((if bool_decide (is_Some (cacheSt st')) && (0 <? length (newPostsMeta st'))%nat
        then [staged st'] else []) ++ batchCommits st)%list.
Proof.
  unfold commit. rewrite !bind_gets.
  destruct (cacheSt st) as [c|] eqn:Ec.
  - destruct (0 <? length (newPostsMeta st))%nat eqn:En.
    + destruct (BatchCommit c (newPostsMeta st) (newSearchRecords st) (newDeps st))
        as [c' e] eqn:Eb.
      destruct e; eexists; (split; [reflexivity|]); cbn in En |- *;
        destruct (length (newPostsMeta st)); (discriminate || reflexivity).
    + eexists. split; [reflexivity|]. rewrite En. by rewrite andb_false_r.
  - eexists. split; [reflexivity|]. rewrite Ec.
    rewrite bool_decide_eq_false_2; [done|]. by intros [? ?].
Qed.

(** C4 (as the code has it). Whatever the context answers, and so also
    when it is cancelled during processing, a build that returns has
    called [BatchCommit] exactly once, with the staged records, when a
    cache is configured and at least one record is staged, and not at all
    otherwise: cancellation does not suppress the commit. (A build that
    ends in a panic has not committed.) *)
Theorem commit_ignores_cancellation s flags ctx st :
  match Process s flags ctx st with
  | (Val res, st') =>
      batchCommits st' =
        ((if bool_decide (is_Some (cacheSt st')) && (0 <? length (newPostsMeta st'))%nat
          then [staged st'] else []) ++ batchCommits st)%list
  | (_, st') => batchCommits st' = batchCommits st
  end.
Proof.
  unfold Process.
  destruct (parsePhase s flags ctx st) as [o1 st1] eqn:Hparse.
  pose proof (keeps_Val _ _ _ _ _ (parsePhase_keeps_batchCommits s flags ctx) Hparse) as H1.
  destruct o1 as [h| |];
    [|by rewrite (bind_Returned _ _ _ _ Hparse)|by rewrite (bind_Panicked _ _ _ _ Hparse)].
  rewrite (bind_Val _ _ _ _ _ Hparse).
  unfold finishPhase. rewrite bind_gets. cbv zeta. rewrite bind_gets.
  match goal with
  | |- context [bind (renderLoop ?c ?bv ?t ?i ?q) _ st1] =>
      destruct (renderLoop c bv t i q st1) as [o2 st2] eqn:Hrender
  end.
  pose proof (keeps_Val _ _ _ _ _ (renderLoop_keeps_batchCommits _ _ _ _ _) Hrender) as H2.
  destruct o2 as [[]| |];
    [|rewrite (bind_Returned _ _ _ _ Hrender); congruence
     |rewrite (bind_Panicked _ _ _ _ Hrender); congruence].
  rewrite (bind_Val _ _ _ _ _ Hrender).
  destruct (commit_spec st2) as (st3 & Hc & Hb).
  rewrite (bind_Val _ _ _ _ _ Hc). rewrite !bind_gets. cbn [ret].
  by rewrite Hb, H2, H1.
Qed.

(** ** The main feed *)

Lemma scanVersions_true vs pv acc :
  scanVersions vs pv acc = true <->
  acc = true \/ exists v, v ∈ vs /\ config.IsLatest v = true /\ pv = config.Name v.
Proof.
  induction vs as [|v vs IH]; cbn [scanVersions].
  - split; [auto|]. intros [|(v & Hv & _)]; [done|]. by apply elem_of_nil in Hv.
  - destruct (config.IsLatest v && bool_decide (pv = config.Name v)) eqn:E.
    + split; [|done]. intros _. right. exists v.
      apply andb_true_iff in E as [? ?%bool_decide_eq_true].
      split; [apply list_elem_of_here|done].
    + rewrite IH. split.
      * intros [|(w & Hw & ?)]; [auto|]. right. exists w.
        split; [by apply list_elem_of_further|done].
      * intros [|(w & Hw & Hl & Hn)]; [auto|].
        apply elem_of_cons in Hw as [->|Hw].
        -- rewrite Hl, bool_decide_eq_true_2 in E by done. discriminate.
        -- right. eauto.
Qed.

Lemma isLatestOrUnversioned_true s p :
  isLatestOrUnversioned s p = true <->
  models.Version p = "" \/
  exists v, v ∈ config.Versions (cfg s) /\ config.IsLatest v = true /\
            models.Version p = config.Name v.
Proof.
  unfold isLatestOrUnversioned. cbv zeta.
  destruct (config.Versions (cfg s)) as [|v vs] eqn:E.
  - cbn. rewrite bool_decide_eq_true. split; [auto|].
    intros [|(v & Hv & _)]; [done|]. by apply elem_of_nil in Hv.
  - cbn [length Nat.ltb Nat.leb]. rewrite scanVersions_true, bool_decide_eq_true. done.
Qed.

Lemma foldl_groupPost s g ps :
  allPosts (foldl (groupPost s) g ps) =
    (allPosts g ++
     List.filter (fun p => isLatestOrUnversioned s p && negb (models.Pinned p)) ps)%list /\
  pinnedPosts (foldl (groupPost s) g ps) =
    (pinnedPosts g ++
     List.filter (fun p => isLatestOrUnversioned s p && models.Pinned p) ps)%list.
Proof.
  revert g. induction ps as [|p ps IH]; intros g; cbn [foldl List.filter].
  - by rewrite !app_nil_r.
  - destruct (IH (groupPost s g p)) as [-> ->].
    unfold groupPost. cbv zeta.
    destruct (isLatestOrUnversioned s p), (models.Pinned p); cbn;
      by rewrite <- ?app_assoc.
Qed.

(** C3 (as the code has it). When the sort of [utils.SortPosts] only
    reorders, a post of the global metadata map is in the main feed, in
    [PinnedPosts] when pinned and in [AllPosts] otherwise, iff it is
    unversioned or its version is the name of a configured version marked
    [isLatest]; it is never in the other of the two lists. With no version
    configured this is: iff it is unversioned. *)
Theorem main_feed_membership s flags ctx st res st' :
  (forall l, SortPosts l ≡ₚ l) ->
  Process s flags ctx st = (Val res, st') ->
  forall p, (exists link, allMetadataMap st' !! link = Some p) ->
    (p ∈ (if models.Pinned p then PinnedPosts res else AllPosts res) <->
     models.Version p = "" \/
     exists v, v ∈ config.Versions (cfg s) /\ config.IsLatest v = true /\
               models.Version p = config.Name v) /\
    p ∉ (if models.Pinned p then AllPosts res else PinnedPosts res).
Proof.
  intros Hsort HP p (link & Hp). unfold Process in HP.
  apply bind_Val_inv in HP as (h & st1 & _ & Hfin).
  unfold finishPhase in Hfin. rewrite bind_gets in Hfin. cbv zeta in Hfin.
  rewrite bind_gets in Hfin.
  apply bind_Val_inv in Hfin as ([] & st2 & Hrender & Hfin).
  apply bind_Val_inv in Hfin as ([] & st3 & Hcommit & Hfin).
  rewrite !bind_gets in Hfin. injection Hfin as <- <-.
  pose proof (keeps_Val _ _ _ _ _ (renderLoop_keeps_allMetadataMap _ _ _ _ _) Hrender) as H2.
  pose proof (keeps_Val _ _ _ _ _ commit_keeps_allMetadataMap Hcommit) as H3.
  rewrite H3, H2 in Hp. cbn [PinnedPosts AllPosts].
  assert (Hin : p ∈ map snd (map_to_list (allMetadataMap st1))).
  { apply list_elem_of_fmap. exists (link, p). split; [done|].
    by apply elem_of_map_to_list. }
  unfold groupAll.
  destruct (foldl_groupPost s (mkGrouped ∅ ∅ [] []) (map snd (map_to_list (allMetadataMap st1))))
    as [Ha Hpin].
  rewrite Ha, Hpin. cbn [allPosts pinnedPosts app].
  rewrite <- isLatestOrUnversioned_true.
  destruct (models.Pinned p) eqn:Epin; rewrite !Hsort, !list_elem_of_In, !filter_In,
    <- !list_elem_of_In, Epin; cbn; rewrite ?andb_true_r, ?andb_false_r; split;
    try tauto; intros [_ ?]; done.
Qed.

(** ** The publish step of a worker, in the terms of the interleaving
    model: line 511 is the step of [AtAdd], line 513 that of [AtStore]. *)
Lemma publish_as_steps (d : PostData) st :
  publish d st =
  let st1 := upd_allMetadataMap (<[models.Link (post d) := post d]>) st in
  let id := AddInt32 (indexedPostIdx st) 1 in
  let st2 := upd_indexedPostIdx (fun _ => id) st1 in
  match slice_store (indexedPosts st) id
          (withID id (models.mkIndexedPost (searchRecord d) (wordFreqs d) (docLen d))) with
  | Some l' => (Val (setID id (searchRecord d)), upd_indexedPosts (fun _ => l') st2)
  | None => (Panicked, st2)
  end.
Proof.
  unfold publish, nextSearchID. cbv zeta.
  rewrite bind_modify, bind_bind, bind_gets, bind_bind, bind_modify, bind_ret, bind_gets.
  cbn [indexedPosts upd_indexedPostIdx upd_allMetadataMap indexedPostIdx].
  unfold withID. cbn [models.Record_ models.WordFreqs models.DocLen].
  by destruct (slice_store _ _ _).
Qed.

End ServicesFacts.
Section PublishFacts.

Import services.

Lemma wrap32_id z : - 2 ^ 31 <= z < 2 ^ 31 -> wrap32 z = z.
Proof.
  intros Hz. unfold wrap32.
  rewrite Z.mod_small by lia. lia.
Qed.

Lemma omap_insert_same {A B} (f : A -> option B) (l : list A) i x y :
  l !! i = Some y -> f x = f y -> omap f (<[i := x]> l) = omap f l.
Proof.
  revert i. induction l as [|a l IH]; intros [|i] Hi Hf; simpl in *; try done.
  - injection Hi as ->. by rewrite Hf.
  - destruct (f a); [f_equal|]; by apply IH.
Qed.

Lemma omap_insert_new {A B} (f : A -> option B) (l : list A) i x y b :
  l !! i = Some y -> f y = None -> f x = Some b ->
  omap f (<[i := x]> l) ≡ₚ b :: omap f l.
Proof.
  revert i. induction l as [|a l IH]; intros [|i] Hi Hy Hx; simpl in *; try done.
  - injection Hi as ->. by rewrite Hx, Hy.
  - specialize (IH i Hi Hy Hx). destruct (f a) as [c|]; [|exact IH].
    etrans; [apply perm_skip, IH|apply perm_swap].
Qed.

Lemma omap_length_le {A B} (f : A -> option B) (l : list A) :
  (length (omap f l) <= length l)%nat.
Proof.
  unfold omap. induction l as [|a l IH]; simpl; [done|]. destruct (f a); simpl; lia.
Qed.

Lemma omap_length_lt {A B} (f : A -> option B) (l : list A) i y :
  l !! i = Some y -> f y = None -> (length (omap f l) < length l)%nat.
Proof.
  pose proof (omap_length_le f) as Hle. unfold omap in *.
  revert i. induction l as [|a l IH]; intros [|i] Hi Hy; simpl in *; try done.
  - injection Hi as ->. rewrite Hy.
    specialize (Hle l). lia.
  - specialize (IH i Hi Hy). destruct (f a); simpl; lia.
Qed.

Lemma omap_lookup_elem {A B} (f : A -> option B) (l : list A) i y b :
  l !! i = Some y -> f y = Some b -> b ∈ omap f l.
Proof.
  intros Hi Hy. apply list_elem_of_omap. exists y. split; [|done].
  by eapply list_elem_of_lookup_2.
Qed.

Lemma omap_NoDup_lookup {A B} (f : A -> option B) (l : list A) i j x y b :
  NoDup (omap f l) -> l !! i = Some x -> l !! j = Some y ->
  f x = Some b -> f y = Some b -> i = j.
Proof.
  revert i j. induction l as [|a l IH]; intros i j Hnd Hi Hj Hx Hy; [done|].
  cbn in Hnd. destruct i as [|i], j as [|j]; cbn in *; try done.
  - injection Hi as ->. rewrite Hx in Hnd. apply NoDup_cons in Hnd as [Hn _].
    exfalso. apply Hn. by eapply omap_lookup_elem.
  - injection Hj as ->. rewrite Hy in Hnd. apply NoDup_cons in Hnd as [Hn _].
    exfalso. apply Hn. by eapply omap_lookup_elem.
  - f_equal. apply IH; try done. destruct (f a); [by apply NoDup_cons in Hnd as [_ ?]|done].
Qed.

Lemma publish_inv_intro n invs g :
  crashed g = false ->
  length (slots g) = n ->
  Forall2 tracks invs (pcs g) ->
  counter g = Z.of_nat (length (assignedIDs g)) - 1 ->
  assignedIDs g ≡ₚ seqZ 0 (Z.of_nat (length (assignedIDs g))) ->
  (forall i id d, pcs g !! i = Some (Finished id d) ->
                  slots g !! Z.to_nat id = Some (withID id d)) ->
  publish_inv n invs g.
Proof. by unfold publish_inv. Qed.

Lemma start_inv n invs : publish_inv n invs (start n invs).
Proof.
  assert (Hids : omap idOf (map (fun o => match o with
                                         | Some d => AtAdd d
                                         | None => NotReached
                                         end) invs) = []).
  { unfold omap. induction invs as [|[d|] invs IH]; simpl; done. }
  apply publish_inv_intro; unfold start, assignedIDs; cbn [crashed slots pcs counter];
    rewrite ?Hids; clear Hids; try done.
  - apply length_replicate.
  - induction invs as [|[d|] invs IH]; simpl; constructor; done.
  - intros i id d Hi. rewrite list_lookup_fmap in Hi. by destruct (invs !! i) as [[?|]|].
Qed.

Lemma step_inv n invs i g :
  Z.of_nat n <= 2 ^ 31 ->
  (length invs <= n)%nat ->
  publish_inv n invs g -> publish_inv n invs (step i g).
Proof.
  intros Hn Hinvs (Hok & Hlen & Htr & Hcnt & Hperm & Hslots).
  pose proof (Forall2_length _ _ _ Htr) as Hlpcs.
  assert (Hnd : NoDup (assignedIDs g)) by (rewrite Hperm; apply NoDup_seqZ).
  assert (Hrange : forall id, id ∈ assignedIDs g ->
                              0 <= id < Z.of_nat (length (assignedIDs g))).
  { intros id Hid. rewrite Hperm in Hid. apply elem_of_seqZ in Hid. lia. }
  pose proof (omap_length_le idOf (pcs g)) as Hk. fold (assignedIDs g) in Hk.
  unfold step. rewrite Hok.
  destruct (pcs g !! i) as [[d|id d|id d|]|] eqn:Ei;
    try (by apply publish_inv_intro).
  - (* line 511 *)
    pose proof (omap_length_lt idOf (pcs g) i _ Ei eq_refl) as Hlt.
    fold (assignedIDs g) in Hlt.
    set (k := length (assignedIDs g)) in *.
    assert (Hid : AddInt32 (counter g) 1 = Z.of_nat k).
    { unfold AddInt32. rewrite Hcnt. rewrite wrap32_id; lia. }
    rewrite Hid.
    assert (Hp : assignedIDs (mkShared (Z.of_nat k) (slots g)
                               (<[i := AtStore (Z.of_nat k) d]> (pcs g)) false)
                 ≡ₚ Z.of_nat k :: assignedIDs g).
    { unfold assignedIDs. cbn [pcs]. by eapply omap_insert_new. }
    pose proof (Permutation_length Hp) as Hpl. cbn [length] in Hpl.
    apply publish_inv_intro; cbn [crashed slots counter]; try done.
    + cbn [pcs]. destruct (Forall2_lookup_r _ _ _ _ _ Htr Ei) as (o & Ho & Ht).
      rewrite <- (list_insert_id invs i o Ho). apply Forall2_insert; [done|].
      by destruct o.
    + rewrite Hpl. fold k. lia.
    + rewrite Hpl. fold k. rewrite Hp, seqZ_S, Hperm. fold k.
      rewrite Z.add_0_l. apply Permutation_cons_append.
    + cbn [pcs]. intros j id' d' Hj.
      destruct (decide (i = j)) as [->|Hne].
      * rewrite list_lookup_insert_eq in Hj by (by eapply lookup_lt_Some). done.
      * rewrite list_lookup_insert_ne in Hj by done. eauto.
  - (* line 513 *)
    assert (Hin : id ∈ assignedIDs g) by (by eapply omap_lookup_elem).
    pose proof (Hrange id Hin) as Hr.
    unfold slice_store.
    replace ((0 <=? id) && (id <? Z.of_nat (length (slots g)))) with true
      by (symmetry; apply andb_true_iff; split; [apply Z.leb_le|apply Z.ltb_lt]; lia).
    assert (Hsame : assignedIDs (mkShared (counter g)
                                  (<[Z.to_nat id := withID id d]> (slots g))
                                  (<[i := Finished id d]> (pcs g)) false)
                    = assignedIDs g).
    { unfold assignedIDs. cbn [pcs]. by eapply omap_insert_same. }
    apply publish_inv_intro; rewrite ?Hsame; cbn [crashed slots counter pcs]; try done.
    + by rewrite length_insert.
    + destruct (Forall2_lookup_r _ _ _ _ _ Htr Ei) as (o & Ho & Ht).
      rewrite <- (list_insert_id invs i o Ho). apply Forall2_insert; [done|].
      by destruct o.
    + intros j id' d' Hj.
      destruct (decide (i = j)) as [->|Hne].
      * rewrite list_lookup_insert_eq in Hj by (by eapply lookup_lt_Some).
        injection Hj as <- <-. apply list_lookup_insert_eq. lia.
      * rewrite list_lookup_insert_ne in Hj by done.
        assert (id' ≠ id).
        { intros ->. apply Hne.
          by eapply (omap_NoDup_lookup idOf (pcs g) i j _ _ id Hnd Ei Hj). }
        assert (0 <= id') by (apply Hrange; by eapply omap_lookup_elem).
        rewrite list_lookup_insert_ne by lia. eauto.
Qed.

Lemma run_inv n invs sched g :
  Z.of_nat n <= 2 ^ 31 ->
  (length invs <= n)%nat ->
  publish_inv n invs g -> publish_inv n invs (run sched g).
Proof.
  intros Hn Hinvs. unfold run. revert g.
  induction sched as [|i sched IH]; intros g Hg; cbn [foldl]; [done|].
  apply IH. by apply step_inv.
Qed.

Lemma length_tasksOf files fileVersions :
  (length (tasksOf files fileVersions) <= length files)%nat.
Proof. unfold tasksOf. rewrite length_imap, length_zip. lia. Qed.


Lemma omap_map_id {A B} (f : A -> option B) (l : list A) :
  omap (fun o : option B => o) (map f l) = omap f l.
Proof.
  unfold omap. induction l as [|a l IH]; simpl; [done|].
  destruct (f a); by rewrite IH.
Qed.

Lemma quiescent_ids invs ps :
  Forall2 tracks invs ps ->
  forallb (fun p => match p with AtAdd _ | AtStore _ _ => false | _ => true end) ps = true ->
  length (omap idOf ps) = length (omap (fun o : option models.IndexedPost => o) invs).
Proof.
  unfold omap.
  induction 1 as [|o p invs ps Ht _ IH]; simpl; [done|].
  intros [Hp Hps]%andb_true_iff. specialize (IH Hps).
  destruct o as [d|], p; simpl in *; try done; by rewrite IH.
Qed.

Lemma quiescent_lookup ps i p :
  forallb (fun p => match p with AtAdd _ | AtStore _ _ => false | _ => true end) ps = true ->
  ps !! i = Some p ->
  match p with AtAdd _ | AtStore _ _ => False | _ => True end.
Proof.
  intros Hq Hi. rewrite forallb_forall in Hq.
  specialize (Hq p). rewrite <- list_elem_of_In in Hq.
  specialize (Hq (list_elem_of_lookup_2 _ _ _ Hi)). by destruct p.
Qed.


End PublishFacts.
Section ClassifierFacts.

Import run.

Context {C SF Doc : Type}.
Context {cacheI : CacheService C} {srcI : Fs SF} {mdI : Markdown Doc}
        {libI : GoLib} {utilsI : Utils}.

(** C5. For a create or modify event (neither the remove nor the rename
    bit is set) on a Markdown file under the content directory, when the
    build is not cancelled and the file can be read, and body hashes are
    never empty (they are hex-encoded digests): a post for which the
    cache holds no record under its content-relative path (no cache is
    configured, or [GetPostByPath] fails or finds nothing) gets a full
    rebuild; so does a cached post whose recorded front-matter hash
    ([ContentHash]) differs from the one of the file; a cached post of
    which only the recorded [BodyHash] differs from the file's gets a
    single-post rebuild of exactly this file (followed by a full rebuild
    only if that rebuild fails); and when neither hash differs nothing
    is rebuilt. *)
Theorem classifier_decision (b : @Builder C SF) (changedPath source : string) (op : Z) :
  fsnotify.Has op fsnotify.Remove = false ->
  fsnotify.Has op fsnotify.Rename = false ->
  isContentMarkdown b changedPath = true ->
  ReadFile (SourceFs b) changedPath = Some source ->
  GetBodyHash source <> "" ->
  let newFrontmatterHash := GetFrontmatterHash (meta_Get (Parse changedPath source)) in
  let newBodyHash := GetBodyHash source in
  let relPath := (SafeRel (config.ContentDir (cfg b)) changedPath).1 in
  let tr := BuildChanged b false changedPath op in
  match cacheService b with
  | None => rebuilds tr = [EBuild]
  | Some c =>
      match GetPostByPath c relPath with
      | Ok (Some meta) =>
          if bool_decide (cache.ContentHash meta ≠ newFrontmatterHash) then
            rebuilds tr = [EBuild]
          else if bool_decide (cache.BodyHash meta ≠ newBodyHash) then
            rebuilds tr =
              EProcessSingle changedPath ::
              (if ProcessSingle_fails b changedPath then [EBuild] else [])
          else rebuilds tr = []
      | Ok None | Err => rebuilds tr = [EBuild]
      end
  end.
Proof.
  intros Hrm Hrn Hmd Hread Hne newFM newBody relPath tr.
  subst tr. unfold BuildChanged. rewrite Hrm, Hrn, Hmd. cbn [orb andb].
  unfold buildSinglePost. rewrite Hread. cbv zeta.
  fold newFM. fold newBody. fold relPath.
  assert (Hfull : forall l,
            rebuilds (ELog services.Info "Change detected" ::
                      (ELog services.Info l :: buildAndSave b "Build failed") ++
                      ESyncVFS :: (if SyncVFS_fails b
                                   then [ELog services.Error "Sync failed"]
                                   else [EClearRenderedFiles]))%list = [EBuild]).
  { intros l. unfold buildAndSave. destruct (Build_fails b), (SyncVFS_fails b); reflexivity. }
  unfold lookupHashes.
  destruct (cacheService b) as [c|]; [|apply Hfull].
  destruct (GetPostByPath c relPath) as [[meta|]|]; [|apply Hfull|apply Hfull].
  cbn [negb andb].
  case_bool_decide as Hfm; [apply Hfull|].
  rewrite (bool_decide_eq_true_2 _ Hfm). cbn [andb].
  case_bool_decide as Hbody; cbn [orb].
  { destruct (ProcessSingle_fails b changedPath), (Build_fails b), (SyncVFS_fails b);
      reflexivity. }
  rewrite bool_decide_eq_false_2
    by (intros Hempty; apply Hne; fold newBody; by rewrite <- Hbody, Hempty).
  destruct (SyncVFS_fails b); reflexivity.
Qed.

End ClassifierFacts.

(** * The properties on concrete sites *)

Section Scenarios.

Import services scenario.

#[local] Existing Instances fixture.memCache fixture.memFs fixture.markdown fixture.utils.

Lemma insertPost_perm p l : fixture.insertPost p l ≡ₚ p :: l.
Proof.
  induction l as [|q l IH]; cbn [fixture.insertPost]; [done|].
  destruct (fixture.postBefore p q); [done|].
  rewrite IH. apply perm_swap.
Qed.

Lemma sortPosts_perm l : fixture.sortPosts l ≡ₚ l.
Proof.
  unfold fixture.sortPosts.
  induction l as [|p l IH]; cbn [foldr]; [done|].
  by rewrite insertPost_perm, IH.
Qed.

(** C1, the specification's wording fails: the source of [a.md] is
    newer (second 200) than its cache record (second 100) and its body
    hash is the cached one; the specification's rule makes this a hit,
    the probe reports a miss. *)
Lemma newer_source_same_body_misses :
  (probe (svc cfg0 oneFile) noFlags "a.md" "content/a.md"
     (initState (Some cacheA) ([] : fixture.MemFs))).1
  = Val (mkProbe (Some cachedA) (Some (file 200 "hello").1) "hello" "b:hello" false)
  /\ spec.hit (Some cachedA) 200 "b:hello" false = true.
Proof. split; vm_compute; reflexivity. Qed.

(** C2, the specification's wording fails: without a cache the post
    [a.md] is a cache miss, for which the specification renders; its
    destination exists and is newer than its source, and the build queues
    and renders nothing. *)
Lemma cache_miss_not_rendered :
  let r := build builtDisk cfg0 oneFile never None in
  r.1 = Val (resultOf r.1) /\
  cacheMisses r.2 = 1 /\ cacheHits r.2 = 0 /\
  map DestPath (renderQueue r.2) = [""] /\
  renderedPages r.2 = [] /\
  spec.willRender false true (@os_Stat builtDisk "public/a.html") (sec 200) = true.
Proof. vm_compute. repeat split; reflexivity. Qed.

(** C3, the specification's wording fails: on a site with a version
    marked latest ("v2"), the unversioned post [a.md] is in the main feed,
    although its version is not the one marked latest. *)
Lemma unversioned_post_in_versioned_feed :
  let r := build freshDisk cfgVersioned oneFile never None in
  exists p,
    r.1 = Val (resultOf r.1) /\
    allMetadataMap r.2 !! "/a.html" = Some p /\
    AllPosts (resultOf r.1) = [p] /\
    models.Pinned p = false /\
    models.Version p = "" /\
    spec.mainFeed (config.Versions cfgVersioned) p = false.
Proof. eexists. vm_compute. repeat split; reflexivity. Qed.

(** C4, the specification's wording fails: the context is cancelled
    while the first of two posts is being processed; the submission loop
    observes it and the second post is never processed, yet the build
    calls [BatchCommit] with the record of the first post, which the
    cache, empty before, then holds. *)
Lemma cancelled_build_commits :
  let ctx := cancelledFrom 3 in
  let r := build freshDisk cfg0 twoFiles ctx (Some emptyCache) in
  r.1 = Val (resultOf r.1) /\
  ctx 3%nat = true /\ (3 < ctxPolls r.2)%nat /\
  processedCount r.2 = 1 /\
  map (fun a : BatchArgs => map cache.Path a.1.1) (batchCommits r.2) = [["a.md"]] /\
  (fun c => map cache.Path (fixture.mc_posts c)) <$> cacheSt r.2 = Some ["a.md"].
Proof. vm_compute. repeat split; try reflexivity. lia. Qed.

(** C7, on a concrete site. [a.md] was built and cached as a published
    post; its front matter now marks it as a draft, and drafts are
    excluded. The worker drops the post at the draft gate (a miss, nothing
    rendered, indexed or staged), but the entry that the warm-up took from
    the cache stays in the global metadata map, and the post is returned
    in the main feed. *)
Theorem draft_kept_by_warmup :
  let r := build freshDisk cfg0 draftFile never (Some cacheA) in
  GetBool (meta_Get (Parse "content/a.md" "draft: true hello")) "draft" = true /\
  config.IncludeDrafts cfg0 = false /\
  r.1 = Val (resultOf r.1) /\
  cacheMisses r.2 = 1 /\
  renderedPages r.2 = [] /\ indexedPostIdx r.2 = -1 /\ newPostsMeta r.2 = [] /\
  allMetadataMap r.2 !! "/a.html" = Some (metadataOfCached cachedA) /\
  AllPosts (resultOf r.1) = [metadataOfCached cachedA].
Proof. vm_compute. repeat split; reflexivity. Qed.

(** C3 on a concrete site: one unversioned post, no version configured. *)
Lemma main_feed_membership_witness :
  (forall l, fixture.sortPosts l ≡ₚ l) /\
  build freshDisk cfg0 oneFile never None
  = (Val (resultOf (build freshDisk cfg0 oneFile never None).1),
     (build freshDisk cfg0 oneFile never None).2) /\
  forall p,
    (exists link,
       allMetadataMap (build freshDisk cfg0 oneFile never None).2 !! link = Some p) ->
    (p ∈ (if models.Pinned p
          then PinnedPosts (resultOf (build freshDisk cfg0 oneFile never None).1)
          else AllPosts (resultOf (build freshDisk cfg0 oneFile never None).1)) <->
     models.Version p = "" \/
     exists v, v ∈ config.Versions (cfg (svc cfg0 oneFile)) /\ config.IsLatest v = true /\
               models.Version p = config.Name v) /\
    p ∉ (if models.Pinned p
         then AllPosts (resultOf (build freshDisk cfg0 oneFile never None).1)
         else PinnedPosts (resultOf (build freshDisk cfg0 oneFile never None).1)).
Proof.
  assert (HP : build freshDisk cfg0 oneFile never None
               = (Val (resultOf (build freshDisk cfg0 oneFile never None).1),
                  (build freshDisk cfg0 oneFile never None).2))
    by (vm_compute; reflexivity).
  split; [apply sortPosts_perm|]. split; [exact HP|].
  exact (main_feed_membership (libI := freshDisk) (svc cfg0 oneFile) noFlags never _ _ _
           sortPosts_perm HP).
Defined.

(** C8 on a site with one source of 11 MiB. *)
Lemma oversize_skipped_witness :
  let st := initState (Some emptyCache) ([] : fixture.MemFs) in
  let pt := mkTask 0 "content/huge.md" "" in
  Stat hugeFile (path pt) = Some (mkFileInfo (sec 200) (11 * 1024 * 1024) false) /\
  MaxFileSize < 11 * 1024 * 1024 /\
  worker (libI := freshDisk) (svc cfg0 hugeFile) noFlags never pt st =
    (Returned, upd_logs (cons (Warn, "File exceeds size limit, skipping", path pt)) st).
Proof.
  intros st pt.
  assert (H1 : Stat hugeFile (path pt) = Some (mkFileInfo (sec 200) (11 * 1024 * 1024) false))
    by reflexivity.
  assert (H2 : MaxFileSize < fi_Size (mkFileInfo (sec 200) (11 * 1024 * 1024) false))
    by (vm_compute; reflexivity).
  split; [exact H1|]. split; [exact H2|].
  exact (proj1 (oversize_skipped (libI := freshDisk) (svc cfg0 hugeFile) noFlags never pt []
                  st _ H1 H2)).
Defined.

(** C10 on a concrete site: the draft [a.md] misses the cache, is dropped
    at the draft gate, and [public/a.md] holds its source. *)
Lemma raw_mirror_written_for_draft_witness :
  let st := initState (None : option fixture.MemCache) ([] : fixture.MemFs) in
  let pt := mkTask 0 "content/a.md" "" in
  let pr := mkProbe None (Some (file 200 "draft: true hello").1) "draft: true hello"
              "b:draft: true hello" false in
  config.RawMarkdown (config.features cfgRaw) = true /\
  config.IncludeDrafts cfgRaw = false /\
  probe (svc cfgRaw draftFile) noFlags "a.md" "content/a.md" st = (Val pr, st) /\
  Render (Parse "content/a.md" "draft: true hello") "draft: true hello"
    = Ok "<p>draft: true hello</p>" /\
  GetBool (meta_Get (Parse "content/a.md" "draft: true hello")) "draft" = true /\
  exists st',
    worker (libI := freshDisk) (svc cfgRaw draftFile) noFlags never pt st = (Returned, st') /\
    ReadFile (destFsSt st') "public/a.md" = Some "draft: true hello" /\
    collections st' = collections st.
Proof.
  intros st pt pr.
  assert (H1 : config.RawMarkdown (config.features cfgRaw) = true) by reflexivity.
  assert (H2 : config.IncludeDrafts cfgRaw = false) by reflexivity.
  assert (H3 : probe (svc cfgRaw draftFile) noFlags
                 (relPathOf (svc cfgRaw draftFile) (path pt)) (path pt) st = (Val pr, st))
    by (vm_compute; reflexivity).
  assert (H4 : useCache pr = false) by reflexivity.
  assert (H5 : Render (Parse (path pt) (source pr)) (source pr)
               = Ok "<p>draft: true hello</p>") by reflexivity.
  assert (H6 : GetBool (meta_Get (Parse (path pt) (source pr))) "draft" = true)
    by (vm_compute; reflexivity).
  split; [exact H1|]. split; [exact H2|]. split; [exact H3|]. split; [exact H5|].
  split; [exact H6|].
  destruct (raw_mirror_written_for_draft (libI := freshDisk) (svc cfgRaw draftFile) noFlags
              never pt st pr _ H1 H2 H3 H4 H5 H6) as (st' & Hw & Hfs & Hcol).
  exists st'. split; [exact Hw|]. split; [|exact Hcol].
  rewrite Hfs. vm_compute. reflexivity.
Defined.

(** C5 on a watched site. The body of [a.md] was edited, its front
    matter was not: the file is rebuilt alone. And [a.md] was touched
    but not changed: nothing is rebuilt. *)
Lemma classifier_decision_witness :
  fsnotify.Has fsnotify.Write fsnotify.Remove = false /\
  fsnotify.Has fsnotify.Write fsnotify.Rename = false /\
  (run.isContentMarkdown builderEdited "content/a.md" = true /\
   ReadFile (run.SourceFs builderEdited) "content/a.md" = Some "hello again" /\
   GetBodyHash "hello again" <> "" /\
   run.rebuilds (run.BuildChanged (libI := freshDisk) builderEdited false "content/a.md"
                   fsnotify.Write)
   = [run.EProcessSingle "content/a.md"]) /\
  (run.isContentMarkdown cases.builderUnchanged "content/a.md" = true /\
   ReadFile (run.SourceFs cases.builderUnchanged) "content/a.md" = Some "hello" /\
   GetBodyHash "hello" <> "" /\
   run.rebuilds (run.BuildChanged (libI := freshDisk) cases.builderUnchanged false
                   "content/a.md" fsnotify.Write)
   = []).
Proof.
  assert (H5 : GetBodyHash "hello again" <> "") by (vm_compute; discriminate).
  assert (H5' : GetBodyHash "hello" <> "") by (vm_compute; discriminate).
  split; [reflexivity|]. split; [reflexivity|]. split.
  - split; [reflexivity|]. split; [reflexivity|]. split; [exact H5|].
    exact (classifier_decision (libI := freshDisk) builderEdited "content/a.md" "hello again"
             fsnotify.Write eq_refl eq_refl eq_refl eq_refl H5).
  - split; [reflexivity|]. split; [reflexivity|]. split; [exact H5'|].
    exact (classifier_decision (libI := freshDisk) cases.builderUnchanged "content/a.md"
             "hello" fsnotify.Write eq_refl eq_refl eq_refl eq_refl H5').
Defined.



End Scenarios.

(** * Further properties of the pipeline *)

Section PipelineExtras.

Import services.
Local Open Scope W_scope.

Context {C DF SF Doc : Type}.
Context {cacheI : CacheService C} {destI : Fs DF} {srcI : Fs SF} {mdI : Markdown Doc}
        {libI : GoLib} {utilsI : Utils}.

Implicit Types (st : @BuildState C DF) (s : @postServiceImpl SF).

Local Abbreviation keeps := (@services.keeps C DF _ _).
Local Abbreviation total := (@services.total C DF _).

(** ** The walk of the content directory *)

Lemma walkContent_acc entries files fileVersions has404 st :
  exists st',
    walkContent entries files fileVersions has404 st =
    (Val ((files ++ walk.posts entries)%list,
          (fileVersions ++ map GetVersionFromPath (walk.posts entries))%list,
          has404 || existsb walk.is404 entries),
     st') /\
    collections st' = collections st /\ cacheSt st' = cacheSt st /\
    destFsSt st' = destFsSt st.
Proof.
  revert files fileVersions has404 st.
  induction entries as [|[p e] rest IH]; intros files fileVersions has404 st;
    unfold walk.posts, walk.isPost, walk.is404, walk.isMarkdown in *;
    cbn [walkContent List.filter existsb fst snd].
  - exists st. by rewrite !app_nil_r, orb_false_r.
  - destruct e; cbn [negb andb].
    + unfold logW. rewrite bind_modify.
      destruct (IH files fileVersions has404
                  (upd_logs (cons (Error, "Error walking content directory", p)) st))
        as (st' & -> & ? & ? & ?).
      by exists st'.
    + destruct (strings.HasSuffix p ".md"); cbn [negb andb]; [|by apply IH].
      destruct (strings.Contains p "_index.md"); cbn [negb andb]; [by apply IH|].
      destruct (strings.Contains p "404.md"); cbn [negb andb orb map fst].
      * destruct (IH files fileVersions true st) as (st' & -> & ? & ? & ?).
        exists st'. by rewrite orb_true_r.
      * destruct (IH (files ++ [p])%list (fileVersions ++ [GetVersionFromPath p])%list
                    has404 st) as (st' & -> & ? & ? & ?).
        exists st'. by rewrite <- !app_assoc.
Qed.

(** X1. The walk collects, in the order visited, exactly the paths that
    arrive without error, end in [.md], and contain neither [_index.md]
    nor [404.md]; the versions are those of these files, one each, and
    [has404] says whether a Markdown path containing [404.md] was seen
    (such a file is never a post). Apart from the log, the walk changes
    nothing. *)
Theorem walk_collects (entries : list (string * bool)) st :
  exists st',
    walkContent entries [] [] false st =
    (Val (walk.posts entries, map GetVersionFromPath (walk.posts entries),
          existsb walk.is404 entries), st') /\
    (forall p, p ∈ walk.posts entries <->
               (p, false) ∈ entries /\ strings.HasSuffix p ".md" = true /\
               strings.Contains p "_index.md" = false /\
               strings.Contains p "404.md" = false) /\
    collections st' = collections st /\ cacheSt st' = cacheSt st /\
    destFsSt st' = destFsSt st.
Proof.
  destruct (walkContent_acc entries [] [] false st) as (st' & E & ? & ? & ?).
  exists st'. rewrite E. cbn [app orb]. split; [done|]. split; [|done].
  intros p. unfold walk.posts. rewrite list_elem_of_fmap. split.
  - intros ([p' e] & -> & Hin). apply list_elem_of_In, filter_In in Hin as [Hin Hp].
    unfold walk.isPost, walk.isMarkdown in Hp. cbn [fst snd] in *.
    apply andb_true_iff in Hp as [Hp H404]. apply andb_true_iff in Hp as [Hp Hidx].
    apply andb_true_iff in Hp as [He Hmd].
    apply negb_true_iff in He, Hidx, H404. subst e.
    by apply list_elem_of_In in Hin.
  - intros (Hin & Hmd & Hidx & H404). exists (p, false). split; [done|].
    apply list_elem_of_In, filter_In. split; [by apply list_elem_of_In|].
    unfold walk.isPost, walk.isMarkdown. cbn [fst snd]. by rewrite Hmd, Hidx, H404.
Qed.

(** ** The stale-cache sweep and the warm-up *)

Lemma sweep_purges (existingFiles : gset string) ids st c :
  (forall c id id', id' <> id -> GetPost (DeletePost c id).1 id' = GetPost c id') ->
  (forall c id, GetPost (DeletePost c id).1 id = Ok None) ->
  cacheSt st = Some c ->
  exists st' c',
    sweep existingFiles ids st = (Val tt, st') /\ cacheSt st' = Some c' /\
    (forall id,
       id ∉ ids \/ (forall meta, GetPost c id = Ok (Some meta) ->
                                 cache.Path meta ∈ existingFiles) ->
       GetPost c' id = GetPost c id) /\
    (forall id meta,
       id ∈ ids -> GetPost c id = Ok (Some meta) -> cache.Path meta ∉ existingFiles ->
       GetPost c' id = Ok None) /\
    collections st' = collections st /\ destFsSt st' = destFsSt st.
Proof.
  intros Hframe Hgone. revert st c.
  induction ids as [|id0 ids IH]; intros st c Hc; cbn [sweep].
  { exists st, c. split; [done|]. split; [done|]. split; [done|].
    split; [|done]. by intros id meta ?%elem_of_nil. }
  rewrite bind_bind, bind_gets, Hc.
  assert (Hsame : forall st1,
            cacheSt st1 = Some c -> collections st1 = collections st ->
            destFsSt st1 = destFsSt st ->
            (forall meta, GetPost c id0 = Ok (Some meta) -> cache.Path meta ∈ existingFiles) ->
            exists st' c',
              sweep existingFiles ids st1 = (Val tt, st') /\ cacheSt st' = Some c' /\
              (forall id,
                 id ∉ id0 :: ids \/ (forall meta, GetPost c id = Ok (Some meta) ->
                                                  cache.Path meta ∈ existingFiles) ->
                 GetPost c' id = GetPost c id) /\
              (forall id meta,
                 id ∈ id0 :: ids -> GetPost c id = Ok (Some meta) ->
                 cache.Path meta ∉ existingFiles -> GetPost c' id = Ok None) /\
              collections st' = collections st /\ destFsSt st' = destFsSt st).
  { intros st1 Hc1 Hcol1 Hfs1 Hfound.
    destruct (IH st1 c Hc1) as (st' & c' & E & Hc' & Hkeep & Hpurge & Hcol & Hfs).
    exists st', c'. split; [done|]. split; [done|]. split; [|split; [|split; congruence]].
    - intros id [Hn|Hf]; apply Hkeep; [left|by right].
      intros Hin. apply Hn. by apply list_elem_of_further.
    - intros id meta [->|Hin]%elem_of_cons Hg Hp; [|by eapply Hpurge].
      destruct Hp. by eapply Hfound. }
  destruct (GetPost c id0) as [[meta0|]|] eqn:G0.
  2,3: rewrite bind_ret; by apply Hsame.
  case_bool_decide as Hex.
  { rewrite bind_ret. apply Hsame; try done. by intros meta [= <-]. }
  unfold logW. rewrite bind_bind, !bind_modify.
  set (c1 := (DeletePost c id0).1).
  match goal with |- context [sweep existingFiles ids ?st0] => set (st1 := st0) end.
  destruct (IH st1 c1 eq_refl) as (st' & c' & E & Hc' & Hkeep & Hpurge & Hcol & Hfs).
  exists st', c'. split; [done|]. split; [done|]. split; [|split; [|split; [by rewrite Hcol|by rewrite Hfs]]].
  - intros id Hid.
    assert (Hne : id <> id0).
    { intros ->. destruct Hid as [Hn|Hf].
      - apply Hn. apply list_elem_of_here.
      - apply Hex. by eapply Hf. }
    rewrite <- (Hframe c id0 id Hne). fold c1. apply Hkeep.
    destruct Hid as [Hn|Hf].
    + left. intros Hin. apply Hn. by apply list_elem_of_further.
    + right. intros meta. unfold c1. rewrite (Hframe c id0 id Hne). apply Hf.
  - intros id meta Hin Hg Hp.
    destruct (decide (id = id0)) as [->|Hne].
    + rewrite Hkeep; [apply Hgone|]. right. intros meta'. unfold c1. by rewrite Hgone.
    + apply elem_of_cons in Hin as [?|Hin]; [done|].
      apply (Hpurge id meta Hin); [|done]. unfold c1. by rewrite (Hframe c id0 id Hne).
Qed.

(** X3. The stale-cache sweep purges exactly the listed records whose
    file is gone, for a cache in which deleting a post removes its
    record and leaves the records of the other posts alone. A record
    whose path is among the walked files is never purged, whatever else
    is purged before or after it; neither is a record the cache does not
    list; and a listed record whose path is not among the walked files is
    gone after the sweep. The sweep always completes, and changes only
    the cache and the log. *)
Theorem staleSweep_keeps_existing (existingFiles : gset string) st c :
  (forall c id id', id' <> id -> GetPost (DeletePost c id).1 id' = GetPost c id') ->
  (forall c id, GetPost (DeletePost c id).1 id = Ok None) ->
  cacheSt st = Some c ->
  exists st' c',
    staleSweep existingFiles st = (Val tt, st') /\ cacheSt st' = Some c' /\
    (forall id,
       (forall meta, GetPost c id = Ok (Some meta) -> cache.Path meta ∈ existingFiles) ->
       GetPost c' id = GetPost c id) /\
    (forall id,
       (forall lister, ListAllPosts = Some lister -> id ∉ lister c) ->
       GetPost c' id = GetPost c id) /\
    (forall lister id meta,
       ListAllPosts = Some lister -> id ∈ lister c ->
       GetPost c id = Ok (Some meta) -> cache.Path meta ∉ existingFiles ->
       GetPost c' id = Ok None) /\
    collections st' = collections st /\ destFsSt st' = destFsSt st.
Proof.
  intros Hframe Hgone Hc. unfold staleSweep. rewrite bind_gets, Hc.
  destruct ListAllPosts as [lister|] eqn:Hl.
  - destruct (sweep_purges existingFiles (lister c) st c Hframe Hgone Hc)
      as (st' & c' & E & Hc' & Hkeep & Hpurge & Hcol & Hfs).
    exists st', c'. split; [done|]. split; [done|].
    split; [intros id Hf; apply Hkeep; by right|].
    split; [intros id Hn; apply Hkeep; left; by apply Hn|].
    split; [|done]. intros lister' id meta [= <-]. apply Hpurge.
  - exists st, c. split; [done|]. split; [done|]. split; [done|]. split; [done|].
    split; [|done]. by intros lister id meta [=].
Qed.

Lemma foldl_insert_lookup_ne (posts : list cache.PostMeta)
    (m : gmap string models.PostMetadata) (k : string) :
  (forall cp, cp ∈ posts -> cache.Link cp ≠ k) ->
  foldl (fun m cp => <[cache.Link cp := metadataOfCached cp]> m) m posts !! k = m !! k.
Proof.
  revert m. induction posts as [|cp posts IH]; intros m Hne; cbn [foldl]; [done|].
  rewrite IH by (intros cp' Hin; apply Hne; by apply list_elem_of_further).
  apply lookup_insert_ne. apply Hne. apply list_elem_of_here.
Qed.

Lemma foldl_insert_lookup_in (posts : list cache.PostMeta)
    (m : gmap string models.PostMetadata) (k : string) :
  Exists (fun cp => cache.Link cp = k) posts ->
  exists cp', cp' ∈ posts /\ cache.Link cp' = k /\
    foldl (fun m cp => <[cache.Link cp := metadataOfCached cp]> m) m posts !! k
    = Some (metadataOfCached cp').
Proof.
  revert m. induction posts as [|cp0 posts IH]; intros m Hex; [by apply Exists_nil in Hex|].
  cbn [foldl].
  destruct (decide (Exists (fun cp' => cache.Link cp' = k) posts)) as [Hyes|Hno].
  - destruct (IH (<[cache.Link cp0 := metadataOfCached cp0]> m) Hyes) as (cp' & ? & ? & E).
    exists cp'. split; [by apply list_elem_of_further|done].
  - apply Exists_cons in Hex as [Hk|?]; [|done].
    apply not_Exists_Forall in Hno; [|intros ?; apply _].
    rewrite Forall_forall in Hno.
    exists cp0. split; [apply list_elem_of_here|]. split; [done|].
    rewrite foldl_insert_lookup_ne; [rewrite <- Hk; apply lookup_insert_eq|].
    intros cp' Hin'. by apply (Hno cp' Hin').
Qed.

(** X4. The warm-up seeds the global metadata map from the cache: every
    cached post returned by [GetPostsByIDs] has an entry under its link,
    holding the metadata of a cached post with that link (the post itself
    when no other cached post shares its link), its draft flag included;
    keys that are no cached post's link keep their value. *)
Theorem warmup_seeds st c lister :
  cacheSt st = Some c ->
  ListAllPosts = Some lister ->
  exists st',
    warmup st = (Val tt, st') /\
    (forall cp, cp ∈ GetPostsByIDs c (lister c) ->
       exists cp', cp' ∈ GetPostsByIDs c (lister c) /\
                   cache.Link cp' = cache.Link cp /\
                   allMetadataMap st' !! cache.Link cp = Some (metadataOfCached cp')) /\
    (forall k, (forall cp, cp ∈ GetPostsByIDs c (lister c) -> cache.Link cp ≠ k) ->
               allMetadataMap st' !! k = allMetadataMap st !! k).
Proof.
  intros Hc Hl. unfold warmup. rewrite bind_gets, Hc, Hl.
  eexists. split; [reflexivity|]. cbn [allMetadataMap upd_allMetadataMap]. split.
  - intros cp Hin. apply foldl_insert_lookup_in. apply Exists_exists. eauto.
  - intros k Hk. by apply foldl_insert_lookup_ne.
Qed.

(** ** Loading a hit *)

(** X5. A failed cache read demotes a hit to a miss: after lines 254-264
    the post is still a hit iff the probe reported one and both the HTML
    and the search record could be loaded (the search record is asked for
    only once the HTML is there); the loads leave the build state alone.
    A probe hit without a cache or a candidate would be a nil
    dereference. *)
Theorem loadCached_demotes (pr : Probe) st :
  match loadCached pr st with
  | (Val (hit, html, cachedSearch), st') =>
      st' = st /\
      (hit = true <->
       useCache pr = true /\
       exists c m search,
         cacheSt st = Some c /\ cachedMeta pr = Some m /\
         GetHTMLContent c m = Ok (Some html) /\
         GetSearchRecord c (cache.PostID m) = Ok (Some search) /\
         cachedSearch = Some search)
  | (Returned, _) => False
  | (Panicked, _) =>
      useCache pr = true /\ (cacheSt st = None \/ cachedMeta pr = None)
  end.
Proof.
  unfold loadCached.
  destruct (useCache pr) eqn:U.
  2:{ cbn. split; [done|]. split; [done|]. intros [? _]. done. }
  rewrite bind_gets.
  destruct (cacheSt st) as [c|] eqn:Hc; [|cbn; auto].
  destruct (cachedMeta pr) as [m|] eqn:Hm; [|cbn; auto].
  destruct (GetHTMLContent c m) as [[h|]|] eqn:Hh.
  2,3: cbn; (split; [done|]); split; [done|];
       intros (_ & c' & m' & s' & [= <-] & [= <-] & Hh' & _); congruence.
  destruct (GetSearchRecord c (cache.PostID m)) as [[sr|]|] eqn:Hs; cbn.
  - split; [done|]. split; [|done]. intros _. split; [done|].
    exists c, m, sr. done.
  - split; [done|]. split; [done|].
    intros (_ & c' & m' & s' & [= <-] & [= <-] & _ & Hs' & _). congruence.
  - split; [done|]. split; [done|].
    intros (_ & c' & m' & s' & [= <-] & [= <-] & _ & Hs' & _). congruence.
Qed.

(** ** The social card *)

(** X6. The social-card step always completes, and queues at most one
    job: exactly one, for this post, when a rebuild of the cards is
    forced, or the hash the card was made from differs from the post's
    front-matter hash, or no card newer than the source exists in the
    destination file system; none otherwise. It leaves the other
    collections alone. *)
Theorem socialCard_decision s flags path relPath htmlRelPath cachedHash (d : PostData) st :
  let cardDestPath := cardDestPathOf s htmlRelPath in
  let fs := (MkdirAll (destFsSt st) (filepath_Dir cardDestPath)).1 in
  let wanted :=
    forceSocialRebuild flags ||
    (bool_decide (cachedHash ≠ frontmatterHash d) ||
     negb (cardExistsIn s fs cardDestPath path)) in
  exists st',
    socialCard s flags path relPath htmlRelPath cachedHash d st = (Val tt, st') /\
    cardJobs st' =
      (cardJobs st ++
       if wanted
       then [mkSocialCardTask relPath (cardRelOf htmlRelPath) cardDestPath
               (metaData d) (frontmatterHash d)]
       else [])%list /\
    renderQueue st' = renderQueue st /\ indexedPosts st' = indexedPosts st /\
    indexedPostIdx st' = indexedPostIdx st /\ allMetadataMap st' = allMetadataMap st /\
    staged st' = staged st.
Proof.
  intros cardDestPath fs wanted.
  unfold socialCard, destMkdirAll, logW, bind, gets, modify, when, ret. cbv zeta.
  fold cardDestPath. fold fs.
  destruct (MkdirAll (destFsSt st) (filepath_Dir cardDestPath)).2;
    cbn [destFsSt upd_destFsSt upd_logs]; fold wanted;
    (destruct wanted eqn:Hw;
     [eexists; split; [reflexivity|]; done|]);
    (destruct (cardExistsIn s fs cardDestPath path);
     [|eexists; split; [reflexivity|]; by rewrite app_nil_r]);
    cbn [cacheSt upd_destFsSt upd_logs];
    (destruct (cacheSt st) as [c|];
     [|eexists; split; [reflexivity|]; by rewrite app_nil_r]);
    (case_bool_decide;
     [|eexists; split; [reflexivity|]; by rewrite app_nil_r]);
    destruct (SetSocialCardHash c relPath (frontmatterHash d)).2;
    eexists; (split; [reflexivity|]); by rewrite app_nil_r.
Qed.

(** X7. The social-card step writes to the cache only to record an empty
    hash: [SetSocialCardHash] is reached only when no job is queued, so
    the hash on record equals the post's front-matter hash, and only when
    the hash on record is empty. A post with a non-empty front-matter
    hash never has it recorded by this step. *)
Theorem socialCard_hash_write s flags path relPath htmlRelPath cachedHash (d : PostData) st :
  let st' := (socialCard s flags path relPath htmlRelPath cachedHash d st).2 in
  cacheSt st' = cacheSt st \/
  (cachedHash = "" /\ frontmatterHash d = "" /\
   exists c, cacheSt st = Some c /\
             cacheSt st' = Some (SetSocialCardHash c relPath "").1).
Proof.
  unfold socialCard, destMkdirAll, logW, bind, gets, modify, when, ret. cbv zeta.
  set (cardDestPath := cardDestPathOf s htmlRelPath).
  set (fs := (MkdirAll (destFsSt st) (filepath_Dir cardDestPath)).1).
  destruct (MkdirAll (destFsSt st) (filepath_Dir cardDestPath)).2;
    cbn [destFsSt upd_destFsSt upd_logs];
    (destruct (forceSocialRebuild flags); cbn [orb]; [by left|]);
    (case_bool_decide as Hh; cbn [orb]; [by left|]);
    (destruct (cardExistsIn s fs cardDestPath path); cbn [negb]; [|by left]);
    cbn [cacheSt upd_destFsSt upd_logs];
    (destruct (cacheSt st) as [c|] eqn:Hc; [|by left]);
    (case_bool_decide as He; [|left; by rewrite <- Hc]);
    right; rewrite <- Hh, He;
    (split; [done|]); (split; [done|]); exists c; (split; [done|]);
    by destruct (SetSocialCardHash c relPath "").2.
Qed.

(** ** Word frequencies *)

Lemma filter_eq_absent (w : string) (words : list string) :
  w ∉ words -> filter (eq w) words = [].
Proof.
  induction words as [|x words IH]; [done|]. intros Hn.
  rewrite filter_cons_False by (intros ->; apply Hn, list_elem_of_here).
  apply IH. intros Hin. apply Hn. by apply list_elem_of_further.
Qed.

Lemma countWords_acc (words : list string) (m : gmap string Z) (w : string) :
  foldl (fun m w => if (2 <=? String.length w)%nat
                    then <[w := default 0 (m !! w) + 1]> m else m) m words !! w =
  if (2 <=? String.length w)%nat && bool_decide (w ∈ words)
  then Some (default 0 (m !! w) + Z.of_nat (length (filter (eq w) words)))
  else m !! w.
Proof.
  revert m. induction words as [|x words IH]; intros m; cbn [foldl].
  - by rewrite andb_false_r.
  - rewrite IH. clear IH.
    destruct (2 <=? String.length w)%nat eqn:Hlen; cbn [andb].
    2:{ destruct (2 <=? String.length x)%nat eqn:Hx; [|done].
        apply lookup_insert_ne. intros ->. congruence. }
    destruct (decide (w = x)) as [<-|Hne].
    + rewrite Hlen, filter_cons_True by done.
      rewrite (bool_decide_eq_true_2 (w ∈ w :: words)) by apply list_elem_of_here.
      rewrite lookup_insert_eq. cbn [default length from_option id].
      case_bool_decide as Hin.
      * f_equal. unfold id. lia.
      * replace (filter (eq w) words) with (@nil string).
        { cbn [length]. f_equal; lia. }
        symmetry. by apply filter_eq_absent.
    + rewrite filter_cons_False by done.
      assert (Hm : (if (2 <=? String.length x)%nat
                    then <[x := default 0 (m !! x) + 1]> m else m) !! w = m !! w).
      { destruct (2 <=? String.length x)%nat; [|done]. by apply lookup_insert_ne. }
      rewrite Hm.
      assert (Hiff : bool_decide (w ∈ x :: words) = bool_decide (w ∈ words)).
      { apply bool_decide_ext. rewrite elem_of_cons. split; [by intros [?|?] | by right]. }
      by rewrite Hiff.
Qed.

(** X8. The word frequencies of a post count the occurrences of each
    analysed word of at least two bytes; shorter words, and words that do
    not occur, have no entry (so no entry is ever zero). *)
Theorem countWords_lookup (words : list string) (w : string) :
  countWords words !! w =
  if (2 <=? String.length w)%nat && bool_decide (w ∈ words)
  then Some (Z.of_nat (length (filter (eq w) words)))
  else None.
Proof.
  unfold countWords. rewrite countWords_acc, lookup_empty. cbn [default].
  by destruct (_ && _).
Qed.

(** ** Grouping *)

Lemma appendAt_lookup k p (m : gmap string (list models.PostMetadata)) v :
  default [] (appendAt k p m !! v) =
  (default [] (m !! v) ++ if bool_decide (k = v) then [p] else [])%list.
Proof.
  unfold appendAt. case_bool_decide as Hk.
  - subst. by rewrite lookup_insert_eq.
  - rewrite lookup_insert_ne by done. by rewrite app_nil_r.
Qed.

Lemma foldl_tags_lookup p (tags : list string) (m : gmap string (list models.PostMetadata)) k :
  default [] (foldl (fun m t => appendAt (ToLower (TrimSpace t)) p m) m tags !! k) =
  (default [] (m !! k) ++
   flat_map (fun t => if bool_decide (ToLower (TrimSpace t) = k) then [p] else []) tags)%list.
Proof.
  revert m. induction tags as [|t tags IH]; intros m; cbn [foldl flat_map].
  - by rewrite app_nil_r.
  - by rewrite IH, appendAt_lookup, <- app_assoc.
Qed.

Lemma foldl_groupPost_maps s g ps v :
  default [] (postsByVersion (foldl (groupPost s) g ps) !! v) =
    (default [] (postsByVersion g !! v) ++
     List.filter (fun p => bool_decide (models.Version p = v)) ps)%list /\
  default [] (tagMap (foldl (groupPost s) g ps) !! v) =
    (default [] (tagMap g !! v) ++
     flat_map (fun p => flat_map (fun t => if bool_decide (ToLower (TrimSpace t) = v)
                                           then [p] else []) (models.Tags p)) ps)%list.
Proof.
  revert g. induction ps as [|p ps IH]; intros g; cbn [foldl List.filter flat_map].
  - by rewrite !app_nil_r.
  - destruct (IH (groupPost s g p)) as [-> ->].
    assert (Hv : postsByVersion (groupPost s g p)
                 = appendAt (models.Version p) p (postsByVersion g)).
    { unfold groupPost. cbv zeta.
      by destruct (isLatestOrUnversioned s p), (models.Pinned p). }
    assert (Ht : tagMap (groupPost s g p)
                 = foldl (fun m t => appendAt (ToLower (TrimSpace t)) p m)
                         (tagMap g) (models.Tags p)).
    { unfold groupPost. cbv zeta.
      by destruct (isLatestOrUnversioned s p), (models.Pinned p). }
    rewrite Hv, Ht, appendAt_lookup, foldl_tags_lookup.
    split; [|by rewrite <- app_assoc].
    rewrite <- app_assoc. by case_bool_decide.
Qed.

(** X9. The final grouping partitions the posts of the metadata map by
    version: the list under a version holds, in the order of the
    iteration, exactly the posts of that version, drafts and posts of
    outdated versions included, and a version no post has holds none.
    Every post is therefore in exactly one list. *)
Theorem postsByVersion_partition s (m : gmap string models.PostMetadata) (v : string) :
  default [] (postsByVersion (groupAll s m) !! v) =
  List.filter (fun p => bool_decide (models.Version p = v)) (map snd (map_to_list m)).
Proof.
  unfold groupAll.
  destruct (foldl_groupPost_maps s (mkGrouped ∅ ∅ [] []) (map snd (map_to_list m)) v)
    as [-> _].
  cbn [postsByVersion]. by rewrite lookup_empty.
Qed.

(** X10. The tag map is keyed by the trimmed, lower-cased tag: a post is
    listed under a key once for each of its tags that normalises to that
    key (twice when two of its tags differ only in case or surrounding
    space), whatever its version and whether or not it is in the main
    feed. *)
Theorem tagMap_lookup s (m : gmap string models.PostMetadata) (k : string) :
  default [] (tagMap (groupAll s m) !! k) =
  flat_map (fun p => flat_map (fun t => if bool_decide (ToLower (TrimSpace t) = k)
                                        then [p] else []) (models.Tags p))
           (map snd (map_to_list m)).
Proof.
  unfold groupAll.
  destruct (foldl_groupPost_maps s (mkGrouped ∅ ∅ [] []) (map snd (map_to_list m)) k)
    as [_ ->].
  cbn [tagMap]. by rewrite lookup_empty.
Qed.

(** ** Frames of the worker and of the build *)

Ltac unfold_steps :=
  unfold worker, probe, loadCached, fromCache, fromSource, copyRawMarkdown, socialCard,
    renderStep, willRenderOf, copyRawMarkdownIfMissing, stage.

Ltac frame :=
  repeat match goal with
         | |- keeps _ (ret _) => apply keeps_ret
         | |- keeps _ return_ => apply keeps_return
         | |- keeps _ panic => apply keeps_panic
         | |- keeps _ (gets _) => apply keeps_gets
         | |- keeps _ (modify _) => apply keeps_modify; intros ?; reflexivity
         | |- keeps _ (ctxDone _) => apply keeps_ctxDone; intros ?; reflexivity
         | |- keeps _ (when _ _) => apply keeps_when
         | |- keeps _ (call _) => apply keeps_call
         | |- keeps _ (bind _ _) => apply keeps_bind; [|intros ?]
         | |- keeps _ (if ?b then _ else _) => destruct b
         | |- keeps _ (match ?x with _ => _ end) => destruct x
         | |- keeps _ (logW _ _ _) => unfold logW
         | |- keeps _ (destMkdirAll _ _) => unfold destMkdirAll
         | |- keeps _ (destWriteFile _ _ _) => unfold destWriteFile
         | |- keeps _ _ => progress cbv zeta
         end.

Lemma bind_cong {A B} (m m' : W A) (k : A -> W B) st st1 :
  m st = m' st1 -> bind m k st = bind m' k st1.
Proof. unfold bind. by intros ->. Qed.

Lemma slice_store_length {A} (l l' : list A) (i : Z) (x : A) :
  slice_store l i x = Some l' -> length l' = length l.
Proof.
  unfold slice_store. destruct (_ && _); [|done].
  intros [= <-]. apply length_insert.
Qed.

Lemma publish_keeps_lengths (d : PostData) :
  keeps (fun st => (length (indexedPosts st), length (renderQueue st))) (publish d).
Proof.
  intros st. unfold publish, nextSearchID, bind, gets, modify, ret, panic. cbn.
  destruct (slice_store _ _ _) as [l'|] eqn:E; cbn; [|done].
  by rewrite (slice_store_length _ _ _ _ E).
Qed.

Lemma enqueueRender_keeps_lengths s idx version htmlRelPath destPath imagePath d :
  keeps (fun st => (length (indexedPosts st), length (renderQueue st)))
        (enqueueRender s idx version htmlRelPath destPath imagePath d).
Proof.
  intros st. unfold enqueueRender, bind, gets, modify, ret, panic. cbn.
  destruct (slice_store _ _ _) as [l'|] eqn:E; cbn; [|done].
  by rewrite (slice_store_length _ _ _ _ E).
Qed.

Lemma worker_keeps_lengths s flags ctx pt :
  keeps (fun st => (length (indexedPosts st), length (renderQueue st)))
        (worker s flags ctx pt).
Proof.
  unfold_steps. frame;
    auto using publish_keeps_lengths, enqueueRender_keeps_lengths.
Qed.

Lemma submitLoop_keeps {B} (f : @BuildState C DF -> B) s flags ctx tasks :
  (forall st, f (upd_ctxPolls S st) = f st) ->
  (forall pt, keeps f (worker s flags ctx pt)) ->
  keeps f (submitLoop s flags ctx tasks).
Proof.
  intros Hp Hw. induction tasks as [|pt rest IH]; cbn [submitLoop]; [apply keeps_ret|].
  unfold pool_Submit.
  repeat match goal with
         | |- keeps _ (ret _) => apply keeps_ret
         | |- keeps _ (ctxDone _) => by apply keeps_ctxDone
         | |- keeps _ (call _) => apply keeps_call
         | |- keeps _ (bind _ _) => apply keeps_bind; [|intros ?]
         | |- keeps _ (if ?b then _ else _) => destruct b
         end; auto.
Qed.

Lemma renderLoop_keeps_lengths ctx byVersion siteTrees i tasks :
  keeps (fun st => (length (indexedPosts st), length (renderQueue st)))
        (renderLoop ctx byVersion siteTrees i tasks).
Proof.
  revert i. induction tasks as [|t rest IH]; intros i; cbn [renderLoop];
    unfold pool_Submit, renderWorker; frame; auto.
  apply keeps_modify. intros st. cbn. by rewrite length_insert.
Qed.

Lemma total_sweep existing ids : total (sweep existing ids).
Proof.
  induction ids as [|id rest IH]; cbn [sweep]; [apply total_ret|].
  apply total_bind; [|done].
  apply total_bind; [apply total_gets|]. intros [c|]; [|apply total_ret].
  destruct (GetPost c id) as [[meta|]|]; try apply total_ret.
  case_bool_decide; [apply total_ret|].
  apply total_bind; [apply total_modify|]. intros _. apply total_modify.
Qed.

Lemma total_staleSweep existing : total (staleSweep existing).
Proof.
  unfold staleSweep. apply total_bind; [apply total_gets|].
  intros [c|]; [|apply total_ret].
  destruct ListAllPosts; [apply total_sweep|apply total_ret].
Qed.

Lemma total_renderLoop ctx byVersion siteTrees i tasks :
  total (renderLoop ctx byVersion siteTrees i tasks).
Proof.
  revert i. induction tasks as [|t rest IH]; intros i; cbn [renderLoop];
    [apply total_ret|].
  apply total_bind; [|done].
  case_bool_decide; [apply total_ret|]. cbv zeta.
  apply total_bind; [apply total_modify|]. intros _.
  unfold pool_Submit. apply total_bind; [apply total_ctxDone|].
  intros [|]; [apply total_ret|].
  intros st. by eexists _, _.
Qed.

Lemma total_commit : total (@commit C DF _).
Proof.
  unfold commit.
  repeat (apply total_bind; [apply total_gets|]; intros ?).
  match goal with |- total (match ?c with _ => _ end) => destruct c end;
    [|apply total_ret].
  match goal with |- total (if ?c then _ else _) => destruct c end;
    [|apply total_ret].
  cbv zeta. apply total_bind; [apply total_modify|]. intros _.
  apply total_bind; [apply total_modify|]. intros _.
  apply total_when. apply total_modify.
Qed.

Lemma walkContent_keeps {B} (f : @BuildState C DF -> B) entries files fileVersions has404 :
  (forall g st, f (upd_logs g st) = f st) ->
  keeps f (walkContent entries files fileVersions has404).
Proof.
  intros Hf. revert files fileVersions has404.
  induction entries as [|[p e] rest IH]; intros; cbn [walkContent].
  - apply keeps_ret.
  - destruct e.
    + apply keeps_bind; [|intros _; apply IH]. by apply keeps_modify.
    + destruct (_ && _); [|apply IH]. destruct (strings.Contains p "404.md"); apply IH.
Qed.

Lemma sweep_keeps {B} (f : @BuildState C DF -> B) existing ids :
  (forall g st, f (upd_logs g st) = f st) ->
  (forall g st, f (upd_cacheSt g st) = f st) ->
  keeps f (sweep existing ids).
Proof.
  intros Hl Hc. induction ids as [|id rest IH]; cbn [sweep]; [apply keeps_ret|].
  apply keeps_bind; [|done].
  apply keeps_bind; [apply keeps_gets|]. intros [c|]; [|apply keeps_ret].
  destruct (GetPost c id) as [[meta|]|]; try apply keeps_ret.
  case_bool_decide; [apply keeps_ret|].
  apply keeps_bind; [by apply keeps_modify|]. intros _. by apply keeps_modify.
Qed.

(** The parse phase up to the allocation of the shared slices: it always
    gets there, and continues with the warm-up and the fan-out. *)
Lemma parsePhase_prefix s flags ctx st :
  exists (has404 : bool) st1,
    parsePhase s flags ctx st =
      bind (warmup (C := C))
        (fun _ => bind (submitLoop s flags ctx
                          (tasksOf (walk.walkedFiles s) (map GetVersionFromPath (walk.walkedFiles s))))
                       (fun _ => ret has404)) st1 /\
    indexedPosts st1 = replicate (length (walk.walkedFiles s)) models.IndexedPost_zero /\
    renderQueue st1 = replicate (length (walk.walkedFiles s)) RenderContext_zero /\
    indexedPostIdx st1 = -1 /\
    (allMetadataMap st1, cardJobs st1, staged st1, anyPostChanged st1, processedCount st1,
     postsProcessed st1, batchCommits st1, renderedPages st1, destFsSt st1, ctxPolls st1) =
    (allMetadataMap st, cardJobs st, staged st, anyPostChanged st, processedCount st,
     postsProcessed st, batchCommits st, renderedPages st, destFsSt st, ctxPolls st).
Proof.
  unfold parsePhase. cbv zeta.
  destruct (walkContent_acc (Walk (sourceFs s) (config.ContentDir (cfg s))).1 [] [] false st)
    as (st0 & Ew & Hcol & Hc & Hfs).
  cbn [app orb] in Ew. fold (walk.walkedFiles s) in Ew.
  assert (Hk : keeps (fun st => (anyPostChanged st, processedCount st, postsProcessed st,
                                 batchCommits st, renderedPages st, ctxPolls st))
                 (walkContent (Walk (sourceFs s) (config.ContentDir (cfg s))).1 [] [] false))
    by (by apply walkContent_keeps).
  pose proof (keeps_Val _ _ _ _ _ Hk Ew) as Hk0.
  rewrite (bind_Val _ _ _ _ _ Ew). cbn [fst snd].
  set (has404 := existsb _ _).
  assert (Hwhen : exists st0',
            bind (when (Walk (sourceFs s) (config.ContentDir (cfg s))).2
                    (logW Error "Failed to walk content directory" "")) (fun _ =>
              bind (staleSweep (existingFilesOf s (walk.walkedFiles s))) (fun _ =>
              bind (modify (upd_indexedPosts (fun _ =>
                      replicate (length (walk.walkedFiles s)) models.IndexedPost_zero))) (fun _ =>
              bind (modify (upd_indexedPostIdx (fun _ => -1))) (fun _ =>
              bind (modify (upd_renderQueue (fun _ =>
                      replicate (length (walk.walkedFiles s)) RenderContext_zero))) (fun _ =>
              bind warmup (fun _ =>
              bind (submitLoop s flags ctx
                      (tasksOf (walk.walkedFiles s) (map GetVersionFromPath (walk.walkedFiles s))))
                   (fun _ => ret has404))))))) st0
            = bind (staleSweep (existingFilesOf s (walk.walkedFiles s))) (fun _ =>
              bind (modify (upd_indexedPosts (fun _ =>
                      replicate (length (walk.walkedFiles s)) models.IndexedPost_zero))) (fun _ =>
              bind (modify (upd_indexedPostIdx (fun _ => -1))) (fun _ =>
              bind (modify (upd_renderQueue (fun _ =>
                      replicate (length (walk.walkedFiles s)) RenderContext_zero))) (fun _ =>
              bind warmup (fun _ =>
              bind (submitLoop s flags ctx
                      (tasksOf (walk.walkedFiles s) (map GetVersionFromPath (walk.walkedFiles s))))
                   (fun _ => ret has404)))))) st0' /\
            (collections st0', destFsSt st0', cacheSt st0',
             anyPostChanged st0', processedCount st0', postsProcessed st0',
             batchCommits st0', renderedPages st0', ctxPolls st0') =
            (collections st0, destFsSt st0, cacheSt st0,
             anyPostChanged st0, processedCount st0, postsProcessed st0,
             batchCommits st0, renderedPages st0, ctxPolls st0)).
  { destruct (Walk (sourceFs s) (config.ContentDir (cfg s))).2; cbn [when].
    - unfold logW. rewrite bind_modify. eexists. split; [reflexivity|done].
    - rewrite bind_ret. by exists st0. }
  destruct Hwhen as (st0' & -> & H0').
  destruct (total_staleSweep (existingFilesOf s (walk.walkedFiles s)) st0') as ([] & st2 & Es).
  assert (Hks : keeps (fun st => (collections st, destFsSt st,
                                  anyPostChanged st, processedCount st, postsProcessed st,
                                  batchCommits st, renderedPages st, ctxPolls st))
                  (staleSweep (existingFilesOf s (walk.walkedFiles s)))).
  { unfold staleSweep. frame. by apply sweep_keeps. }
  pose proof (keeps_Val _ _ _ _ _ Hks Es) as H2.
  rewrite (bind_Val _ _ _ _ _ Es), !bind_modify.
  exists has404. eexists. split; [reflexivity|].
  cbn. split; [done|]. split; [done|]. split; [done|].
  unfold collections, staged in *. cbn in *. congruence.
Qed.

(** X11. The two shared slices have one slot per walked file, from their
    allocation to the end of the build and whatever the workers do
    (skipped drafts and oversize files, failed renders, a cancelled
    context, a panic): no worker and no render step resizes
    [indexedPosts] or [renderQueue]. *)
Theorem slices_one_slot_per_file s flags ctx st :
  let st' := (Process s flags ctx st).2 in
  length (indexedPosts st') = length (walk.walkedFiles s) /\
  length (renderQueue st') = length (walk.walkedFiles s).
Proof.
  cbv zeta. unfold Process.
  destruct (parsePhase_prefix s flags ctx st) as (has404 & st1 & E & Hi & Hq & _).
  assert (Hk : keeps (fun st => (length (indexedPosts st), length (renderQueue st)))
                 (bind (bind (warmup (C := C))
                    (fun _ => bind (submitLoop s flags ctx
                       (tasksOf (walk.walkedFiles s) (map GetVersionFromPath (walk.walkedFiles s))))
                       (fun _ => ret has404))) (finishPhase s ctx))).
  { unfold warmup, finishPhase, commit. frame;
      auto using renderLoop_keeps_lengths.
    all: apply submitLoop_keeps; [done|apply worker_keeps_lengths]. }
  rewrite (bind_cong _ _ (finishPhase s ctx) _ _ E).
  specialize (Hk st1). cbv beta in Hk. injection Hk as -> ->.
  by rewrite Hi, Hq, !length_replicate.
Qed.

(** ** The slot of a file in the render queue *)

Local Abbreviation preserves := (@invariant.preserves C DF _ _).

Lemma preserves_keeps {A B} (f : @BuildState C DF -> B) (Q : B -> Prop) (m : W A) :
  keeps f m -> preserves f Q m.
Proof. intros Hk st HQ. by rewrite (Hk st). Qed.

Lemma preserves_bind {A A' B} (f : @BuildState C DF -> B) (Q : B -> Prop)
    (m : W A) (k : A -> W A') :
  preserves f Q m -> (forall a, preserves f Q (k a)) ->
  preserves f Q (bind m k).
Proof.
  intros Hm Hk st HQ. unfold bind. specialize (Hm st HQ).
  destruct (m st) as [[a| |] st1]; cbn in Hm; try done. by apply Hk.
Qed.

Lemma preserves_when {B} (f : @BuildState C DF -> B) (Q : B -> Prop) b m :
  preserves f Q m -> preserves f Q (when b m).
Proof. destruct b; [done|]. by intros _ st HQ. Qed.

Lemma preserves_call {B} (f : @BuildState C DF -> B) (Q : B -> Prop) m :
  preserves f Q m -> preserves f Q (call m).
Proof.
  intros Hm st HQ. unfold call. specialize (Hm st HQ).
  by destruct (m st) as [[a| |] st1].
Qed.

Ltac descend :=
  repeat match goal with
         | |- preserves _ _ (bind _ _) => apply preserves_bind; [|intros ?]
         | |- preserves _ _ (when _ _) => apply preserves_when
         | |- preserves _ _ (call _) => apply preserves_call
         | |- preserves _ _ (if ?b then _ else _) => destruct b
         | |- preserves _ _ (match ?x with _ => _ end) => destruct x
         | |- preserves _ _ _ => progress cbv zeta
         end.

Lemma slotsOf_insert s files (q : list RenderContext) i rc :
  invariant.slotsOf s files q -> invariant.slotOf s files i rc ->
  invariant.slotsOf s files (<[i := rc]> q).
Proof.
  intros Hq Hrc j rc' Hj.
  apply list_lookup_insert_Some in Hj as [(<- & <- & _)|(_ & Hj)]; [done|by apply Hq].
Qed.

Lemma enqueueRender_slot s files idx version htmlRelPath destPath imagePath d :
  invariant.slotOf s files idx
    (mkRenderContext destPath (Data RenderContext_zero) version) ->
  preserves renderQueue (invariant.slotsOf s files)
    (enqueueRender s idx version htmlRelPath destPath imagePath d).
Proof.
  intros Hslot st HQ.
  destruct (enqueueRender_spec s idx version htmlRelPath destPath imagePath d st)
    as [(_ & data & ->)|(_ & ->)]; [|done].
  cbn. apply slotsOf_insert; [done|].
  destruct Hslot as [Hd|(f & Hf & Hv & Hd)]; [by left|right]. by exists f.
Qed.

(** A worker writes only the slot of its own file. *)
Lemma worker_slots s flags ctx files pt :
  files !! idx pt = Some (path pt) ->
  version pt = GetVersionFromPath (path pt) ->
  preserves renderQueue (invariant.slotsOf s files) (worker s flags ctx pt).
Proof.
  intros Hfile Hver.
  assert (Hslot : forall data,
            invariant.slotOf s files (idx pt)
              (mkRenderContext
                 (destPathOf s (version pt) (htmlRelPathOf (relPathOf s (path pt))))
                 data (version pt))).
  { intros data. right. exists (path pt). cbn. by rewrite <- Hver. }
  unfold_steps. descend.
  all: try (apply enqueueRender_slot; apply Hslot).
  all: apply preserves_keeps; unfold publish, nextSearchID; frame.
Qed.

Lemma tasksOf_elem (files : list string) pt :
  pt ∈ tasksOf files (map GetVersionFromPath files) ->
  files !! idx pt = Some (path pt) /\ version pt = GetVersionFromPath (path pt).
Proof.
  intros [i Hi]%list_elem_of_lookup_1.
  unfold tasksOf in Hi. rewrite list_lookup_imap in Hi.
  rewrite (lookup_zip_with pair), list_lookup_fmap in Hi.
  destruct (files !! i) as [f|] eqn:Hf; [|done]. by injection Hi as <-.
Qed.

Lemma submitLoop_slots s flags ctx files tasks :
  (forall pt, pt ∈ tasks ->
     files !! idx pt = Some (path pt) /\ version pt = GetVersionFromPath (path pt)) ->
  preserves renderQueue (invariant.slotsOf s files) (submitLoop s flags ctx tasks).
Proof.
  induction tasks as [|pt rest IH]; intros Hall; cbn [submitLoop].
  { by apply preserves_keeps. }
  apply preserves_bind; [apply preserves_keeps; frame|]. intros [|].
  { by apply preserves_keeps. }
  apply preserves_bind.
  - unfold pool_Submit. apply preserves_bind; [apply preserves_keeps; frame|].
    intros [|]; [by apply preserves_keeps|]. apply preserves_call.
    destruct (Hall pt) as [Hf Hv]; [apply list_elem_of_here|].
    by apply worker_slots.
  - intros _. apply IH. intros pt' Hin. apply Hall. by apply list_elem_of_further.
Qed.

Lemma renderLoop_slots s files ctx byVersion siteTrees i tasks :
  (forall j rc, tasks !! j = Some rc -> invariant.slotOf s files (i + j) rc) ->
  preserves renderQueue (invariant.slotsOf s files)
    (renderLoop ctx byVersion siteTrees i tasks).
Proof.
  revert i. induction tasks as [|task rest IH]; intros i Hall; cbn [renderLoop].
  { by apply preserves_keeps. }
  apply preserves_bind.
  - case_bool_decide; [by apply preserves_keeps|]. cbv zeta.
    apply preserves_bind.
    + intros st HQ. cbn. apply slotsOf_insert; [done|].
      specialize (Hall 0%nat task eq_refl). rewrite Nat.add_0_r in Hall.
      destruct Hall as [Hd|(f & Hf & Hv & Hd)]; [by left|right]. by exists f.
    + intros _. apply preserves_keeps. unfold pool_Submit, renderWorker. frame.
  - intros _. apply IH. intros j rc Hj.
    replace (S i + j)%nat with (i + S j)%nat by lia. by apply Hall.
Qed.


(** ** A build under a cancelled context *)

Lemma total_warmup : total (@warmup C DF _).
Proof.
  unfold warmup. apply total_bind; [apply total_gets|].
  intros [c|]; [|apply total_ret].
  destruct ListAllPosts; [apply total_modify|apply total_ret].
Qed.

Lemma submitLoop_cancelled s flags ctx tasks st :
  (forall n, ctx n = true) ->
  submitLoop s flags ctx tasks st = (Val tt, st) \/
  submitLoop s flags ctx tasks st = (Val tt, upd_ctxPolls S st).
Proof.
  intros Hctx. destruct tasks as [|pt rest]; [by left|]. right.
  cbn [submitLoop]. unfold bind, ctxDone. by rewrite Hctx.
Qed.

Lemma renderLoop_holes ctx byVersion siteTrees i n st :
  renderLoop ctx byVersion siteTrees i (replicate n RenderContext_zero) st = (Val tt, st).
Proof.
  revert i. induction n as [|n IH]; intros i; [done|].
  cbn [replicate renderLoop].
  rewrite (bool_decide_eq_true_2 (DestPath RenderContext_zero = "")) by done.
  rewrite bind_ret. apply IH.
Qed.

Lemma commit_nothing st : newPostsMeta st = [] -> commit st = (Val tt, st).
Proof.
  intros Hn. unfold commit. rewrite !bind_gets, Hn. by destruct (cacheSt st).
Qed.

(** X12. A build whose context is cancelled before it starts still walks
    the content directory, sweeps the cache and returns a result, but it
    hands no file to a parse worker: the search index holds only zero
    values, one per walked file, nothing is marked changed, no post is
    counted as processed, no social card is queued, no page is rendered,
    nothing is committed to the cache and the destination file system is
    left as it was. *)
Theorem cancelled_build_processes_nothing s flags ctx (c : option C) (fs : DF) :
  (forall n, ctx n = true) ->
  exists r st',
    Process s flags ctx (initState c fs) = (Val r, st') /\
    IndexedPosts r = replicate (length (walk.walkedFiles s)) models.IndexedPost_zero /\
    AnyPostChanged r = false /\
    postsProcessed st' = 0 /\ cardJobs st' = [] /\ renderedPages st' = [] /\
    batchCommits st' = [] /\ destFsSt st' = fs.
Proof.
  intros Hctx. unfold Process.
  destruct (parsePhase_prefix s flags ctx (initState c fs))
    as (h & st1 & E & Hi & Hq & Hidx & Ht).
  rewrite (bind_cong _ _ _ _ _ E). clear E.
  set (F := fun st : @BuildState C DF =>
              (indexedPosts st, renderQueue st, cardJobs st, staged st, anyPostChanged st,
               postsProcessed st, batchCommits st, renderedPages st, destFsSt st)).
  destruct (total_warmup st1) as ([] & st2 & Ew).
  assert (Hk : keeps F warmup) by (unfold warmup; frame).
  pose proof (keeps_Val _ _ _ _ _ Hk Ew) as H2.
  rewrite !bind_bind, (bind_Val _ _ _ _ _ Ew), bind_bind.
  assert (Es : exists st3,
             submitLoop s flags ctx
               (tasksOf (walk.walkedFiles s) (map GetVersionFromPath (walk.walkedFiles s)))
               st2 = (Val tt, st3) /\ F st3 = F st2).
  { destruct (submitLoop_cancelled s flags ctx
                (tasksOf (walk.walkedFiles s) (map GetVersionFromPath (walk.walkedFiles s)))
                st2 Hctx) as [->| ->]; eauto. }
  destruct Es as (st3 & Es & H3).
  rewrite (bind_Val _ _ _ _ _ Es), bind_ret.
  assert (HF : F st3 = F st1) by congruence.
  unfold F, staged in HF. injection HF as Hi3 Hq3 Hj3 Hm3 Hs3 Hd3 Ha3 Hp3 Hb3 Hr3 Hf3.
  cbn in Ht. injection Ht as _ Hj1 Hm1 Hs1 Hd1 Ha1 _ Hp1 Hb1 Hr1 Hf1 _.
  unfold finishPhase. rewrite bind_gets. cbv zeta. rewrite bind_gets.
  rewrite Hq3, Hq. rewrite (bind_Val _ _ _ _ _ (renderLoop_holes _ _ _ _ _ _)).
  rewrite (bind_Val _ _ _ _ _ (commit_nothing st3 ltac:(congruence))).
  rewrite !bind_gets. unfold ret.
  eexists _, st3. split; [reflexivity|]. cbn [IndexedPosts AnyPostChanged].
  repeat split; congruence.
Qed.

(** ** The render fan-out *)

Lemma renderLoop_paths ctx byVersion siteTrees i tasks st :
  (forall n, ctx n = false) ->
  exists st',
    renderLoop ctx byVersion siteTrees i tasks st = (Val tt, st') /\
    map fst (renderedPages st') ≡ₚ
      (List.filter (fun p => negb (bool_decide (p = ""))) (map DestPath tasks)
       ++ map fst (renderedPages st))%list /\
    length (renderQueue st') = length (renderQueue st).
Proof.
  intros Hctx. revert i st.
  induction tasks as [|t rest IH]; intros i st; cbn [renderLoop map List.filter].
  - by exists st.
  - case_bool_decide as Hd; cbn [negb].
    + rewrite bind_ret. apply IH.
    + cbv zeta. rewrite bind_bind, bind_modify.
      unfold pool_Submit. rewrite bind_bind. unfold bind at 1, ctxDone.
      rewrite Hctx. unfold bind at 1, call, renderWorker, modify.
      match goal with |- context [renderLoop _ _ _ _ rest ?st0] =>
        destruct (IH (S i) st0) as (st' & -> & Hp & Hl) end.
      exists st'. split; [done|]. rewrite Hp, Hl. cbn.
      rewrite length_insert. split; [|done].
      symmetry. apply Permutation_middle.
Qed.

(** X13. With a context that is never cancelled, the render fan-out calls
    [RenderPage] once for every entry of the render queue that a worker
    filled, with the entry's destination path, and for no other: the
    destination paths of the calls made are, as a multiset, those of the
    non-empty entries, and the zero-valued entries of the posts that
    were not to be rendered are skipped. Nothing is said of the order of
    the calls, which the workers of the pool do not fix. The queue keeps
    its length. *)
Theorem renderLoop_renders_queued ctx byVersion siteTrees (tasks : list RenderContext) st :
  (forall n, ctx n = false) ->
  exists st',
    renderLoop ctx byVersion siteTrees 0 tasks st = (Val tt, st') /\
    map fst (renderedPages st') ≡ₚ
      (List.filter (fun p => negb (bool_decide (p = ""))) (map DestPath tasks)
       ++ map fst (renderedPages st))%list /\
    length (renderQueue st') = length (renderQueue st).
Proof.
  intros Hctx.
  destruct (renderLoop_paths ctx byVersion siteTrees 0 tasks st Hctx) as (st' & E & Hp & Hl).
  by exists st'.
Qed.

(** ** What a worker counts *)

Ltac unfold_all_steps :=
  unfold_steps; unfold enqueueRender, publish, nextSearchID.

Lemma ends_bind {A B X} (f : @BuildState C DF -> X) (R : X -> X -> Prop)
    (m : W A) (k : A -> W B) :
  keeps f m ->
  (forall a st, match k a st with
                | (Val _, st') => R (f st) (f st')
                | (_, st') => f st' = f st
                end) ->
  forall st, match bind m k st with
             | (Val _, st') => R (f st) (f st')
             | (_, st') => f st' = f st
             end.
Proof.
  intros Hm Hk st. unfold bind. specialize (Hm st).
  destruct (m st) as [[a| |] st1]; cbn in Hm; try done.
  specialize (Hk a st1). rewrite <- Hm. done.
Qed.

(** X14. [IncrementPostsProcessed] is called exactly once by a worker
    that runs to its end, and not at all by one that ends early: for an
    oversize file, a failed render, a draft that is not included, a
    cancelled context, or a panic. *)
Theorem worker_counts_completed s flags ctx pt st :
  match worker s flags ctx pt st with
  | (Val _, st') => postsProcessed st' = postsProcessed st + 1
  | (_, st') => postsProcessed st' = postsProcessed st
  end.
Proof.
  revert st. unfold worker. cbv zeta.
  apply (ends_bind postsProcessed (fun x y => y = x + 1)); [unfold_all_steps; frame|].
  intros pr.
  apply (ends_bind postsProcessed (fun x y => y = x + 1)); [frame|]. intros c.
  apply (ends_bind postsProcessed (fun x y => y = x + 1)); [unfold_all_steps; frame|].
  intros [[useCache cachedHTML] cachedSearch].
  apply (ends_bind postsProcessed (fun x y => y = x + 1)); [unfold_all_steps; frame|].
  intros d. destruct (_ && _); [done|].
  apply (ends_bind postsProcessed (fun x y => y = x + 1)); [unfold_all_steps; frame|].
  intros _.
  apply (ends_bind postsProcessed (fun x y => y = x + 1)); [unfold_all_steps; frame|].
  intros wr.
  apply (ends_bind postsProcessed (fun x y => y = x + 1)); [unfold_all_steps; frame|].
  intros searchRecord.
  apply (ends_bind postsProcessed (fun x y => y = x + 1)); [frame|]. intros [|]; [done|].
  apply (ends_bind postsProcessed (fun x y => y = x + 1)); [unfold_all_steps; frame|].
  intros _ st. cbn. lia.
Qed.

(** What [stage] adds to the records staged for the commit. *)
Lemma stage_adds useCache info relPath version bodyHash searchRecord (d : PostData)
    (k : W unit) :
  keeps staged k -> (forall st, exists st', k st = (Val tt, st')) ->
  forall st,
    match bind (stage useCache info relPath version bodyHash searchRecord d)
               (fun _ => k) st with
    | (Val _, st') =>
        staged st' = staged st \/
        exists m sr dep,
          staged st' =
          ((newPostsMeta st ++ [m])%list,
           <[GeneratePostID "" relPath := sr]> (newSearchRecords st),
           <[GeneratePostID "" relPath := dep]> (newDeps st))
    | (_, st') => staged st' = staged st
    end.
Proof.
  intros Hk Ht st. unfold stage. rewrite bind_bind, bind_gets.
  destruct (cacheSt st) as [c|].
  2:{ rewrite bind_ret. destruct (Ht st) as (st' & E). pose proof (Hk st) as Hs.
      rewrite E in *. by left. }
  destruct useCache; cbn [negb].
  { rewrite bind_ret. destruct (Ht st) as (st' & E). pose proof (Hk st) as Hs.
    rewrite E in *. by left. }
  destruct info as [i|]; [|done]. cbv zeta.
  match goal with |- context [StoreHTMLForPost ?c ?m ?h] =>
    destruct (StoreHTMLForPost c m h) as [[c' m'] e] end.
  cbn [fst snd]. unfold logW, bind, modify, when, ret.
  destruct e; cbv beta iota zeta;
    match goal with |- context [k ?st0] =>
      destruct (Ht st0) as (st' & E); pose proof (Hk st0) as Hs; rewrite E in * end;
    right; cbn in Hs; rewrite Hs; unfold staged; cbn; by eexists _, _, _.
Qed.

(** X15. A worker stages a record for the cache commit only as its last
    act: a worker that ends early (an oversize file, a failed render, a
    draft that is not included, a cancelled context) or in a panic
    stages nothing, so the commit never sees such a post. A worker that
    runs to its end stages nothing (a hit, or no cache) or exactly one
    record, keyed in the search and dependency maps by the id of the
    post's content-relative path. *)
Theorem worker_stages_at_end s flags ctx pt st :
  match worker s flags ctx pt st with
  | (Val _, st') =>
      staged st' = staged st \/
      exists m sr dep,
        staged st' =
        ((newPostsMeta st ++ [m])%list,
         <[GeneratePostID "" (relPathOf s (path pt)) := sr]> (newSearchRecords st),
         <[GeneratePostID "" (relPathOf s (path pt)) := dep]> (newDeps st))
  | (_, st') => staged st' = staged st
  end.
Proof.
  revert st. unfold worker. cbv zeta.
  set (R := fun x y : list cache.PostMeta * gmap string cache.SearchRecord
                      * gmap string cache.Dependencies =>
              y = x \/
              exists m sr dep,
                y = ((x.1.1 ++ [m])%list,
                     <[GeneratePostID "" (relPathOf s (path pt)) := sr]> x.1.2,
                     <[GeneratePostID "" (relPathOf s (path pt)) := dep]> x.2)).
  apply (ends_bind staged R); [unfold_all_steps; frame|]. intros pr.
  apply (ends_bind staged R); [frame|]. intros c.
  apply (ends_bind staged R); [unfold_all_steps; frame|].
  intros [[useCache cachedHTML] cachedSearch].
  apply (ends_bind staged R); [unfold_all_steps; frame|].
  intros d. destruct (_ && _); [done|].
  apply (ends_bind staged R); [unfold_all_steps; frame|]. intros _.
  apply (ends_bind staged R); [unfold_all_steps; frame|]. intros wr.
  apply (ends_bind staged R); [unfold_all_steps; frame|]. intros searchRecord.
  apply (ends_bind staged R); [frame|]. intros [|]; [done|].
  intros st. unfold R.
  apply (stage_adds useCache wr.2 (relPathOf s (path pt)) (version pt) (bodyHash pr)
           searchRecord d).
  - frame.
  - intros st0. by eexists.
Qed.


End PipelineExtras.

(** * Further properties of the change classifier *)

Section ClassifierExtras.

Import run.

Context {C SF Doc : Type}.
Context {cacheI : CacheService C} {srcI : Fs SF} {mdI : Markdown Doc}
        {libI : GoLib} {utilsI : Utils}.

Implicit Types (b : @Builder C SF).

Ltac members :=
  unfold not; intros;
  repeat match goal with
         | H : _ ∈ _ |- _ =>
             first [apply elem_of_nil in H | apply elem_of_cons in H | apply elem_of_app in H]
         | H : _ \/ _ |- _ => destruct H
         | H : False |- _ => destruct H
         end;
  rewrite ?elem_of_cons, ?elem_of_app, ?elem_of_nil;
  intuition (try discriminate; try congruence);
  repeat match goal with
         | H : is_Some None |- _ => by apply is_Some_None in H
         | |- is_Some (Some _) => by eexists
         end.

Lemma buildAndSave_members b msg :
  rebuilds (buildAndSave b msg) = [EBuild] /\
  (ESaveCaches ∈ buildAndSave b msg <-> Build_fails b = false) /\
  (ESyncVFS ∉ buildAndSave b msg) /\ (EClearRenderedFiles ∉ buildAndSave b msg) /\
  forall id, (EDeletePost id ∉ buildAndSave b msg).
Proof.
  unfold buildAndSave. destruct (Build_fails b); cbn; repeat split; try intros ?; members.
Qed.

Lemma deletePostFromCache_members b path :
  rebuilds (deletePostFromCache b path) = [] /\
  (ESaveCaches ∉ deletePostFromCache b path) /\
  (ESyncVFS ∉ deletePostFromCache b path) /\
  (EClearRenderedFiles ∉ deletePostFromCache b path) /\
  forall id, EDeletePost id ∈ deletePostFromCache b path <->
             (SafeRel (config.ContentDir (cfg b)) path).2 = false /\
             is_Some (cacheService b) /\
             id = GeneratePostID "" (SafeRel (config.ContentDir (cfg b)) path).1.
Proof.
  unfold deletePostFromCache. cbv zeta.
  destruct (SafeRel (config.ContentDir (cfg b)) path).2.
  { cbn. repeat split; try intros ?; members. }
  destruct (cacheService b) as [c|].
  2:{ cbn. repeat split; try intros ?; members. }
  destruct (DeletePost c _).2; cbn; repeat split; try intros ?; members; eauto.
Qed.

Lemma buildSinglePost_members b path :
  (ESyncVFS ∉ buildSinglePost b path) /\ (EClearRenderedFiles ∉ buildSinglePost b path) /\
  (forall id, (EDeletePost id ∉ buildSinglePost b path)) /\
  (Build_fails b = true -> EBuild ∈ buildSinglePost b path ->
   (ESaveCaches ∉ buildSinglePost b path)).
Proof.
  unfold buildSinglePost, buildAndSave.
  destruct (ReadFile (SourceFs b) path) as [source|].
  2:{ destruct (Build_fails b); cbn; repeat split; try intros ?; members. }
  cbv zeta. destruct (lookupHashes b _) as [[[|] cfm] cbody]; cbn [negb andb].
  2:{ destruct (Build_fails b); cbn; repeat split; try intros ?; members. }
  case_bool_decide.
  { destruct (Build_fails b); cbn; repeat split; try intros ?; members. }
  destruct (_ || _).
  - destruct (ProcessSingle_fails b path), (Build_fails b); cbn;
      repeat split; try intros ?; members.
  - repeat split; try intros ?; members.
Qed.

(** X16. A change to anything but a Markdown file under the content
    directory (a template, a static asset, the configuration) gets
    exactly one full build, whatever the event's operation: the CSS/JS
    branch differs from the default branch only in what it logs. The
    caches are saved iff the build succeeds, and no cache record is
    deleted. *)
Theorem other_paths_full_build b (changedPath : string) (op : Z) :
  isContentMarkdown b changedPath = false ->
  let tr := BuildChanged b false changedPath op in
  rebuilds tr = [EBuild] /\
  (ESaveCaches ∈ tr <-> Build_fails b = false) /\
  forall id, (EDeletePost id ∉ tr).
Proof.
  intros Hmd tr. subst tr. unfold BuildChanged. rewrite Hmd, andb_false_r. cbv zeta.
  destruct (buildAndSave_members b "Build failed") as (Hr & Hs & _ & _ & Hd).
  destruct (_ && _); cbn [rebuilds List.filter isRebuild];
    fold (rebuilds (buildAndSave b "Build failed")); rewrite Hr;
    (split; [done|]); split.
  all: try (rewrite !elem_of_cons, Hs; intuition (try discriminate; try congruence)).
  all: intros id; rewrite !elem_of_cons; specialize (Hd id); intuition (try discriminate; try congruence).
Qed.

(** X17. A remove or rename event on a Markdown file under the content
    directory deletes the post's cache record, under the id derived from
    its content-relative path, when a cache is configured and the
    relative path can be computed, and then runs one full build (saved
    iff it succeeds). The other bits of the event do not matter: such a
    file is never rebuilt alone. *)
Theorem removed_post_full_build b (changedPath : string) (op : Z) :
  fsnotify.Has op fsnotify.Remove || fsnotify.Has op fsnotify.Rename = true ->
  isContentMarkdown b changedPath = true ->
  let tr := BuildChanged b false changedPath op in
  let rel := SafeRel (config.ContentDir (cfg b)) changedPath in
  rebuilds tr = [EBuild] /\
  (ESaveCaches ∈ tr <-> Build_fails b = false) /\
  (forall id, EDeletePost id ∈ tr <->
              rel.2 = false /\ is_Some (cacheService b) /\ id = GeneratePostID "" rel.1) /\
  (forall id l1 l2, tr = (l1 ++ EDeletePost id :: l2)%list -> EBuild ∈ l2 /\ (EBuild ∉ l1)).
Proof.
  intros Hop Hmd tr rel. subst tr rel. unfold BuildChanged. rewrite Hop, Hmd. cbn [andb].
  destruct (buildAndSave_members b "Build failed after deletion") as (Hr & Hs & _ & _ & Hd).
  destruct (deletePostFromCache_members b changedPath) as (Hr' & Hs' & _ & _ & Hd').
  split.
  { cbn [rebuilds List.filter isRebuild]. unfold rebuilds in *.
    by rewrite List.filter_app, Hr', Hr. }
  split.
  { rewrite elem_of_cons, elem_of_app, Hs. intuition (try discriminate; try congruence). }
  split.
  { intros id. rewrite elem_of_cons, elem_of_app, Hd'. specialize (Hd id).
    intuition (try discriminate; try congruence). }
  intros id l1 l2. unfold deletePostFromCache, buildAndSave. cbv zeta.
  destruct (SafeRel (config.ContentDir (cfg b)) changedPath).2.
  { destruct l1 as [|? [|? [|? [|? [|? l1]]]]], (Build_fails b); cbn; intros [=]. }
  destruct (cacheService b) as [c|].
  2:{ destruct l1 as [|? [|? [|? [|? [|? l1]]]]], (Build_fails b); cbn; intros [=]. }
  destruct l1 as [|? [|? [|? [|? [|? [|? [|? l1]]]]]]], (DeletePost c _).2, (Build_fails b);
    cbn; intros [=]; subst; members.
Qed.

(** X18. When the changed Markdown file cannot be read, the watcher
    falls back to one full build, but, unlike every other full build it
    runs, does not save the caches afterwards, not even when the build
    succeeds; the output is synchronised as after a single-post
    rebuild. *)
Theorem unreadable_post_build_not_saved b (changedPath : string) (op : Z) :
  fsnotify.Has op fsnotify.Remove || fsnotify.Has op fsnotify.Rename = false ->
  isContentMarkdown b changedPath = true ->
  ReadFile (SourceFs b) changedPath = None ->
  let tr := BuildChanged b false changedPath op in
  rebuilds tr = [EBuild] /\ (ESaveCaches ∉ tr) /\ ESyncVFS ∈ tr.
Proof.
  intros Hop Hmd Hread tr. subst tr. unfold BuildChanged, buildSinglePost.
  rewrite Hop, Hmd, Hread. cbn [andb].
  destruct (Build_fails b), (SyncVFS_fails b); cbn; repeat split; members.
Qed.

(** X19. A cached post whose record carries no body hash is rebuilt
    alone whenever its front matter is unchanged, whatever its body: the
    watcher never reports such a post as unchanged. A failed single-post
    rebuild is followed by a full build. *)
Theorem missing_body_hash_rebuilds b (changedPath source cachedFM : string) (op : Z) :
  fsnotify.Has op fsnotify.Remove || fsnotify.Has op fsnotify.Rename = false ->
  isContentMarkdown b changedPath = true ->
  ReadFile (SourceFs b) changedPath = Some source ->
  lookupHashes b (SafeRel (config.ContentDir (cfg b)) changedPath).1 = (true, cachedFM, "") ->
  cachedFM = GetFrontmatterHash (meta_Get (Parse changedPath source)) ->
  rebuilds (BuildChanged b false changedPath op) =
    EProcessSingle changedPath :: (if ProcessSingle_fails b changedPath then [EBuild] else []).
Proof.
  intros Hop Hmd Hread Hlook Hfm. unfold BuildChanged, buildSinglePost.
  rewrite Hop, Hmd, Hread. cbn [andb]. cbv zeta. rewrite Hlook. cbn [negb andb].
  rewrite bool_decide_eq_false_2 by (intros Hne; by apply Hne).
  rewrite (bool_decide_eq_true_2 ("" = "")) by done. rewrite orb_true_r.
  destruct (ProcessSingle_fails b changedPath), (Build_fails b), (SyncVFS_fails b);
    reflexivity.
Qed.

(** X20. The output is synchronised to disk exactly for the create and
    modify events on Markdown files under the content directory (the
    single-post path), and the list of rendered files is cleared exactly
    when that synchronisation succeeds. No other event synchronises: the
    full builds of the other branches do it themselves. *)
Theorem sync_only_after_single_post b (cancelled : bool) (changedPath : string) (op : Z) :
  let tr := BuildChanged b cancelled changedPath op in
  let single :=
    negb cancelled && isContentMarkdown b changedPath &&
    negb (fsnotify.Has op fsnotify.Remove || fsnotify.Has op fsnotify.Rename) in
  (ESyncVFS ∈ tr <-> single = true) /\
  (EClearRenderedFiles ∈ tr <-> single = true /\ SyncVFS_fails b = false).
Proof.
  cbv zeta. unfold BuildChanged.
  destruct cancelled; cbn [negb andb]; [split; members|].
  destruct (isContentMarkdown b changedPath) eqn:Hmd; cbn [andb].
  - destruct (_ || _); cbn [negb andb].
    + destruct (buildAndSave_members b "Build failed after deletion") as (_ & _ & H1 & H2 & _).
      destruct (deletePostFromCache_members b changedPath) as (_ & _ & H3 & H4 & _).
      split; rewrite elem_of_cons, elem_of_app; intuition (try discriminate; try congruence).
    + destruct (buildSinglePost_members b changedPath) as (H1 & H2 & _).
      destruct (SyncVFS_fails b); split;
        rewrite elem_of_cons, elem_of_app, !elem_of_cons, elem_of_nil;
        intuition (try discriminate; try congruence).
  - rewrite andb_false_r. cbv zeta.
    destruct (buildAndSave_members b "Build failed") as (_ & _ & H1 & H2 & _).
    destruct (_ && _); split; rewrite ?elem_of_cons; intuition (try discriminate; try congruence).
Qed.

(** X21. The caches are never saved after a full build that failed:
    when [Build] fails, an event that ran it does not reach
    [SaveCaches]. *)
Theorem failed_build_not_saved b (cancelled : bool) (changedPath : string) (op : Z) :
  Build_fails b = true ->
  EBuild ∈ BuildChanged b cancelled changedPath op ->
  (ESaveCaches ∉ BuildChanged b cancelled changedPath op).
Proof.
  intros Hf. unfold BuildChanged.
  destruct cancelled; [members|].
  destruct (buildSinglePost_members b changedPath) as (_ & _ & _ & Hs).
  specialize (Hs Hf).
  destruct (deletePostFromCache_members b changedPath) as (_ & Hd & _).
  assert (Hb : forall msg, (ESaveCaches ∉ buildAndSave b msg)).
  { intros msg. unfold buildAndSave. rewrite Hf. members. }
  destruct (_ && _).
  { intros _. rewrite elem_of_cons, elem_of_app. specialize (Hb "Build failed after deletion").
    intuition (try discriminate; try congruence). }
  destruct (isContentMarkdown b changedPath).
  { rewrite !elem_of_cons, !elem_of_app, !elem_of_cons.
    destruct (SyncVFS_fails b); rewrite !elem_of_cons, !elem_of_nil; intuition (try discriminate; try congruence). }
  cbv zeta. specialize (Hb "Build failed").
  destruct (_ && _); rewrite !elem_of_cons; intuition (try discriminate; try congruence).
Qed.

End ClassifierExtras.

(** * Template invalidation *)

Section TemplateFacts.

Context {C SF : Type}.
Context {tmplI : TemplateQueries C} {libI : GoLib} {utilsI : Utils}.

(** X22. A changed path invalidates either everything (the nil slice)
    or a list of posts. The list is non-empty only for a file under the
    template directory other than [layout.html], and then holds the
    paths of the posts the cache returns for the ids registered under
    that template, in the cache's order; any failure on the way, a
    missing cache included, gives the empty list, not everything.
    [layout.html], the static files and every path the function does not
    know (the configuration file among them) invalidate everything; only
    the PWA generator outside these directories invalidates nothing. *)
Theorem invalidateForTemplate_result (b : @run.Builder C SF) (templatePath : string) :
  let tp := filepath_ToSlash templatePath in
  let underTemplates :=
    strings.HasPrefix tp (filepath_ToSlash (config.TemplateDir (run.cfg b))) in
  let underStatic :=
    strings.HasPrefix tp (filepath_ToSlash (config.StaticDir (run.cfg b))) in
  let relTmpl := filepath_ToSlash (SafeRel (config.TemplateDir (run.cfg b)) tp).1 in
  match templates.invalidateForTemplate b templatePath with
  | Some (p :: ps) =>
      underTemplates = true /\ relTmpl <> "layout.html" /\
      exists c ids posts,
        run.cacheService b = Some c /\
        GetPostsByTemplate c relTmpl = Ok ids /\
        GetPostsByIDs_checked c ids = Ok posts /\
        p :: ps = map cache.Path posts
  | Some [] =>
      (underTemplates = true /\ relTmpl <> "layout.html") \/
      (underTemplates = false /\ underStatic = false /\ tp = "builder/generators/pwa.go")
  | None =>
      (underTemplates = true /\ relTmpl = "layout.html") \/
      (underTemplates = false /\ (underStatic = true \/ tp <> "builder/generators/pwa.go"))
  end.
Proof.
  cbv zeta. unfold templates.invalidateForTemplate. cbv zeta.
  destruct (strings.HasPrefix _ (filepath_ToSlash (config.TemplateDir _))).
  - case_bool_decide as Hl; [by left|].
    destruct (run.cacheService b) as [c|]; [|by left].
    destruct (GetPostsByTemplate c _) as [[|id ids]|] eqn:Hids; try by left.
    destruct (GetPostsByIDs_checked c (id :: ids)) as [[|post posts]|] eqn:Hposts;
      try by left.
    cbn [map]. split; [done|]. split; [done|].
    exists c, (id :: ids), (post :: posts). by rewrite Hposts.
  - destruct (strings.HasPrefix _ _); [right; split; [done|by left]|].
    case_bool_decide as Hk.
    { right. split; [done|]. right. by rewrite Hk. }
    case_bool_decide as Hp; [by right|].
    right. split; [done|]. by right.
Qed.

End TemplateFacts.

(** * The flag loops of the command line *)

Section CliFacts.

Import cli.

Lemma serveFlags_acc (args : list string) (acc : bool * list string) :
  foldl (fun acc arg =>
           if String.eqb arg "--dev" || String.eqb arg "-dev"
           then (true, acc.2)
           else (acc.1, (acc.2 ++ [arg])%list)) acc args =
  (acc.1 || existsb (fun a => String.eqb a "--dev" || String.eqb a "-dev") args,
   (acc.2 ++ List.filter (fun a => negb (String.eqb a "--dev" || String.eqb a "-dev")) args)%list).
Proof.
  revert acc. induction args as [|a args IH]; intros [d l]; cbn [foldl existsb List.filter].
  - by rewrite orb_false_r, app_nil_r.
  - rewrite IH. destruct (String.eqb a "--dev" || String.eqb a "-dev"); cbn.
    + by rewrite orb_true_r.
    + by rewrite <- app_assoc.
Qed.

(** X23. [kosh serve] runs in development mode iff [--dev] or [-dev]
    occurs anywhere among its arguments, and passes on the other
    arguments, all of them and in their order. *)
Theorem serveFlags_spec (args : list string) :
  serveFlags args =
  (existsb (fun a => String.eqb a "--dev" || String.eqb a "-dev") args,
   List.filter (fun a => negb (String.eqb a "--dev" || String.eqb a "-dev")) args).
Proof. unfold serveFlags. by rewrite serveFlags_acc. Qed.

Lemma cleanFlags_acc (args : list string) (acc : bool * bool) :
  foldl (fun acc arg =>
           let cleanCache := if String.eqb arg "--cache" || String.eqb arg "-cache"
                             then true else acc.1 in
           let cleanAll := if String.eqb arg "--all" || String.eqb arg "-all"
                           then true else acc.2 in
           (cleanCache, cleanAll)) acc args =
  (acc.1 || existsb (fun a => String.eqb a "--cache" || String.eqb a "-cache") args,
   acc.2 || existsb (fun a => String.eqb a "--all" || String.eqb a "-all") args).
Proof.
  revert acc. induction args as [|a args IH]; intros [c l]; cbn [foldl existsb].
  - by rewrite !orb_false_r.
  - rewrite IH. cbn [fst snd].
    destruct (String.eqb a "--cache" || String.eqb a "-cache"),
             (String.eqb a "--all" || String.eqb a "-all"); cbn; by rewrite ?orb_true_r.
Qed.

(** X24. [kosh clean] cleans the cache iff [--cache] or [-cache] occurs
    among its arguments, and everything iff [--all] or [-all] does; the
    two flags are independent, and every other argument is ignored. *)
Theorem cleanFlags_spec (args : list string) :
  cleanFlags args =
  (existsb (fun a => String.eqb a "--cache" || String.eqb a "-cache") args,
   existsb (fun a => String.eqb a "--all" || String.eqb a "-all") args).
Proof. unfold cleanFlags. by rewrite cleanFlags_acc. Qed.

Lemma buildLoop_filtered (args : list string) (acc : BuildFlags) :
  exists l,
    filteredArgs (buildLoop args acc) = (filteredArgs acc ++ l)%list /\
    l `sublist_of` args /\
    (forall a, a ∈ l -> a <> "--watch" /\ a <> "-watch") /\
    (isWatch (buildLoop args acc) = true ->
     isWatch acc = true \/ "--watch" ∈ args \/ "-watch" ∈ args).
Proof.
  revert acc. induction args as [args IH] using (induction_ltof1 _ (@length _)).
  unfold ltof in IH. intros acc. destruct args as [|a args].
  { exists []. rewrite app_nil_r. split; [done|]. split; [done|].
    split; [by intros a ?%elem_of_nil|]. intros Hr. by left. }
  cbn [buildLoop].
  destruct (String.eqb a "--watch" || String.eqb a "-watch") eqn:Hw.
  - destruct (IH args ltac:(cbn; lia) (mkBuildFlags true (cpuProfile acc) (memProfile acc)
                                       (filteredArgs acc))) as (l & E & Hs & Hn & _).
    exists l. rewrite E. cbn [filteredArgs]. split; [done|]. split; [by apply sublist_cons|].
    split; [done|]. intros _. right.
    apply orb_true_iff in Hw as [Hw|Hw]; apply String.eqb_eq in Hw; subst.
    + left. apply elem_of_cons. by left.
    + right. apply elem_of_cons. by left.
  - apply orb_false_iff in Hw as [Hw1 Hw2]. apply String.eqb_neq in Hw1, Hw2.
    assert (Hkeep : forall acc',
              filteredArgs acc' = (filteredArgs acc ++ [a])%list -> isWatch acc' = isWatch acc ->
              exists l,
                filteredArgs (buildLoop args acc') = (filteredArgs acc ++ l)%list /\
                l `sublist_of` a :: args /\
                (forall x, x ∈ l -> x <> "--watch" /\ x <> "-watch") /\
                (isWatch (buildLoop args acc') = true ->
                 isWatch acc = true \/ "--watch" ∈ a :: args \/ "-watch" ∈ a :: args)).
    { intros acc' Hf Hi.
      destruct (IH args ltac:(cbn; lia) acc') as (l & E & Hs & Hn & Hi').
      exists (a :: l). rewrite E, Hf, <- app_assoc. split; [done|].
      split; [by apply sublist_skip|]. split.
      - intros x [->|Hx]%elem_of_cons; [done|by apply Hn].
      - intros Hr. destruct (Hi' Hr) as [?|[?|?]]; [left; congruence| |].
        + right. left. apply elem_of_cons. by right.
        + right. right. apply elem_of_cons. by right. }
    destruct args as [|value rest]; [by apply Hkeep|].
    assert (Hskip : forall acc',
              filteredArgs acc' = filteredArgs acc -> isWatch acc' = isWatch acc ->
              exists l,
                filteredArgs (buildLoop rest acc') = (filteredArgs acc ++ l)%list /\
                l `sublist_of` a :: value :: rest /\
                (forall x, x ∈ l -> x <> "--watch" /\ x <> "-watch") /\
                (isWatch (buildLoop rest acc') = true ->
                 isWatch acc = true \/ "--watch" ∈ a :: value :: rest
                 \/ "-watch" ∈ a :: value :: rest)).
    { intros acc' Hf Hi.
      destruct (IH rest ltac:(cbn; lia) acc') as (l & E & Hs & Hn & Hi').
      exists l. rewrite E, Hf. split; [done|].
      split; [by do 2 apply sublist_cons|]. split; [done|].
      intros Hr. destruct (Hi' Hr) as [?|[?|?]]; [left; congruence| |].
      - right. left. do 2 (apply elem_of_cons; right). done.
      - right. right. do 2 (apply elem_of_cons; right). done. }
    destruct (String.eqb a "--cpuprofile"); [by apply Hskip|].
    destruct (String.eqb a "--memprofile"); [by apply Hskip|].
    by apply Hkeep.
Qed.

Lemma buildLoop_fields (args : list string) :
  forall acc,
    (forall acc2, isWatch acc = isWatch acc2 -> filteredArgs acc = filteredArgs acc2 ->
                  isWatch (buildLoop args acc) = isWatch (buildLoop args acc2) /\
                  filteredArgs (buildLoop args acc) = filteredArgs (buildLoop args acc2)) /\
    ("--cpuprofile" ∉ args -> cpuProfile (buildLoop args acc) = cpuProfile acc) /\
    ("--memprofile" ∉ args -> memProfile (buildLoop args acc) = memProfile acc).
Proof.
  induction args as [args IH] using (induction_ltof1 _ (@length _)).
  unfold ltof in IH. intros acc. destruct args as [|a args]; [done|].
  cbn [buildLoop].
  destruct (String.eqb a "--watch" || String.eqb a "-watch") eqn:Hw.
  { destruct (IH args ltac:(cbn; lia)
                (mkBuildFlags true (cpuProfile acc) (memProfile acc) (filteredArgs acc)))
      as (H1 & H2 & H3).
    split; [|split].
    - intros acc2 Hi Hf. apply H1; [done|]. done.
    - intros Hn. rewrite H2; [done|]. intros Hin. apply Hn. by apply list_elem_of_further.
    - intros Hn. rewrite H3; [done|]. intros Hin. apply Hn. by apply list_elem_of_further. }
  assert (Hkeep :
    (forall acc2, isWatch acc = isWatch acc2 -> filteredArgs acc = filteredArgs acc2 ->
       isWatch (buildLoop args (mkBuildFlags (isWatch acc) (cpuProfile acc) (memProfile acc)
                                  (filteredArgs acc ++ [a])%list)) =
       isWatch (buildLoop args (mkBuildFlags (isWatch acc2) (cpuProfile acc2) (memProfile acc2)
                                  (filteredArgs acc2 ++ [a])%list)) /\
       filteredArgs (buildLoop args (mkBuildFlags (isWatch acc) (cpuProfile acc)
                                       (memProfile acc) (filteredArgs acc ++ [a])%list)) =
       filteredArgs (buildLoop args (mkBuildFlags (isWatch acc2) (cpuProfile acc2)
                                       (memProfile acc2) (filteredArgs acc2 ++ [a])%list))) /\
    ("--cpuprofile" ∉ a :: args ->
     cpuProfile (buildLoop args (mkBuildFlags (isWatch acc) (cpuProfile acc) (memProfile acc)
                                   (filteredArgs acc ++ [a])%list)) = cpuProfile acc) /\
    ("--memprofile" ∉ a :: args ->
     memProfile (buildLoop args (mkBuildFlags (isWatch acc) (cpuProfile acc) (memProfile acc)
                                   (filteredArgs acc ++ [a])%list)) = memProfile acc)).
  { destruct (IH args ltac:(cbn; lia)
                (mkBuildFlags (isWatch acc) (cpuProfile acc) (memProfile acc)
                   (filteredArgs acc ++ [a])%list)) as (H1 & H2 & H3).
    split; [|split].
    - intros acc2 Hi Hf. apply H1; cbn; [done|by rewrite Hf].
    - intros Hn. rewrite H2; [done|]. intros Hin. apply Hn. by apply list_elem_of_further.
    - intros Hn. rewrite H3; [done|]. intros Hin. apply Hn. by apply list_elem_of_further. }
  destruct args as [|value rest]; [exact Hkeep|].
  destruct (String.eqb a "--cpuprofile") eqn:Hcpu.
  { apply String.eqb_eq in Hcpu. subst a.
    destruct (IH rest ltac:(cbn; lia)
                (mkBuildFlags (isWatch acc) value (memProfile acc) (filteredArgs acc)))
      as (H1 & _ & H3).
    split; [|split].
    - intros acc2 Hi Hf. by apply H1.
    - intros Hn. destruct Hn. apply list_elem_of_here.
    - intros Hn. rewrite H3; [done|]. intros Hin. apply Hn.
      by do 2 apply list_elem_of_further. }
  destruct (String.eqb a "--memprofile") eqn:Hmem; [|exact Hkeep].
  apply String.eqb_eq in Hmem. subst a.
  destruct (IH rest ltac:(cbn; lia)
              (mkBuildFlags (isWatch acc) (cpuProfile acc) value (filteredArgs acc)))
    as (H1 & H2 & _).
  split; [|split].
  - intros acc2 Hi Hf. by apply H1.
  - intros Hn. rewrite H2; [done|]. intros Hin. apply Hn.
    by do 2 apply list_elem_of_further.
  - intros Hn. destruct Hn. apply list_elem_of_here.
Qed.

(** X25. The arguments [kosh build] passes on are a subsequence of the
    ones it was given, in their order, and never contain a watch flag;
    and it watches only if a watch flag was given. The argument that
    directly follows [--cpuprofile] or [--memprofile] is taken as the
    profile's file name whatever it is, a watch flag included: it
    neither starts the watcher nor is passed on, the rest of the command
    line is read as if the pair were not there, and the profile is
    written to that file unless the flag occurs again later. *)
Theorem buildFlags_filtered (args : list string) :
  filteredArgs (buildFlags args) `sublist_of` args /\
  ("--watch" ∉ filteredArgs (buildFlags args)) /\
  ("-watch" ∉ filteredArgs (buildFlags args)) /\
  (isWatch (buildFlags args) = true -> "--watch" ∈ args \/ "-watch" ∈ args) /\
  (forall value rest,
     isWatch (buildFlags ("--cpuprofile" :: value :: rest)) = isWatch (buildFlags rest) /\
     filteredArgs (buildFlags ("--cpuprofile" :: value :: rest))
       = filteredArgs (buildFlags rest) /\
     ("--cpuprofile" ∉ rest ->
      cpuProfile (buildFlags ("--cpuprofile" :: value :: rest)) = value)) /\
  (forall value rest,
     isWatch (buildFlags ("--memprofile" :: value :: rest)) = isWatch (buildFlags rest) /\
     filteredArgs (buildFlags ("--memprofile" :: value :: rest))
       = filteredArgs (buildFlags rest) /\
     ("--memprofile" ∉ rest ->
      memProfile (buildFlags ("--memprofile" :: value :: rest)) = value)).
Proof.
  split; [|split; [|split; [|split; [|split]]]].
  1-4: unfold buildFlags;
       destruct (buildLoop_filtered args (mkBuildFlags false "" "" []))
         as (l & E & Hs & Hn & Hw); rewrite ?E; cbn [filteredArgs app].
  - done.
  - intros Hin. by destruct (Hn _ Hin).
  - intros Hin. by destruct (Hn _ Hin).
  - intros Hr. by destruct (Hw Hr) as [?|?].
  - intros value rest. unfold buildFlags. cbn [buildLoop String.eqb Ascii.eqb Bool.eqb orb].
    destruct (buildLoop_fields rest (mkBuildFlags false value "" [])) as (H1 & H2 & _).
    destruct (H1 (mkBuildFlags false "" "" []) eq_refl eq_refl) as [Hi Hf].
    split; [done|]. split; [done|]. intros Hn. exact (H2 Hn).
  - intros value rest. unfold buildFlags. cbn [buildLoop String.eqb Ascii.eqb Bool.eqb orb].
    destruct (buildLoop_fields rest (mkBuildFlags false "" value [])) as (H1 & _ & H3).
    destruct (H1 (mkBuildFlags false "" "" []) eq_refl eq_refl) as [Hi Hf].
    split; [done|]. split; [done|]. intros Hn. exact (H3 Hn).
Qed.

Lemma buildLoop_plain (args : list string) (acc : BuildFlags) :
  Forall (fun a => a <> "--watch" /\ a <> "-watch" /\
                   a <> "--cpuprofile" /\ a <> "--memprofile") args ->
  buildLoop args acc =
  mkBuildFlags (isWatch acc) (cpuProfile acc) (memProfile acc) (filteredArgs acc ++ args)%list.
Proof.
  intros Hall. revert acc. induction Hall as [|a args Ha Hall IH]; intros acc.
  - cbn. rewrite app_nil_r. by destruct acc.
  - cbn [buildLoop]. destruct Ha as (H1 & H2 & H3 & H4).
    apply String.eqb_neq in H1, H2, H3, H4. rewrite H1, H2, H3, H4. cbn [orb].
    destruct args as [|value rest]; rewrite IH; cbn; by rewrite <- app_assoc.
Qed.

(** X26. Arguments that contain none of the four flags of [kosh build]
    are passed on unchanged, with the watcher and both profiles off. *)
Theorem buildFlags_plain (args : list string) :
  Forall (fun a => a <> "--watch" /\ a <> "-watch" /\
                   a <> "--cpuprofile" /\ a <> "--memprofile") args ->
  buildFlags args = mkBuildFlags false "" "" args.
Proof. intros Hall. unfold buildFlags. by rewrite buildLoop_plain. Qed.

End CliFacts.

(** * Progress of the publish step *)

Section PublishExtras.

Import services.

Lemma step_progress n invs j g i p :
  Z.of_nat n <= 2 ^ 31 ->
  (length invs <= n)%nat ->
  publish_inv n invs g ->
  pcs g !! i = Some p ->
  exists p',
    pcs (step j g) !! i = Some p' /\
    (threads.stepsDone p <= threads.stepsDone p')%nat /\
    (j = i -> (Nat.min 2 (S (threads.stepsDone p)) <= threads.stepsDone p')%nat).
Proof.
  intros Hn Hinvs Hinv Hp.
  pose proof (step_inv n invs j g Hn Hinvs Hinv) as (Hok' & _).
  destruct Hinv as (Hok & _).
  unfold step in *. rewrite Hok in *.
  destruct (pcs g !! j) as [[d|id d|id d|]|] eqn:Hj.
  - cbn [pcs]. destruct (decide (j = i)) as [->|Hne].
    + rewrite Hj in Hp. injection Hp as <-.
      exists (AtStore (AddInt32 (counter g) 1) d).
      rewrite list_lookup_insert_eq by (by eapply lookup_lt_Some). cbn. split; [done|lia].
    + exists p. rewrite list_lookup_insert_ne by done. split; [done|]. split; [lia|done].
  - destruct (slice_store (slots g) id (withID id d)) as [l|]; [|done].
    cbn [pcs]. destruct (decide (j = i)) as [->|Hne].
    + rewrite Hj in Hp. injection Hp as <-.
      exists (Finished id d).
      rewrite list_lookup_insert_eq by (by eapply lookup_lt_Some). cbn. split; [done|lia].
    + exists p. rewrite list_lookup_insert_ne by done. split; [done|]. split; [lia|done].
  - exists p. split; [done|]. split; [lia|]. intros ->.
    rewrite Hj in Hp. injection Hp as <-. cbn. lia.
  - exists p. split; [done|]. split; [lia|]. intros ->.
    rewrite Hj in Hp. injection Hp as <-. cbn. lia.
  - exists p. split; [done|]. split; [lia|]. intros ->. congruence.
Qed.

Lemma run_progress n invs sched g i p :
  Z.of_nat n <= 2 ^ 31 ->
  (length invs <= n)%nat ->
  publish_inv n invs g ->
  pcs g !! i = Some p ->
  exists p',
    pcs (run sched g) !! i = Some p' /\
    (threads.stepsDone p <= threads.stepsDone p')%nat.
Proof.
  intros Hn Hinvs. unfold run. revert g p.
  induction sched as [|j sched IH]; intros g p Hinv Hp; cbn [foldl]; [by exists p|].
  destruct (step_progress n invs j g i p Hn Hinvs Hinv Hp) as (p1 & Hp1 & Hle & _).
  destruct (IH (step j g) p1 (step_inv n invs j g Hn Hinvs Hinv) Hp1) as (p' & Hp' & Hle').
  exists p'. split; [done|lia].
Qed.


End PublishExtras.

(** * The further properties on concrete sites *)

Section ExtraScenarios.

Import services scenario.

#[local] Existing Instances fixture.memCache fixture.memFs fixture.markdown fixture.utils.

Lemma memCache_delete_frame (c : fixture.MemCache) (id id' : string) :
  id' <> id -> GetPost (DeletePost c id).1 id' = GetPost c id'.
Proof.
  intros Hne. cbn. unfold fixture.postByID. cbn. f_equal.
  induction (fixture.mc_posts c) as [|m l IH]; [done|]. cbn.
  destruct (String.eqb (cache.PostID m) id) eqn:E1; cbn.
  - apply String.eqb_eq in E1.
    destruct (String.eqb (cache.PostID m) id') eqn:E2; [|done].
    apply String.eqb_eq in E2. congruence.
  - destruct (String.eqb (cache.PostID m) id'); [done|apply IH].
Qed.

Lemma memCache_delete_gone (c : fixture.MemCache) (id : string) :
  GetPost (DeletePost c id).1 id = Ok None.
Proof.
  cbn. unfold fixture.postByID. cbn. f_equal.
  induction (fixture.mc_posts c) as [|m l IH]; [done|]. cbn.
  destruct (String.eqb (cache.PostID m) id) eqn:E1; cbn; [done|]. by rewrite E1.
Qed.

(** X3 on the site with the one post [a.md], whose cache also holds the
    record of a post that is gone: the record of [a.md] survives the
    sweep, the other does not. *)
Lemma staleSweep_keeps_existing_witness :
  let st := initState (Some cases.cacheStale) ([] : fixture.MemFs) in
  (forall (c : fixture.MemCache) id id',
     id' <> id -> GetPost (DeletePost c id).1 id' = GetPost c id') /\
  (forall (c : fixture.MemCache) id, GetPost (DeletePost c id).1 id = Ok None) /\
  cacheSt st = Some cases.cacheStale /\
  exists st' c',
    staleSweep (existingFilesOf (svc cfg0 oneFile) ["content/a.md"]) st = (Val tt, st') /\
    cacheSt st' = Some c' /\
    GetPost c' "a.md" = Ok (Some cachedA) /\
    GetPost c' "gone.md" = Ok None.
Proof.
  intros st.
  assert (Hc : cacheSt st = Some cases.cacheStale) by reflexivity.
  split; [exact memCache_delete_frame|]. split; [exact memCache_delete_gone|].
  split; [exact Hc|].
  destruct (staleSweep_keeps_existing (existingFilesOf (svc cfg0 oneFile) ["content/a.md"])
              st cases.cacheStale memCache_delete_frame memCache_delete_gone Hc)
    as (st' & c' & E & Hc' & Hkeep & _ & Hpurge & _).
  exists st', c'. split; [exact E|]. split; [exact Hc'|]. split.
  - rewrite (Hkeep "a.md"); [reflexivity|].
    intros meta [= <-]. vm_compute. reflexivity.
  - apply (Hpurge _ "gone.md" cases.cachedGone eq_refl).
    + apply list_elem_of_further, list_elem_of_here.
    + reflexivity.
    + vm_compute. intros [=].
Defined.

(** X4 on the cache that holds the record of [a.md]. *)
Lemma warmup_seeds_witness :
  let st := initState (Some cacheA) ([] : fixture.MemFs) in
  cacheSt st = Some cacheA /\
  ListAllPosts = Some (fun c : fixture.MemCache => map cache.PostID (fixture.mc_posts c)) /\
  exists st',
    warmup st = (Val tt, st') /\
    allMetadataMap st' !! "/a.html" = Some (metadataOfCached cachedA).
Proof.
  intros st.
  assert (Hc : cacheSt st = Some cacheA) by reflexivity.
  assert (Hl : ListAllPosts (CacheService := fixture.memCache)
               = Some (fun c : fixture.MemCache => map cache.PostID (fixture.mc_posts c)))
    by reflexivity.
  split; [exact Hc|]. split; [exact Hl|].
  destruct (warmup_seeds st cacheA _ Hc Hl) as (st' & E & Hin & _).
  exists st'. split; [exact E|].
  destruct (Hin cachedA) as (cp' & Hcp' & _ & Hm).
  { apply list_elem_of_singleton. reflexivity. }
  apply list_elem_of_singleton in Hcp'. rewrite Hcp' in Hm. exact Hm.
Defined.

(** X12 on the site with one post, built under a cancelled context. *)
Lemma cancelled_build_processes_nothing_witness :
  (forall n, cases.cancelled n = true) /\
  exists r st',
    Process (libI := freshDisk) (svc cfg0 oneFile) noFlags cases.cancelled
      (initState (None : option fixture.MemCache) ([] : fixture.MemFs)) = (Val r, st') /\
    IndexedPosts r = [models.IndexedPost_zero] /\ AnyPostChanged r = false /\
    renderedPages st' = [].
Proof.
  split; [intros n; reflexivity|].
  destruct (cancelled_build_processes_nothing (libI := freshDisk) (svc cfg0 oneFile) noFlags
              cases.cancelled (None : option fixture.MemCache) ([] : fixture.MemFs)
              (fun n => eq_refl))
    as (r & st' & E & Hi & Ha & _ & _ & Hr & _).
  exists r, st'. split; [exact E|]. split; [exact Hi|]. split; [exact Ha|exact Hr].
Defined.

(** X13 on a queue with one hole and one task. *)
Lemma renderLoop_renders_queued_witness :
  (forall n, never n = false) /\
  exists st',
    renderLoop never ∅ ∅ 0 cases.queue
      (initState (None : option fixture.MemCache) ([] : fixture.MemFs)) = (Val tt, st') /\
    map fst (renderedPages st') ≡ₚ ["public/b.html"].
Proof.
  split; [intros n; reflexivity|].
  destruct (renderLoop_renders_queued never ∅ ∅ cases.queue
              (initState (None : option fixture.MemCache) ([] : fixture.MemFs))
              (fun n => eq_refl))
    as (st' & E & Hp & _).
  exists st'. split; [exact E|exact Hp].
Defined.

(** X16 on a watched site: a style sheet changed. *)
Lemma other_paths_full_build_witness :
  run.isContentMarkdown builderEdited "static/css/site.css" = false /\
  run.rebuilds (run.BuildChanged (libI := freshDisk) builderEdited false "static/css/site.css"
                  fsnotify.Write) = [run.EBuild].
Proof.
  split; [reflexivity|].
  exact (proj1 (other_paths_full_build (libI := freshDisk) builderEdited "static/css/site.css"
                  fsnotify.Write eq_refl)).
Defined.

(** X17 on a watched site: [a.md] was removed. *)
Lemma removed_post_full_build_witness :
  fsnotify.Has fsnotify.Remove fsnotify.Remove
    || fsnotify.Has fsnotify.Remove fsnotify.Rename = true /\
  run.isContentMarkdown builderEdited "content/a.md" = true /\
  run.rebuilds (run.BuildChanged (libI := freshDisk) builderEdited false "content/a.md"
                  fsnotify.Remove) = [run.EBuild] /\
  run.EDeletePost "a.md"
    ∈ run.BuildChanged (libI := freshDisk) builderEdited false "content/a.md" fsnotify.Remove.
Proof.
  split; [reflexivity|]. split; [reflexivity|].
  destruct (removed_post_full_build (libI := freshDisk) builderEdited "content/a.md"
              fsnotify.Remove eq_refl eq_refl) as (Hr & _ & Hd & _).
  split; [exact Hr|].
  apply Hd. split; [reflexivity|]. split; [by eexists|reflexivity].
Defined.

(** X18 on a watched site: an event for [b.md], which cannot be read. *)
Lemma unreadable_post_build_not_saved_witness :
  fsnotify.Has fsnotify.Write fsnotify.Remove
    || fsnotify.Has fsnotify.Write fsnotify.Rename = false /\
  run.isContentMarkdown builderEdited "content/b.md" = true /\
  ReadFile (run.SourceFs builderEdited) "content/b.md" = None /\
  run.rebuilds (run.BuildChanged (libI := freshDisk) builderEdited false "content/b.md"
                  fsnotify.Write) = [run.EBuild] /\
  (run.ESaveCaches
     ∉ run.BuildChanged (libI := freshDisk) builderEdited false "content/b.md" fsnotify.Write).
Proof.
  assert (H3 : ReadFile (run.SourceFs builderEdited) "content/b.md" = None) by reflexivity.
  split; [reflexivity|]. split; [reflexivity|]. split; [exact H3|].
  destruct (unreadable_post_build_not_saved (libI := freshDisk) builderEdited "content/b.md"
              fsnotify.Write eq_refl eq_refl H3) as (Hr & Hs & _).
  split; [exact Hr|exact Hs].
Defined.

(** X19 on a watched site whose cache record of [a.md] has no body
    hash: the unchanged file is rebuilt alone. *)
Lemma missing_body_hash_rebuilds_witness :
  fsnotify.Has fsnotify.Write fsnotify.Remove
    || fsnotify.Has fsnotify.Write fsnotify.Rename = false /\
  run.isContentMarkdown cases.builderNoBodyHash "content/a.md" = true /\
  ReadFile (run.SourceFs cases.builderNoBodyHash) "content/a.md" = Some "hello" /\
  run.lookupHashes cases.builderNoBodyHash "a.md" = (true, "f:", "") /\
  run.rebuilds (run.BuildChanged (libI := freshDisk) cases.builderNoBodyHash false
                  "content/a.md" fsnotify.Write)
  = [run.EProcessSingle "content/a.md"].
Proof.
  assert (H3 : ReadFile (run.SourceFs cases.builderNoBodyHash) "content/a.md" = Some "hello")
    by reflexivity.
  assert (H4 : run.lookupHashes cases.builderNoBodyHash
                 (SafeRel (config.ContentDir (run.cfg cases.builderNoBodyHash))
                    "content/a.md").1 = (true, "f:", "")) by reflexivity.
  assert (H5 : "f:" = GetFrontmatterHash (meta_Get (Parse "content/a.md" "hello")))
    by reflexivity.
  split; [reflexivity|]. split; [reflexivity|]. split; [exact H3|].
  split; [exact H4|].
  exact (missing_body_hash_rebuilds (libI := freshDisk) cases.builderNoBodyHash
           "content/a.md" "hello" "f:" fsnotify.Write eq_refl eq_refl H3 H4 H5).
Defined.

(** X21 on a watched site whose build fails: a changed style sheet. *)
Lemma failed_build_not_saved_witness :
  run.Build_fails cases.builderFailing = true /\
  run.EBuild ∈ run.BuildChanged (libI := freshDisk) cases.builderFailing false
                 "static/css/site.css" fsnotify.Write /\
  (run.ESaveCaches ∉ run.BuildChanged (libI := freshDisk) cases.builderFailing false
                       "static/css/site.css" fsnotify.Write).
Proof.
  assert (Hb : run.EBuild ∈ run.BuildChanged (libI := freshDisk) cases.builderFailing false
                              "static/css/site.css" fsnotify.Write).
  { vm_compute. do 2 apply list_elem_of_further. apply list_elem_of_here. }
  split; [reflexivity|]. split; [exact Hb|].
  exact (failed_build_not_saved (libI := freshDisk) cases.builderFailing false
           "static/css/site.css" fsnotify.Write eq_refl Hb).
Defined.

(** X26 on a command line that names a configuration file. *)
Lemma buildFlags_plain_witness :
  Forall (fun a => a <> "--watch" /\ a <> "-watch" /\
                   a <> "--cpuprofile" /\ a <> "--memprofile") ["-config"; "site.yaml"] /\
  cli.buildFlags ["-config"; "site.yaml"] = cli.mkBuildFlags false "" "" ["-config"; "site.yaml"].
Proof.
  assert (H : Forall (fun a => a <> "--watch" /\ a <> "-watch" /\
                               a <> "--cpuprofile" /\ a <> "--memprofile")
                     ["-config"; "site.yaml"]).
  { repeat constructor; discriminate. }
  split; [exact H|]. exact (buildFlags_plain ["-config"; "site.yaml"] H).
Defined.


End ExtraScenarios.
